(** * lemmy2opml: community identities, URL resolution and outline conversion

    A shallow embedding of [lemmy2opml.py]: the sort-order table, the
    [LemmyCommunity] parsers and renderers, the traversal of an OPML body
    ([_walk_outlines], [from_opml]) and the construction of the body in
    [LemmyClient.subscribed_to_opml]; then the client: [to_https],
    [LemmyClient.__init__], [login], [subscribed_communities],
    [resolve_community], [subscribe], and the loop of
    [import_communities]. What the site answers is an argument of the
    functions that send requests.

    Conventions.
    - A Python [str] is a Rocq [string]; the character with code [n] stands
      for the code point [n], so the development covers the strings whose
      code points are below 256, and every statement is about such strings.
      Beyond them the library does more: [urlsplit] rejects a netloc whose
      NFKC normal form holds one of [/?#@:], and [quote] raises
      [UnicodeEncodeError] on a lone surrogate.
    - A Python object of unknown type (a JSON value, an optional attribute)
      is a [pyval].
    - A call that may raise returns a [result]: [Ok v] or [Raise e]. *)

From Stdlib Require Import String Ascii ZArith.
From stdpp Require Import gmap strings list.

Local Open Scope string_scope.

(** ** Python values, exceptions and results *)

Inductive pyval : Type :=
| PyNone
| PyInt (z : Z)
| PyStr (s : string).

Global Instance pyval_eq_dec : EqDecision pyval.
Proof. solve_decision. Defined.

(** The reasons of the [ValueError]s the program and [urlsplit] raise; each
    carries the value its message is formatted with. *)
Inductive value_error : Type :=
| NotACommunityUrl (url : pyval)
| NotAFeedUrl (url : pyval)
| NotACommunityFeedUrl (url : pyval)
| SortByNotInTable (sort_by_str : string)
| SortByNotSupported (sort_by_str : string) (is_kbin : bool)
| NoCommunityInOutline
| InvalidIPv6URL.

Inductive exn : Type :=
| ValueError (why : value_error)
| IndexError
| KeyError (key : string)
| TypeError
| AttributeError
| NotLoggedInError.

Inductive result (A : Type) : Type :=
| Ok (a : A)
| Raise (e : exn).
Arguments Ok {A} a.
Arguments Raise {A} e.

Global Instance result_ret : MRet result := fun A a => Ok a.
Global Instance result_bind : MBind result := fun A B f m =>
  match m with
  | Ok a => f a
  | Raise e => Raise e
  end.
Global Instance result_fmap : FMap result := fun A B f m =>
  match m with
  | Ok a => Ok (f a)
  | Raise e => Raise e
  end.

(** ** Operations of [str] and [list] *)

Module Py.

(** [bool(s)]: a string is true when it is not empty. *)
Definition truthy (s : string) : bool :=
  match s with
  | EmptyString => false
  | String _ _ => true
  end.

(** [c in s] for a one-character [c]. *)
Fixpoint contains (c : ascii) (s : string) : bool :=
  match s with
  | EmptyString => false
  | String d s' => Ascii.eqb d c || contains c s'
  end.

(** [s.split(sep)] for a one-character [sep], as its first piece and the
    remaining pieces: the result of [split] is never empty. *)
Fixpoint split_pieces (sep : ascii) (s : string) : string * list string :=
  match s with
  | EmptyString => (EmptyString, [])
  | String c s' =>
      let '(piece, pieces) := split_pieces sep s' in
      if Ascii.eqb c sep then (EmptyString, piece :: pieces)
      else (String c piece, pieces)
  end.

Definition split (sep : ascii) (s : string) : list string :=
  let '(piece, pieces) := split_pieces sep s in piece :: pieces.

(** [s.split(sep, 1)] when [sep in s]: the text before the first [sep] and
    the text after it; [None] when [sep] does not occur. *)
Fixpoint split_once (sep : ascii) (s : string) : option (string * string) :=
  match s with
  | EmptyString => None
  | String c s' =>
      if Ascii.eqb c sep then Some (EmptyString, s')
      else match split_once sep s' with
           | Some (before, after) => Some (String c before, after)
           | None => None
           end
  end.

(** [s.replace(old, new)] for one-character [old] and [new]. *)
Fixpoint replace_char (old new : ascii) (s : string) : string :=
  match s with
  | EmptyString => EmptyString
  | String c s' =>
      String (if Ascii.eqb c old then new else c) (replace_char old new s')
  end.

(** [s.replace(old, "")] for a one-character [old]. *)
Fixpoint remove_char (old : ascii) (s : string) : string :=
  match s with
  | EmptyString => EmptyString
  | String c s' =>
      if Ascii.eqb c old then remove_char old s'
      else String c (remove_char old s')
  end.

(** [s.lstrip(chars)], [chars] given as a predicate. *)
Fixpoint lstrip (strip : ascii -> bool) (s : string) : string :=
  match s with
  | EmptyString => EmptyString
  | String c s' => if strip c then lstrip strip s' else s
  end.

(** [s.rfind(c)] for a one-character [c]: the highest index, or -1. *)
Fixpoint rfind (c : ascii) (s : string) : Z :=
  match s with
  | EmptyString => (-1)%Z
  | String d s' =>
      let r := rfind c s' in
      if (0 <=? r)%Z then (r + 1)%Z
      else if Ascii.eqb d c then 0%Z else (-1)%Z
  end.

(** [s[:n]] and [s[n:]] for [0 <= n]. *)
Fixpoint take (n : nat) (s : string) : string :=
  match n, s with
  | S n', String c s' => String c (take n' s')
  | _, _ => EmptyString
  end.

Fixpoint drop (n : nat) (s : string) : string :=
  match n, s with
  | S n', String _ s' => drop n' s'
  | _, _ => s
  end.

(** [s.startswith(prefix)]. *)
Fixpoint startswith (prefix s : string) : bool :=
  match prefix, s with
  | EmptyString, _ => true
  | String p prefix', String c s' => Ascii.eqb c p && startswith prefix' s'
  | String _ _, EmptyString => false
  end.

(** [s.lower()] on ASCII letters. *)
Definition lower_char (c : ascii) : ascii :=
  let n := nat_of_ascii c in
  if (65 <=? n)%nat && (n <=? 90)%nat then ascii_of_nat (n + 32) else c.

Fixpoint lower (s : string) : string :=
  match s with
  | EmptyString => EmptyString
  | String c s' => String (lower_char c) (lower s')
  end.

Fixpoint all_chars (p : ascii -> bool) (s : string) : bool :=
  match s with
  | EmptyString => true
  | String c s' => p c && all_chars p s'
  end.

(** [sep.join(l)]. *)
Fixpoint join (sep : string) (l : list string) : string :=
  match l with
  | [] => EmptyString
  | [s] => s
  | s :: l' => s ++ sep ++ join sep l'
  end.

(** [l[i]] for [0 <= i]: [IndexError] past the end. *)
Definition index {A : Type} (l : list A) (i : nat) : result A :=
  match l !! i with
  | Some x => Ok x
  | None => Raise IndexError
  end.

(** [d[key]] on a dict: [KeyError] when the key is absent. *)
Definition getitem {V : Type} (d : gmap string V) (key : string) : result V :=
  match d !! key with
  | Some v => Ok v
  | None => Raise (KeyError key)
  end.

(** [d.get(key)]: [None] when the key is absent. *)
Definition get (d : gmap string pyval) (key : string) : pyval :=
  match d !! key with
  | Some v => v
  | None => PyNone
  end.

End Py.

(** ** [posixpath.splitext] *)

Module posixpath.

(** The loop of [_splitext] that skips leading dots: is some character of
    [p[filenameIndex:dotIndex]] not a dot? [p] is given from
    [filenameIndex] on and [n] is [dotIndex - filenameIndex]. *)
Fixpoint has_non_dot (n : nat) (p : string) : bool :=
  match n, p with
  | S n', String c p' => negb (Ascii.eqb c ".") || has_non_dot n' p'
  | _, _ => false
  end.

(** [splitext(p)]: the extension runs from the last dot of the last path
    component to the end, leading dots of that component not counting. *)
Definition splitext (p : string) : string * string :=
  let sepIndex := Py.rfind "/" p in
  let dotIndex := Py.rfind "." p in
  if (sepIndex <? dotIndex)%Z
     && has_non_dot (Z.to_nat (dotIndex - (sepIndex + 1)))
                    (Py.drop (Z.to_nat (sepIndex + 1)) p)
  then (Py.take (Z.to_nat dotIndex) p, Py.drop (Z.to_nat dotIndex) p)
  else (p, EmptyString).

End posixpath.

(** ** [urllib.parse]

    [urlsplit], [urlunsplit], [quote_plus] and [urlencode] as CPython 3.11
    defines them, for the arguments the program passes. *)

Module urllib.

(** The result of [urlsplit]: a [SplitResult] of strings, or the
    [SplitResultBytes] that a non-string argument gives. The only one the
    program can meet has five empty fields. *)
Record SplitResult : Type := mkSplitResult {
  scheme : string;
  netloc : string;
  path : string;
  query : string;
  fragment : string
}.

Inductive urlsplit_result : Type :=
| OfStr (r : SplitResult)
| OfBytes.

Definition uses_netloc : list string :=
  [""; "ftp"; "http"; "gopher"; "nntp"; "telnet";
   "imap"; "wais"; "file"; "mms"; "https"; "shttp";
   "snews"; "prospero"; "rtsp"; "rtspu"; "rsync";
   "svn"; "svn+ssh"; "sftp"; "nfs"; "git"; "git+ssh";
   "ws"; "wss"].

Definition between (lo hi : nat) (c : ascii) : bool :=
  let n := nat_of_ascii c in (lo <=? n)%nat && (n <=? hi)%nat.

Definition is_ascii_alpha (c : ascii) : bool :=
  between 65 90 c || between 97 122 c.

Definition is_digit (c : ascii) : bool := between 48 57 c.

(** [c in scheme_chars]. *)
Definition is_scheme_char (c : ascii) : bool :=
  is_ascii_alpha c || is_digit c
  || Ascii.eqb c "+" || Ascii.eqb c "-" || Ascii.eqb c ".".

(** [c in _WHATWG_C0_CONTROL_OR_SPACE]. *)
Definition is_c0_control_or_space (c : ascii) : bool :=
  (nat_of_ascii c <=? 32)%nat.

Definition TAB : ascii := "009"%char.
Definition LF : ascii := "010"%char.
Definition CR : ascii := "013"%char.

(** The loop over [_UNSAFE_URL_BYTES_TO_REMOVE]. *)
Definition remove_unsafe (url : string) : string :=
  Py.remove_char LF (Py.remove_char CR (Py.remove_char TAB url)).

Definition is_netloc_delim (c : ascii) : bool :=
  Ascii.eqb c "/" || Ascii.eqb c "?" || Ascii.eqb c "#".

(** [_splitnetloc(url, 0)]: the domain runs up to the earliest of the
    delimiters [/], [?] and [#]. *)
Fixpoint _splitnetloc (url : string) : string * string :=
  match url with
  | EmptyString => (EmptyString, EmptyString)
  | String c url' =>
      if is_netloc_delim c then (EmptyString, url)
      else let '(domain, rest) := _splitnetloc url' in (String c domain, rest)
  end.

(** The scheme of [urlsplit]: the text before the first colon, when it is
    not empty, starts with an ASCII letter and holds scheme characters
    only. Gives the scheme (default [""]) and the rest of the URL. *)
Definition split_scheme (url : string) : string * string :=
  match Py.split_once ":" url with
  | Some (String c0 before, after) =>
      if is_ascii_alpha c0 && Py.all_chars is_scheme_char (String c0 before)
      then (Py.lower (String c0 before), after)
      else (EmptyString, url)
  | _ => (EmptyString, url)
  end.

Section urlsplit.

(** [urlsplit] validates a netloc that holds both [[] and []] with the
    [ipaddress] module (in releases that have [_check_bracketed_netloc]
    or [_check_bracketed_host]); that validation is a parameter here:
    [true] when the netloc is accepted. *)
Variable bracketed_netloc_ok : string -> bool.

Definition check_brackets (netloc : string) : result unit :=
  let has_open := Py.contains "[" netloc in
  let has_close := Py.contains "]" netloc in
  if (has_open && negb has_close) || (has_close && negb has_open)
  then Raise (ValueError InvalidIPv6URL)
  else if has_open && has_close && negb (bracketed_netloc_ok netloc)
  then Raise (ValueError InvalidIPv6URL)
  else Ok tt.

(** [urlsplit(url)] for a [str]. [_checknetloc] does nothing on ASCII
    netlocs, and below code point 256 no character normalises under
    NFKC to one of [/?#@:], so it never raises here. *)
Definition urlsplit_str (url : string) : result SplitResult :=
  let url := Py.lstrip is_c0_control_or_space url in
  let url := remove_unsafe url in
  let '(scheme, url) := split_scheme url in
  '(netloc, url) ←
    match url with
    | String "/" (String "/" url') =>
        let '(netloc, rest) := _splitnetloc url' in
        _ ← check_brackets netloc;
        Ok (netloc, rest)
    | _ => Ok (EmptyString, url)
    end;
  let '(url, fragment) :=
    match Py.split_once "#" url with
    | Some (before, after) => (before, after)
    | None => (url, EmptyString)
    end in
  let '(url, query) :=
    match Py.split_once "?" url with
    | Some (before, after) => (before, after)
    | None => (url, EmptyString)
    end in
  Ok (mkSplitResult scheme netloc url query fragment).

(** [urlsplit(url)] for any argument: [_coerce_args] decodes a
    non-string; a false one ([None], [0]) becomes [""] and the result is
    encoded to bytes, another one has no [decode]. *)
Definition urlsplit (url : pyval) : result urlsplit_result :=
  match url with
  | PyStr s => OfStr <$> urlsplit_str s
  | PyNone => Ok OfBytes
  | PyInt z => if (z =? 0)%Z then Ok OfBytes else Raise AttributeError
  end.

End urlsplit.

(** [urlunsplit((scheme, netloc, url, query, fragment))]. *)
Definition urlunsplit (scheme netloc url query fragment : string) : string :=
  let url :=
    if Py.truthy netloc
       || (Py.truthy scheme && bool_decide (scheme ∈ uses_netloc)
           && negb (String.eqb (Py.take 2 url) "//"))
    then
      let url :=
        if Py.truthy url && negb (String.eqb (Py.take 1 url) "/")
        then "/" ++ url else url in
      "//" ++ netloc ++ url
    else url in
  let url := if Py.truthy scheme then scheme ++ ":" ++ url else url in
  let url := if Py.truthy query then url ++ "?" ++ query else url in
  let url := if Py.truthy fragment then url ++ "#" ++ fragment else url in
  url.

(** ** Quoting *)

Definition hex_digit (n : nat) : ascii :=
  match String.get n "0123456789ABCDEF" with
  | Some c => c
  | None => "0"%char
  end.

(** ['%{:02X}'.format(b)]. *)
Definition percent (b : nat) : string :=
  String "%" (String (hex_digit (b / 16)) (String (hex_digit (b mod 16)) EmptyString)).

(** [string.encode('utf-8')] on one code point below 256: one or two
    bytes, and no [UnicodeEncodeError], which the surrogates raise. *)
Definition utf8 (c : ascii) : list nat :=
  let n := nat_of_ascii c in
  if (n <? 128)%nat then [n] else [192 + n / 64; 128 + n mod 64]%nat.

(** [b in _ALWAYS_SAFE]. *)
Definition always_safe (b : nat) : bool :=
  let c := ascii_of_nat b in
  (b <? 128)%nat
  && (is_ascii_alpha c || is_digit c
      || Ascii.eqb c "_" || Ascii.eqb c "." || Ascii.eqb c "-" || Ascii.eqb c "~").

Definition quote_byte (safe : string) (b : nat) : string :=
  if always_safe b || ((b <? 128)%nat && Py.contains (ascii_of_nat b) safe)
  then String (ascii_of_nat b) EmptyString
  else percent b.

(** [quote(string, safe)] for a [str]. *)
Fixpoint quote (s : string) (safe : string) : string :=
  match s with
  | EmptyString => EmptyString
  | String c s' =>
      Py.join "" (map (quote_byte safe) (utf8 c)) ++ quote s' safe
  end.

(** [quote_plus(string)]. *)
Definition quote_plus (s : string) : string :=
  if negb (Py.contains " " s) then quote s ""
  else Py.replace_char " " "+" (quote s " ").

(** [urlencode(query)] for a dict of strings, given as the list of its
    items. *)
Definition urlencode (query : list (string * string)) : string :=
  Py.join "&" (map (fun '(k, v) => quote_plus k ++ "=" ++ quote_plus v) query).

End urllib.

(** ** [to_https] *)

Definition to_https (url : string) : string :=
  if Py.startswith "https://" url then url
  else if Py.startswith "http://" url then "https://" ++ Py.drop 7 url
  else "https://" ++ url.

(** ** [opyml]: the outline tree *)

Module opyml.

(** An [Outline] with the attributes the program reads and writes. A
    [Body] is the list of its [outlines]. *)
#[warnings="-register-all"]
Inductive Outline : Type := mkOutline {
  text : string;
  type : pyval;
  title : pyval;
  description : pyval;
  xml_url : pyval;
  html_url : pyval;
  outlines : list Outline
}.

(** [parent.outlines.append(child)]. *)
Definition append (parent child : Outline) : Outline :=
  mkOutline (text parent) (type parent) (title parent) (description parent)
            (xml_url parent) (html_url parent) (outlines parent ++ [child])%list.

End opyml.

(** One turn of the loop of [_walk_outlines]: the outlines that the
    generator yields for [outline], in order. *)
Fixpoint walk_outline (outline : opyml.Outline) : list opyml.Outline :=
  match outline with
  | opyml.mkOutline _ type _ _ _ _ outlines =>
      if bool_decide (type = PyStr "category")
      then (fix walk (l : list opyml.Outline) : list opyml.Outline :=
              match l with
              | [] => []
              | child :: l' => (walk_outline child ++ walk l')%list
              end) outlines
      else [outline]
  end.

(** [_walk_outlines(top)], as the list of the outlines it yields; [top] is
    given by [top.outlines]. *)
Definition _walk_outlines (top_outlines : list opyml.Outline) : list opyml.Outline :=
  flat_map walk_outline top_outlines.

(** ** The sort-order table *)

Record SortBy : Type := mkSortBy {
  lemmy : option string;
  kbin : option string
}.

Definition SORT_BY_VALUES : gmap string SortBy :=
  list_to_map
    [("top", mkSortBy (Some "TopAll") (Some "top"));
     ("hot", mkSortBy (Some "Hot") (Some "hot"));
     ("active", mkSortBy (Some "Active") (Some "active"));
     ("new", mkSortBy (Some "New") (Some "newest"));
     ("old", mkSortBy (Some "Old") None);
     ("mostcomments", mkSortBy (Some "MostComments") (Some "commented"));
     ("newcomments", mkSortBy (Some "NewComments") None)].

(** ** [LemmyCommunity] *)

Module LemmyCommunity.

Record t : Type := mk {
  instance : string;
  name : string;
  id : pyval;
  title : pyval;
  description : pyval;
  is_kbin : bool
}.

Section parsers.

Variable bracketed_netloc_ok : string -> bool.

Definition from_url (url id title description : pyval) : result t :=
  parsed ← urllib.urlsplit bracketed_netloc_ok url;
  match parsed with
  | urllib.OfBytes => Raise TypeError
  | urllib.OfStr parsed =>
      let path_tokens := drop 1 (Py.split "/" (urllib.path parsed)) in
      t0 ← Py.index path_tokens 0;
      is_kbin ←
        (if String.eqb t0 "c" then Ok false
         else if String.eqb t0 "m" then Ok true
         else Raise (ValueError (NotACommunityUrl url)));
      t1 ← Py.index path_tokens 1;
      Ok (mk (urllib.netloc parsed) t1 id title description is_kbin)
  end.

Definition from_feed_url (url : pyval) : result t :=
  parsed ← urllib.urlsplit bracketed_netloc_ok url;
  match parsed with
  | urllib.OfBytes => Raise TypeError
  | urllib.OfStr parsed =>
      let path_tokens := drop 1 (Py.split "/" (urllib.path parsed)) in
      t0 ← Py.index path_tokens 0;
      if negb (String.eqb t0 "feeds")
      then Raise (ValueError (NotAFeedUrl url))
      else
        t1 ← Py.index path_tokens 1;
        if negb (String.eqb t1 "c")
        then Raise (ValueError (NotACommunityFeedUrl url))
        else
          t2 ← Py.index path_tokens 2;
          Ok (mk (urllib.netloc parsed) (fst (posixpath.splitext t2))
                 PyNone PyNone PyNone false)
  end.

Definition from_dict (data : gmap string pyval) : result t :=
  url ← Py.getitem data "actor_id";
  id ← Py.getitem data "id";
  from_url url id (Py.get data "title") (Py.get data "description").

(** The two [try] blocks catch [ValueError] and [AttributeError]; any
    other exception leaves [from_outline]. *)
Definition from_outline (outline : opyml.Outline) : result t :=
  match from_url (opyml.html_url outline) PyNone PyNone PyNone with
  | Ok c => Ok c
  | Raise (ValueError _) | Raise AttributeError =>
      match from_feed_url (opyml.xml_url outline) with
      | Ok c => Ok c
      | Raise (ValueError _) | Raise AttributeError =>
          Raise (ValueError NoCommunityInOutline)
      | Raise e => Raise e
      end
  | Raise e => Raise e
  end.

(** The loop of [from_opml] over the outlines that [_walk_outlines]
    yields, from the state [(communities, failed)]. *)
Fixpoint from_opml_loop (walked : list opyml.Outline)
    (communities : list t) (failed : nat) : result (list t * nat) :=
  match walked with
  | [] => Ok (communities, failed)
  | outline :: walked' =>
      match from_outline outline with
      | Ok c => from_opml_loop walked' (communities ++ [c])%list failed
      | Raise (ValueError _) => from_opml_loop walked' communities (S failed)
      | Raise e => Raise e
      end
  end.

(** [from_opml(opml)], [opml] given by [opml.body.outlines]. *)
Definition from_opml (body : list opyml.Outline) : result (list t * nat) :=
  from_opml_loop (_walk_outlines body) [] 0%nat.

End parsers.

(** The exceptions of [from_text]: the [IndexError] of [text[0]] on the
    empty text, and the [ValueError] with the message
    [Invalid format: {text}]. *)
Inductive from_text_error : Type :=
| TextIndexError
| InvalidFormat (text : string).

Definition from_text (text : string) (is_kbin : bool) : from_text_error + t :=
  match String.get 0 text with
  | None => inl TextIndexError
  | Some c0 =>
      if negb (Ascii.eqb c0 "!") then inl (InvalidFormat text)
      else
        match Py.split "@" (Py.drop 1 text) with
        | [community; instance] =>
            inr (mk instance community PyNone PyNone PyNone is_kbin)
        | _ => inl (InvalidFormat text)
        end
  end.

Definition _resolve_sort_by (self : t) (sort_by_str : option string)
    : result (option string) :=
  match sort_by_str with
  | None => Ok None
  | Some sort_by_str =>
      match Py.getitem SORT_BY_VALUES sort_by_str with
      | Raise (KeyError _) => Raise (ValueError (SortByNotInTable sort_by_str))
      | Raise e => Raise e
      | Ok ambiguous_sort_by =>
          let actual_sort_by :=
            if is_kbin self then kbin ambiguous_sort_by
            else lemmy ambiguous_sort_by in
          match actual_sort_by with
          | None =>
              Raise (ValueError (SortByNotSupported sort_by_str (is_kbin self)))
          | Some token => Ok (Some token)
          end
      end
  end.

(** [try: sort_by = self._resolve_sort_by(sort_by)
    except ValueError: sort_by = None]. *)
Definition resolve_or_ignore (self : t) (sort_by : option string)
    : result (option string) :=
  match _resolve_sort_by self sort_by with
  | Ok sort_by => Ok sort_by
  | Raise (ValueError _) => Ok None
  | Raise e => Raise e
  end.

Definition html_url (self : t) (sort_by : option string) : result string :=
  sort_by ← resolve_or_ignore self sort_by;
  let '(path, q) :=
    if is_kbin self then
      ("/m/" ++ name self ++
         match sort_by with Some s => "/" ++ s | None => "" end,
       "")
    else
      ("/c/" ++ name self,
       match sort_by with
       | Some s => urllib.urlencode [("sort", s)]
       | None => ""
       end) in
  Ok (urllib.urlunsplit "https" (instance self) path q "").

Definition rss_url (self : t) (sort_by : option string) : result string :=
  sort_by ←
    match sort_by with
    | Some _ =>
        if is_kbin self then Ok sort_by else resolve_or_ignore self sort_by
    | None => Ok sort_by
    end;
  let '(path, q) :=
    if is_kbin self then
      ("/rss", urllib.urlencode [("magazine", name self)])
    else
      ("/feeds/c/" ++ name self ++ ".xml",
       match sort_by with
       | Some s => urllib.urlencode [("sort", s)]
       | None => ""
       end) in
  Ok (urllib.urlunsplit "https" (instance self) path q "").

Definition text (self : t) : string :=
  "!" ++ name self ++ "@" ++ instance self.

Definition to_outline (self : t) (sort_by : option string)
    (include_description : bool) : result opyml.Outline :=
  xml_url ← rss_url self sort_by;
  html_url ← html_url self sort_by;
  Ok (opyml.mkOutline
        (text self)
        (PyStr "rss")
        (title self)
        (if include_description then description self else PyNone)
        (PyStr xml_url)
        (PyStr html_url)
        []).

End LemmyCommunity.

(** ** [LemmyClient.subscribed_to_opml] *)

Module LemmyClient.

Record t : Type := mk {
  site_url : string;
  _parsed : urllib.SplitResult;
  instance : string;
  username : option string;
  auth_token : pyval
}.

(** [f"{x}"] for an optional string: [None] is formatted as its name. *)
Definition format_optional (x : option string) : string :=
  match x with
  | Some s => s
  | None => "None"
  end.

(** [not self.auth_token]: no token, or a false one. The token is the
    [jwt] of the answer to the login request, a JSON value. *)
Definition not_logged_in (self : t) : bool :=
  match auth_token self with
  | PyNone => true
  | PyInt z => (z =? 0)%Z
  | PyStr s => negb (Py.truthy s)
  end.

Definition base_api_url (self : t) : string :=
  site_url self ++ "/api/" ++ "v3".

Definition user_reference (self : t) : string :=
  "@" ++ format_optional (username self) ++ "@" ++ instance self.

Definition user_url (self : t) : string :=
  urllib.urlunsplit
    (urllib.scheme (_parsed self))
    (urllib.netloc (_parsed self))
    ("/u/" ++ format_optional (username self))
    (urllib.query (_parsed self))
    (urllib.fragment (_parsed self)).

(** [login(username, password)]: the client after the call and what the
    call does. The user name is stored before the request. [answer] is what
    the request, [raise_for_status] and [r.json()] give: the JSON object of
    the answer, or the exception, which is logged and raised again as the
    [KeyError] of a missing [jwt] is. The password goes into the request
    only. *)
Definition login (self : t) (username password : string)
    (answer : result (gmap string pyval)) : t * result unit :=
  let self :=
    mk (site_url self) (_parsed self) (instance self) (Some username)
       (auth_token self) in
  match data ← answer; Py.getitem data "jwt" with
  | Ok jwt =>
      (mk (site_url self) (_parsed self) (instance self) (Some username) jwt,
       Ok tt)
  | Raise e => (self, Raise e)
  end.

(** An entry of the list [follows] of the answer of the site: a JSON
    object whose values are JSON objects. *)
Definition follow : Type := gmap string (gmap string pyval).

(** [cat_outlines] is a dict that is iterated at the end: its keys come in
    insertion order, so it is an association list with distinct keys. *)
Definition dict := list (string * opyml.Outline).

(** [cat_outlines[key]] when [key in cat_outlines]. *)
Fixpoint dict_get (key : string) (d : dict) : option opyml.Outline :=
  match d with
  | [] => None
  | (k, v) :: d' => if String.eqb k key then Some v else dict_get key d'
  end.

(** The object stored at [key] is replaced, the key keeps its place; a new
    key goes to the end. *)
Fixpoint dict_set (key : string) (v : opyml.Outline) (d : dict) : dict :=
  match d with
  | [] => [(key, v)]
  | (k, v0) :: d' =>
      if String.eqb k key then (k, v) :: d' else (k, v0) :: dict_set key v d'
  end.

Section init.

Variable bracketed_netloc_ok : string -> bool.

(** [LemmyClient(site_url)]: [urlsplit] may raise. *)
Definition __init__ (site_url : string) : result t :=
  let site_url := to_https site_url in
  parsed ← urllib.urlsplit_str bracketed_netloc_ok site_url;
  Ok (mk site_url parsed (urllib.netloc parsed) None PyNone).

(** The loop of [subscribed_communities] over [follows]: a community that
    [from_dict] rejects is skipped, after a log entry that reads its
    [actor_id]. *)
Fixpoint collect_communities (follows : list follow)
    (communities : list LemmyCommunity.t) : result (list LemmyCommunity.t) :=
  match follows with
  | [] => Ok communities
  | c :: follows' =>
      community ← Py.getitem c "community";
      match LemmyCommunity.from_dict bracketed_netloc_ok community with
      | Ok parsed => collect_communities follows' (communities ++ [parsed])%list
      | Raise _ =>
          _ ← Py.getitem community "actor_id";
          collect_communities follows' communities
      end
  end.

(** [self.subscribed_communities]. [follows] is what the request to the
    site and the decoding of its answer give: the list
    [r.json()["my_user"]["follows"]], or the exception of the request; any
    exception inside the outer [try] is logged and raised again. *)
Definition subscribed_communities (self : t) (follows : result (list follow))
    : result (list LemmyCommunity.t) :=
  if not_logged_in self then Raise NotLoggedInError
  else
    follows ← follows;
    collect_communities follows [].

End init.

(** The requests of [resolve_community] and [subscribe]: the URL, and the
    values of the payload. *)
Inductive request : Type :=
| ResolveObject (url q : string) (auth : pyval)
| FollowCommunity (url : string) (community_id auth : pyval).

(** The site as the client sees it: the number of requests it has
    answered and the requests it was sent, the latest last. *)
Record network : Type := mkNetwork {
  answered : nat;
  sent : list request
}.

Section requests.

Variable bracketed_netloc_ok : string -> bool.

(** What the site gives for its [n]-th request: the JSON object of the
    answer, an object of objects of objects as the answer to
    [resolve_object] is, or the exception of the request or of
    [raise_for_status]. *)
Variable answers : nat -> result (gmap string follow).

Definition send (r : request) (net : network)
    : result (gmap string follow) * network :=
  (answers (answered net), mkNetwork (S (answered net)) (sent net ++ [r])).

(** [resolve_community(community)], for a record or a URL: the exception
    inside the [try] is logged and raised again. *)
Definition resolve_community (self : t) (community : LemmyCommunity.t + string)
    (net : network) : result LemmyCommunity.t * network :=
  if not_logged_in self then (Raise NotLoggedInError, net)
  else
    match
      match community with
      | inl community => LemmyCommunity.html_url community None
      | inr url => Ok url
      end
    with
    | Raise e => (Raise e, net)
    | Ok url =>
        let '(answer, net) :=
          send (ResolveObject (base_api_url self ++ "/resolve_object") url
                              (auth_token self)) net in
        (data ← answer;
         view ← Py.getitem data "community";
         community ← Py.getitem view "community";
         LemmyCommunity.from_dict bracketed_netloc_ok community,
         net)
    end.

(** [subscribe(community)]: a record without [id] is resolved first. *)
Definition subscribe (self : t) (community : LemmyCommunity.t) (net : network)
    : result unit * network :=
  if not_logged_in self then (Raise NotLoggedInError, net)
  else
    let '(resolved, net) :=
      match LemmyCommunity.id community with
      | PyNone => resolve_community self (inl community) net
      | _ => (Ok community, net)
      end in
    match resolved with
    | Raise e => (Raise e, net)
    | Ok community =>
        let cid := LemmyCommunity.id community in
        let '(answer, net) :=
          send (FollowCommunity (base_api_url self ++ "/community/follow") cid
                                (auth_token self)) net in
        (_ ← answer; Ok tt, net)
    end.

End requests.

Section body.

Variable categories : bool.
Variable sort_by : option string.

(** The loop over [communities], from the state
    [(body.outlines, cat_outlines)]. [parent] is either the body or the
    outline that the dict holds for the instance: appending to it changes
    the object in the dict. *)
Fixpoint add_communities (communities : list LemmyCommunity.t)
    (body : list opyml.Outline) (cat_outlines : dict)
    : result (list opyml.Outline * dict) :=
  match communities with
  | [] => Ok (body, cat_outlines)
  | c :: communities' =>
      if categories then
        let parent :=
          match dict_get (LemmyCommunity.instance c) cat_outlines with
          | Some parent => parent
          | None =>
              opyml.mkOutline (LemmyCommunity.instance c) (PyStr "category")
                              PyNone PyNone PyNone PyNone []
          end in
        leaf ← LemmyCommunity.to_outline c sort_by false;
        add_communities communities' body
          (dict_set (LemmyCommunity.instance c) (opyml.append parent leaf)
                    cat_outlines)
      else
        leaf ← LemmyCommunity.to_outline c sort_by false;
        add_communities communities' (body ++ [leaf])%list cat_outlines
  end.

(** Lines 472 to 486: the outlines of the body of the document. *)
Definition body_outlines (communities : list LemmyCommunity.t)
    : result (list opyml.Outline) :=
  '(body, cat_outlines) ← add_communities communities [] [];
  if categories then Ok (body ++ map snd cat_outlines)%list
  else Ok body.

(** [subscribed_to_opml], with the list that [self.subscribed_communities]
    returns as an argument: the part after line 459. The document is given
    by the outlines of its body; its head holds the title, the owner and
    the date, which the body does not depend on. *)
Definition opml_of (communities : list LemmyCommunity.t)
    : result (list opyml.Outline * nat) :=
  body ← body_outlines communities;
  Ok (body, length communities).

Variable bracketed_netloc_ok : string -> bool.

(** [subscribed_to_opml], with what the request to the site gives. *)
Definition subscribed_to_opml (self : t) (follows : result (list follow))
    : result (list opyml.Outline * nat) :=
  if not_logged_in self then Raise NotLoggedInError
  else
    communities ← subscribed_communities bracketed_netloc_ok self follows;
    opml_of communities.

End body.

End LemmyClient.

(** ** [_logged_on_client] *)

Section cli.

Variable bracketed_netloc_ok : string -> bool.

(** [_logged_on_client(ns)] for the [instance] and the [username] of the
    command line. [password] is what [_get_pass(ns)] gives, the password or
    the exception of reading it, after the client is made and before
    [login] is called; [answer] is the outcome of the login request. *)
Definition _logged_on_client (instance username : string)
    (password : result string) (answer : result (gmap string pyval))
    : result LemmyClient.t :=
  client ← LemmyClient.__init__ bracketed_netloc_ok instance;
  password ← password;
  let '(client, outcome) :=
    LemmyClient.login client username password answer in
  _ ← outcome;
  Ok client.

Variable answers : nat -> result (gmap string LemmyClient.follow).

(** The loop of [import_communities]: any exception of [subscribe] is
    caught and counted. Gives [(n_subscribed, n_failed)]. *)
Fixpoint subscribe_all (client : LemmyClient.t)
    (communities : list LemmyCommunity.t) (n_subscribed n_failed : nat)
    (net : LemmyClient.network) : nat * nat * LemmyClient.network :=
  match communities with
  | [] => (n_subscribed, n_failed, net)
  | c :: communities' =>
      let '(outcome, net) :=
        LemmyClient.subscribe bracketed_netloc_ok answers client c net in
      match outcome with
      | Ok _ => subscribe_all client communities' (S n_subscribed) n_failed net
      | Raise _ => subscribe_all client communities' n_subscribed (S n_failed) net
      end
  end.

(** [import_communities(ns)] from line 535 on, for the logged-on client
    and the document that was read, given by the outlines of its body:
    the numbers of subscribed communities and of failures that the last
    log entry reports. *)
Definition import_communities (client : LemmyClient.t)
    (body : list opyml.Outline) (net : LemmyClient.network)
    : result (nat * nat) * LemmyClient.network :=
  match LemmyCommunity.from_opml bracketed_netloc_ok body with
  | Raise e => (Raise e, net)
  | Ok (communities, parse_fails) =>
      let '(n_subscribed, n_failed, net) :=
        subscribe_all client communities 0 0 net in
      (Ok (n_subscribed, n_failed), net)
  end.

End cli.

(** * Notions of the specification *)

(** ** Records whose fields survive a URL

    The renderers put [instance] and [name] into the URL as they are. A
    character that [urlsplit] removes (tab, line feed, carriage return) or
    reads as a delimiter (slash, question mark, hash) changes what the
    parsers find there, and [urlsplit] rejects a host whose brackets it does
    not accept. *)

Definition name_safe (s : string) : bool :=
  negb (Py.contains urllib.TAB s) && negb (Py.contains urllib.LF s)
  && negb (Py.contains urllib.CR s)
  && negb (Py.contains "/" s) && negb (Py.contains "?" s)
  && negb (Py.contains "#" s).

(** [urlsplit] accepts the brackets of a netloc, if it has any. *)
Definition brackets_ok (bracketed_netloc_ok : string -> bool) (s : string) : bool :=
  match urllib.check_brackets bracketed_netloc_ok s with
  | Ok _ => true
  | Raise _ => false
  end.

Definition host_safe (bracketed_netloc_ok : string -> bool) (s : string) : bool :=
  name_safe s && brackets_ok bracketed_netloc_ok s.

Definition url_safe (bracketed_netloc_ok : string -> bool) (c : LemmyCommunity.t)
    : bool :=
  host_safe bracketed_netloc_ok (LemmyCommunity.instance c)
  && name_safe (LemmyCommunity.name c).

(** No tab, line feed, carriage return, question mark or hash: what
    [urlsplit] leaves in a path. *)
Definition path_safe (s : string) : bool :=
  negb (Py.contains urllib.TAB s) && negb (Py.contains urllib.LF s)
  && negb (Py.contains urllib.CR s)
  && negb (Py.contains "?" s) && negb (Py.contains "#" s).

(** A path that starts with one slash, as the paths of the renderers do. *)
Definition one_slash (path : string) : bool :=
  match path with
  | String "/" (String c0 _) => negb (Ascii.eqb c0 "/")
  | _ => false
  end.

(** The test of [_splitext] for a dot. *)
Definition is_dot (c : ascii) : bool := Ascii.eqb c ".".

(** The record that the parsers of a URL give for [c]: the same instance,
    name and platform, with the given [id], [title] and [description]. *)
Definition with_details (c : LemmyCommunity.t) (id title description : pyval)
    : LemmyCommunity.t :=
  LemmyCommunity.mk (LemmyCommunity.instance c) (LemmyCommunity.name c)
                    id title description (LemmyCommunity.is_kbin c).

(** What identifies a community: its host, its name and its platform. *)
Definition identity (c : LemmyCommunity.t) : string * string * bool :=
  (LemmyCommunity.instance c, LemmyCommunity.name c, LemmyCommunity.is_kbin c).

(** ** The sort names *)

(** The normalised names of the table. *)
Definition sort_names : list string :=
  ["top"; "hot"; "active"; "new"; "old"; "mostcomments"; "newcomments"].

(** ** Grouping by host *)

(** The hosts of a list of records, each once, in the order in which they
    first occur. *)
Fixpoint hosts_first_seen (hosts : list string) : list string :=
  match hosts with
  | [] => []
  | h :: hosts' =>
      h :: filter (fun h' => h' <> h) (hosts_first_seen hosts')
  end.

(** The records of a host, in the order of the list. *)
Definition of_instance (host : string) (cs : list LemmyCommunity.t)
    : list LemmyCommunity.t :=
  filter (fun c => LemmyCommunity.instance c = host) cs.

(** The category that holds the given leaves for a host. *)
Definition category (host : string) (leaves : list opyml.Outline) : opyml.Outline :=
  opyml.mkOutline host (PyStr "category") PyNone PyNone PyNone PyNone leaves.

(** A leaf of a document with the given [htmlUrl] and [xmlUrl]. *)
Definition rss_leaf (html_url xml_url : pyval) : opyml.Outline :=
  opyml.mkOutline "" (PyStr "rss") PyNone PyNone xml_url html_url [].

(** The leaf of a record: [to_outline] always returns one. *)
Definition leaf_of (sort_by : option string) (c : LemmyCommunity.t) : opyml.Outline :=
  match LemmyCommunity.to_outline c sort_by false with
  | Ok o => o
  | Raise _ => rss_leaf PyNone PyNone
  end.

(** One step of the loop with categories, on the dict. *)
Definition add_to_category (sort_by : option string)
    (cat_outlines : LemmyClient.dict) (c : LemmyCommunity.t) : LemmyClient.dict :=
  let host := LemmyCommunity.instance c in
  let parent :=
    match LemmyClient.dict_get host cat_outlines with
    | Some parent => parent
    | None => category host []
    end in
  LemmyClient.dict_set host (opyml.append parent (leaf_of sort_by c)) cat_outlines.

(** The dict of the specification: one category per host, in the order in
    which the hosts first occur, each with the leaves of its records. *)
Definition grouped (sort_by : option string) (cs : list LemmyCommunity.t)
    : LemmyClient.dict :=
  map (fun host => (host, category host (map (leaf_of sort_by) (of_instance host cs))))
      (hosts_first_seen (map LemmyCommunity.instance cs)).

(** ** Notions of the further properties *)

(** The tokens of the table. *)
Definition sort_tokens : list string :=
  ["TopAll"; "Hot"; "Active"; "New"; "Old"; "MostComments"; "NewComments";
   "top"; "hot"; "active"; "newest"; "commented"].

(** The characters that [urlsplit] removes, and the hash. *)
Definition breaks_query (x : ascii) : bool :=
  Ascii.eqb x urllib.TAB || Ascii.eqb x urllib.LF || Ascii.eqb x urllib.CR
  || Ascii.eqb x "#".

(** The records in the order of the categories: host by host, in the order
    in which the hosts first occur, the records of a host in the order of
    the list. *)
Definition regrouped (cs : list LemmyCommunity.t) : list LemmyCommunity.t :=
  flat_map (fun host => of_instance host cs)
           (hosts_first_seen (map LemmyCommunity.instance cs)).

(** The records that [from_dict] accepts among the communities of the
    follows, in order. *)
Definition parsed_follows (bracketed_netloc_ok : string -> bool)
    (follows : list LemmyClient.follow) : list LemmyCommunity.t :=
  flat_map
    (fun c : gmap string (gmap string pyval) =>
       match c !! "community" with
       | Some community =>
           match LemmyCommunity.from_dict bracketed_netloc_ok community with
           | Ok parsed => [parsed]
           | Raise _ => []
           end
       | None => []
       end)
    follows.

(** A follow with a community that has an [actor_id]. *)
Definition follow_ok (c : gmap string (gmap string pyval)) : bool :=
  match c !! "community" with
  | Some community =>
      match community !! "actor_id" with
      | Some _ => true
      | None => false
      end
  | None => false
  end.

(** A value that [not] takes for false. *)
Definition falsy (v : pyval) : bool :=
  match v with
  | PyNone => true
  | PyInt z => (z =? 0)%Z
  | PyStr s => negb (Py.truthy s)
  end.

(** What [urlunsplit] appends for a query and a fragment. *)
Definition query_and_fragment (parsed : urllib.SplitResult) : string :=
  (if Py.truthy (urllib.query parsed) then "?" ++ urllib.query parsed else "")
  ++ (if Py.truthy (urllib.fragment parsed)
      then "#" ++ urllib.fragment parsed else "").

(** The URLs that were sent to [resolve_object], and the community ids
    that were sent to [community/follow]. *)
Definition resolved (requests : list LemmyClient.request) : list string :=
  flat_map
    (fun r =>
       match r with
       | LemmyClient.ResolveObject _ q _ => [q]
       | LemmyClient.FollowCommunity _ _ _ => []
       end)
    requests.

Definition followed (requests : list LemmyClient.request) : list pyval :=
  flat_map
    (fun r =>
       match r with
       | LemmyClient.ResolveObject _ _ _ => []
       | LemmyClient.FollowCommunity _ community_id _ => [community_id]
       end)
    requests.

(** The records without [id]. *)
Definition without_id (cs : list LemmyCommunity.t) : list LemmyCommunity.t :=
  List.filter
    (fun c =>
       match LemmyCommunity.id c with
       | PyNone => true
       | _ => false
       end)
    cs.

(** [q] is the profile URL of [c], without a sort order. *)
Definition profile_of (q : string) (c : LemmyCommunity.t) : Prop :=
  LemmyCommunity.html_url c None = Ok q.

(** ** Concrete inputs *)

(** A validation of bracketed netlocs that accepts every netloc, as the
    releases of Python without such a validation do. *)
Definition any_bracketed_netloc : string -> bool := fun _ => true.

Definition lemmy_community : LemmyCommunity.t :=
  LemmyCommunity.mk "lemmy.ml" "rust" PyNone PyNone PyNone false.

Definition kbin_magazine : LemmyCommunity.t :=
  LemmyCommunity.mk "kbin.social" "rust" PyNone PyNone PyNone true.

(** A record whose name holds a slash. *)
Definition slash_community : LemmyCommunity.t :=
  LemmyCommunity.mk "lemmy.ml" "news/world" PyNone PyNone PyNone false.

(** An API record with an [id], and the same without. *)
Definition api_record : gmap string pyval :=
  <["actor_id" := PyStr "https://lemmy.ml/c/rust"]>
    (<["id" := PyInt 7]> (<["title" := PyStr "Rust"]> ∅)).

Definition api_record_without_id : gmap string pyval :=
  <["actor_id" := PyStr "https://lemmy.ml/c/rust"]>
    (<["title" := PyStr "Rust"]> ∅).

(** A document with a leaf of another site and a category. *)
Definition mixed_document : list opyml.Outline :=
  [rss_leaf (PyStr "https://lemmy.ml/c/rust") PyNone;
   rss_leaf (PyStr "https://example.org/blog/")
            (PyStr "https://example.org/feed.xml");
   category "kbin.social" [rss_leaf (PyStr "https://kbin.social/m/rust") PyNone]].

(** The API record of a user, which [from_dict] rejects, and the one of a
    Kbin magazine. *)
Definition api_user_record : gmap string pyval :=
  <["actor_id" := PyStr "https://lemmy.ml/u/alice"]> (<["id" := PyInt 8]> ∅).

Definition api_magazine_record : gmap string pyval :=
  <["actor_id" := PyStr "https://kbin.social/m/rust"]> (<["id" := PyInt 9]> ∅).

(** The follow of a community. *)
Definition follow_of (community : gmap string pyval) : LemmyClient.follow :=
  <["community" := community]> ∅.

Definition site_follows : list LemmyClient.follow :=
  [follow_of api_record; follow_of api_user_record;
   follow_of api_magazine_record].

(** The records of [site_follows]. *)
Definition subscribed_lemmy : LemmyCommunity.t :=
  LemmyCommunity.mk "lemmy.ml" "rust" (PyInt 7) (PyStr "Rust") PyNone false.

Definition subscribed_kbin : LemmyCommunity.t :=
  LemmyCommunity.mk "kbin.social" "rust" (PyInt 9) PyNone PyNone true.

(** The client of [lemmy.ml], before and after a login. *)
Definition fresh_client : LemmyClient.t :=
  LemmyClient.mk "https://lemmy.ml"
    (urllib.mkSplitResult "https" "lemmy.ml" "" "" "") "lemmy.ml" None PyNone.

Definition logged_in_client : LemmyClient.t :=
  LemmyClient.mk "https://lemmy.ml"
    (urllib.mkSplitResult "https" "lemmy.ml" "" "" "") "lemmy.ml"
    (Some "alice") (PyStr "token").

(** A site that answers its first request with the record of [api_record]
    and every other request with an empty object, and the state before
    the first request. *)
Definition resolved_answer : gmap string LemmyClient.follow :=
  <["community" := follow_of api_record]> ∅.

Definition site_answers (n : nat) : result (gmap string LemmyClient.follow) :=
  match n with
  | O => Ok resolved_answer
  | S _ => Ok ∅
  end.

Definition idle_network : LemmyClient.network := LemmyClient.mkNetwork 0 [].

(** A record whose instance holds a slash. *)
Definition slash_host_community : LemmyCommunity.t :=
  LemmyCommunity.mk "evil.example/x" "rust" PyNone PyNone PyNone false.

(** The export of [subscribed_lemmy] and [subscribed_kbin] with categories
    and the sort order [hot], and a document without categories that has
    the [htmlUrl]s of its leaves and nothing else. *)
Definition exported_document : list opyml.Outline :=
  [category "lemmy.ml" [leaf_of (Some "hot") subscribed_lemmy];
   category "kbin.social" [leaf_of (Some "hot") subscribed_kbin]].

Definition read_document : list opyml.Outline :=
  [rss_leaf (PyStr "https://lemmy.ml/c/rust?sort=Hot") PyNone;
   rss_leaf (PyStr "https://kbin.social/m/rust/hot") PyNone].

(** * Properties *)

(** ** Strings *)

Section string_facts.

(** Induction on a string that does not hold a character: the head is
    another character and the tail does not hold it either. *)
Ltac by_absence s :=
  let IH := fresh "IH" in
  let Hd := fresh "Hd" in
  let Hs := fresh "Hs" in
  induction s as [|? s IH]; simpl; [done|];
  intros [Hd Hs]%orb_false_iff; rewrite Hd; by rewrite IH.

Lemma contains_app c s1 s2 :
  Py.contains c (s1 ++ s2) = Py.contains c s1 || Py.contains c s2.
Proof.
  induction s1 as [|d s1 IH]; simpl; [done|].
  by rewrite IH, orb_assoc.
Qed.

Lemma remove_char_absent c s :
  Py.contains c s = false -> Py.remove_char c s = s.
Proof. by_absence s. Qed.

Lemma remove_unsafe_absent s :
  Py.contains urllib.TAB s = false ->
  Py.contains urllib.LF s = false ->
  Py.contains urllib.CR s = false ->
  urllib.remove_unsafe s = s.
Proof.
  intros Ht Hl Hc. unfold urllib.remove_unsafe.
  by rewrite (remove_char_absent _ _ Ht), (remove_char_absent _ _ Hc),
    (remove_char_absent _ _ Hl).
Qed.

Lemma split_once_absent c s :
  Py.contains c s = false -> Py.split_once c s = None.
Proof. by_absence s. Qed.

Lemma split_pieces_absent c s :
  Py.contains c s = false -> Py.split_pieces c s = (s, []).
Proof. by_absence s. Qed.

Lemma split_cons_sep c s :
  Py.split c (String c s) = EmptyString :: Py.split c s.
Proof.
  unfold Py.split. simpl. rewrite Ascii.eqb_refl.
  by destruct (Py.split_pieces c s).
Qed.

Lemma split_cons_other c d s :
  Ascii.eqb d c = false ->
  Py.split c (String d s) =
    match Py.split c s with
    | piece :: pieces => String d piece :: pieces
    | [] => []
    end.
Proof.
  intros Hd. unfold Py.split. simpl. rewrite Hd.
  by destruct (Py.split_pieces c s).
Qed.

Lemma split_absent c s :
  Py.contains c s = false -> Py.split c s = [s].
Proof.
  intros H. unfold Py.split. by rewrite split_pieces_absent.
Qed.

(** The domain of [host ++ rest] is [host] when [host] holds no delimiter
    and [rest] starts with one. *)
Lemma _splitnetloc_app host c rest :
  Py.contains "/" host = false ->
  Py.contains "?" host = false ->
  Py.contains "#" host = false ->
  urllib.is_netloc_delim c = true ->
  urllib._splitnetloc (host ++ String c rest) = (host, String c rest).
Proof.
  intros Hs Hq Hf Hc.
  induction host as [|d host IH]; simpl in *.
  - by rewrite Hc.
  - apply orb_false_iff in Hs as [Hs1 Hs2].
    apply orb_false_iff in Hq as [Hq1 Hq2].
    apply orb_false_iff in Hf as [Hf1 Hf2].
    unfold urllib.is_netloc_delim at 1. rewrite Hs1, Hq1, Hf1. simpl.
    by rewrite IH.
Qed.

End string_facts.

Section append_facts.

Lemma append_cons a s1 s2 : String a s1 ++ s2 = String a (s1 ++ s2).
Proof. reflexivity. Qed.

Lemma append_nil_r s : s ++ "" = s.
Proof. induction s as [|a s IH]; [done|]. by rewrite append_cons, IH. Qed.

Lemma append_assoc s1 s2 s3 : (s1 ++ s2) ++ s3 = s1 ++ s2 ++ s3.
Proof. induction s1 as [|a s1 IH]; [done|]. by rewrite !append_cons, IH. Qed.

End append_facts.

(** ** Strings through [urlsplit] *)

Lemma remove_char_app c s1 s2 :
  Py.remove_char c (s1 ++ s2) = Py.remove_char c s1 ++ Py.remove_char c s2.
Proof.
  induction s1 as [|d s1 IH]; [done|].
  rewrite append_cons. simpl. rewrite IH. by destruct (Ascii.eqb d c).
Qed.

Lemma remove_unsafe_app s1 s2 :
  urllib.remove_unsafe (s1 ++ s2) =
    urllib.remove_unsafe s1 ++ urllib.remove_unsafe s2.
Proof. unfold urllib.remove_unsafe. by rewrite !remove_char_app. Qed.

Lemma contains_remove_char c d s :
  Py.contains c (Py.remove_char d s) = negb (Ascii.eqb c d) && Py.contains c s.
Proof.
  induction s as [|a s IH]; simpl; [by rewrite andb_false_r|].
  destruct (Ascii.eqb_spec a d) as [->|Had]; simpl; rewrite IH.
  - destruct (Ascii.eqb_spec d c) as [->|Hdc].
    + by rewrite Ascii.eqb_refl.
    + done.
  - destruct (Ascii.eqb_spec a c) as [->|Hac]; [|done].
    destruct (Ascii.eqb_spec c d) as [->|]; done.
Qed.

Lemma remove_unsafe_clean s :
  Py.contains urllib.TAB (urllib.remove_unsafe s) = false /\
  Py.contains urllib.LF (urllib.remove_unsafe s) = false /\
  Py.contains urllib.CR (urllib.remove_unsafe s) = false.
Proof.
  unfold urllib.remove_unsafe. rewrite !contains_remove_char.
  repeat split; try done.
  all: by rewrite ?andb_false_r.
Qed.

Lemma split_once_Some sep s before after :
  Py.split_once sep s = Some (before, after) ->
  Py.contains sep before = false /\
  forall c, Py.contains c s = false ->
            Py.contains c before = false /\ Py.contains c after = false.
Proof.
  revert before. induction s as [|a s IH]; intros before; simpl; [done|].
  destruct (Ascii.eqb_spec a sep) as [->|Hne].
  - intros [= <- <-]. split; [done|]. by intros c [_ ?]%orb_false_iff.
  - destruct (Py.split_once sep s) as [[b' a']|]; [|done].
    intros [= <- <-]. destruct (IH b' eq_refl) as [Hsep Hc].
    split.
    + simpl. rewrite Hsep. by destruct (Ascii.eqb_spec a sep).
    + intros c [Hac Hs]%orb_false_iff. destruct (Hc c Hs) as [Hb Ha].
      simpl. by rewrite Hac, Hb.
Qed.

Lemma split_once_None sep s :
  Py.split_once sep s = None -> Py.contains sep s = false.
Proof.
  induction s as [|a s IH]; simpl; [done|].
  destruct (Ascii.eqb a sep); [done|].
  destruct (Py.split_once sep s) as [[b' a']|]; [done|]. by intros ->%IH.
Qed.

Lemma split_scheme_rest url scheme rest c :
  urllib.split_scheme url = (scheme, rest) ->
  Py.contains c url = false -> Py.contains c rest = false.
Proof.
  unfold urllib.split_scheme.
  destruct (Py.split_once ":" url) as [[[|c0 before] after]|] eqn:Hs;
    try by intros [= <- <-].
  destruct (_ && _); intros [= <- <-]; [|done].
  intros Hc. by destruct (split_once_Some _ _ _ _ Hs) as [_ [_ ?]%(fun H => H c Hc)].
Qed.

Lemma _splitnetloc_parts url domain rest :
  urllib._splitnetloc url = (domain, rest) ->
  Py.all_chars (fun c => negb (urllib.is_netloc_delim c)) domain = true /\
  forall c, Py.contains c url = false ->
            Py.contains c domain = false /\ Py.contains c rest = false.
Proof.
  revert domain. induction url as [|a url IH]; intros domain; simpl.
  - by intros [= <- <-].
  - destruct (urllib.is_netloc_delim a) eqn:Ha.
    + by intros [= <- <-].
    + destruct (urllib._splitnetloc url) as [d r]. intros [= <- <-].
      destruct (IH d eq_refl) as [Hd Hc]. split.
      * simpl. by rewrite Ha, Hd.
      * intros c [Hac Hs]%orb_false_iff. destruct (Hc c Hs) as [? ?].
        simpl. by rewrite Hac.
Qed.

Lemma no_delim_contains domain c :
  Py.all_chars (fun c => negb (urllib.is_netloc_delim c)) domain = true ->
  urllib.is_netloc_delim c = true ->
  Py.contains c domain = false.
Proof.
  intros Hd Hc. induction domain as [|a domain IH]; simpl in *; [done|].
  apply andb_true_iff in Hd as [Ha Hd]. rewrite IH by done.
  destruct (Ascii.eqb_spec a c) as [->|]; [|done]. by rewrite Hc in Ha.
Qed.

(** The pieces of [split] hold no separator and no character that the
    string does not hold. *)
Lemma split_pieces_clean sep s piece pieces :
  Py.split_pieces sep s = (piece, pieces) ->
  Forall (fun t => Py.contains sep t = false) (piece :: pieces) /\
  forall c, Py.contains c s = false ->
            Forall (fun t => Py.contains c t = false) (piece :: pieces).
Proof.
  revert piece pieces. induction s as [|a s IH]; intros piece pieces; simpl.
  - intros [= <- <-]. split; [|intros c _]; by repeat constructor.
  - destruct (Py.split_pieces sep s) as [p ps].
    destruct (IH p ps eq_refl) as [Hsep Hc].
    destruct (Ascii.eqb_spec a sep) as [->|Hne]; intros [= <- <-].
    + split; [by constructor|].
      intros c [_ Hs]%orb_false_iff. constructor; [done|by apply Hc].
    + apply Forall_cons in Hsep as [Hp Hps]. split.
      * constructor; [|done]. simpl. rewrite Hp.
        by destruct (Ascii.eqb_spec a sep).
      * intros c [Hac Hs]%orb_false_iff.
        destruct (proj1 (Forall_cons _ _ _) (Hc c Hs)) as [Hp' Hps'].
        constructor; [|done]. simpl. by rewrite Hac, Hp'.
Qed.

(** The test [url[:2] == '//'] of [urlsplit], as a match. *)
Lemma double_slash_match {A : Type} (f : string -> A) (y : A) (u : string) :
  (exists u', u = String "/" (String "/" u') /\
     match u with
     | String "/" (String "/" url') => f url'
     | _ => y
     end = f u') \/
  match u with
  | String "/" (String "/" url') => f url'
  | _ => y
  end = y.
Proof.
  destruct u as [|a u]; [by right|].
  destruct (Ascii.eqb_spec a "/") as [->|Ha].
  2:{ right. by destruct a as [[] [] [] [] [] [] [] []]. }
  destruct u as [|b u]; [by right|].
  destruct (Ascii.eqb_spec b "/") as [->|Hb].
  2:{ right. by destruct b as [[] [] [] [] [] [] [] []]. }
  left. by exists u.
Qed.

Lemma name_safe_unfold s :
  name_safe s = true ->
  Py.contains urllib.TAB s = false /\ Py.contains urllib.LF s = false /\
  Py.contains urllib.CR s = false /\ Py.contains "/" s = false /\
  Py.contains "?" s = false /\ Py.contains "#" s = false.
Proof.
  unfold name_safe. rewrite !andb_true_iff, !negb_true_iff. tauto.
Qed.

(** ** [urlunsplit] and [urlsplit] on the URLs of the renderers *)

(** With the scheme [https] and a path that starts with one slash, the URL
    is [https://], the netloc, the path and the query, if any. *)
Lemma urlunsplit_https host path q :
  one_slash path = true ->
  urllib.urlunsplit "https" host path q "" =
    "https://" ++ host ++ path ++ (if Py.truthy q then "?" ++ q else "").
Proof.
  intros Hp. unfold urllib.urlunsplit.
  destruct path as [|c1 path]; [done|].
  destruct (Ascii.eqb_spec c1 "/") as [->|];
    [|by destruct c1 as [[] [] [] [] [] [] [] []]].
  destruct path as [|c0 p]; [done|].
  simpl in Hp. apply negb_true_iff in Hp.
  assert (String.eqb (Py.take 2 (String "/" (String c0 p))) "//" = false) as ->.
  { simpl. by rewrite Hp. }
  replace (Py.truthy host
           || (Py.truthy "https" && bool_decide ("https" ∈ urllib.uses_netloc)
               && negb false)) with true.
  2:{ symmetry. apply orb_true_iff. right. by vm_compute. }
  cbn [Py.truthy Py.take String.eqb Ascii.eqb Bool.eqb andb negb].
  destruct (Py.truthy q).
  - by rewrite !append_assoc.
  - by rewrite append_nil_r.
Qed.

Section urlsplit_facts.

Variable bracketed_netloc_ok : string -> bool.

Lemma check_brackets_absent netloc :
  Py.contains "[" netloc = false -> Py.contains "]" netloc = false ->
  urllib.check_brackets bracketed_netloc_ok netloc = Ok tt.
Proof. intros H1 H2. unfold urllib.check_brackets. by rewrite H1, H2. Qed.

Lemma host_safe_unfold s :
  host_safe bracketed_netloc_ok s = true ->
  name_safe s = true /\
  urllib.check_brackets bracketed_netloc_ok s = Ok tt.
Proof.
  unfold host_safe, brackets_ok. intros [Hn Hb]%andb_true_iff.
  split; [done|]. by destruct (urllib.check_brackets _ s) as [[]|].
Qed.

(** A host without brackets is safe whatever the validation of brackets. *)
Lemma host_safe_no_brackets s :
  name_safe s = true ->
  Py.contains "[" s = false -> Py.contains "]" s = false ->
  host_safe bracketed_netloc_ok s = true.
Proof.
  intros Hn H1 H2. unfold host_safe, brackets_ok.
  by rewrite Hn, check_brackets_absent.
Qed.

(** [urlsplit] finds the scheme, the host and the path again when the host
    and the path hold none of the characters it removes or splits at. *)
Lemma urlsplit_https host c rest :
  host_safe bracketed_netloc_ok host = true ->
  urllib.is_netloc_delim c = true ->
  Py.contains urllib.TAB (String c rest) = false ->
  Py.contains urllib.LF (String c rest) = false ->
  Py.contains urllib.CR (String c rest) = false ->
  Py.contains "?" (String c rest) = false ->
  Py.contains "#" (String c rest) = false ->
  urllib.urlsplit_str bracketed_netloc_ok ("https://" ++ host ++ String c rest) =
    Ok (urllib.mkSplitResult "https" host (String c rest) "" "").
Proof.
  intros (Hn & Hb)%host_safe_unfold Hc Ht Hl Hr Hq Hf.
  apply name_safe_unfold in Hn as (Ht' & Hl' & Hr' & Hs' & Hq' & Hf').
  unfold urllib.urlsplit_str.
  change (Py.lstrip urllib.is_c0_control_or_space
            ("https://" ++ host ++ String c rest))
    with ("https://" ++ host ++ String c rest).
  rewrite remove_unsafe_absent.
  2-4: rewrite !contains_app; rewrite ?Ht', ?Hl', ?Hr', ?Ht, ?Hl, ?Hr;
       reflexivity.
  change (urllib.split_scheme ("https://" ++ host ++ String c rest))
    with ("https", "//" ++ host ++ String c rest).
  change ("//" ++ host ++ String c rest)
    with (String "/" (String "/" (host ++ String c rest))).
  cbv iota beta.
  rewrite _splitnetloc_app by done.
  rewrite Hb. cbn [mbind result_bind].
  by rewrite (split_once_absent _ _ Hf), (split_once_absent _ _ Hq).
Qed.

(** Whatever follows the host, [urlsplit] reads the scheme [https] and the
    host back from a URL that starts with [https://], a safe host and a
    slash. *)
Lemma urlsplit_https_host host tail :
  host_safe bracketed_netloc_ok host = true ->
  exists parsed,
    urllib.urlsplit_str bracketed_netloc_ok ("https://" ++ host ++ String "/" tail)
      = Ok parsed /\
    urllib.scheme parsed = "https" /\ urllib.netloc parsed = host.
Proof.
  intros (Hn & Hb)%host_safe_unfold.
  apply name_safe_unfold in Hn as (Ht & Hl & Hr & Hs & Hq & Hf).
  unfold urllib.urlsplit_str.
  change (Py.lstrip urllib.is_c0_control_or_space
            ("https://" ++ host ++ String "/" tail))
    with ("https://" ++ host ++ String "/" tail).
  rewrite !remove_unsafe_app, (remove_unsafe_absent host) by done.
  change (urllib.remove_unsafe "https://") with "https://".
  change (urllib.remove_unsafe (String "/" tail))
    with (String "/" (urllib.remove_unsafe tail)).
  set (tail' := urllib.remove_unsafe tail).
  change (urllib.split_scheme ("https://" ++ host ++ String "/" tail'))
    with ("https", "//" ++ host ++ String "/" tail').
  change ("//" ++ host ++ String "/" tail')
    with (String "/" (String "/" (host ++ String "/" tail'))).
  cbv iota beta.
  rewrite _splitnetloc_app by done.
  rewrite Hb. cbn [mbind result_bind].
  destruct (Py.split_once "#" _) as [[before after]|];
    destruct (Py.split_once "?" _) as [[before' after']|]; by eexists.
Qed.

(** The netloc that [urlsplit] returns is a safe host, and its path holds
    none of the characters that [urlsplit] removes or splits at, the slash
    apart. *)
Lemma urlsplit_str_output url parsed :
  urllib.urlsplit_str bracketed_netloc_ok url = Ok parsed ->
  host_safe bracketed_netloc_ok (urllib.netloc parsed) = true /\
  path_safe (urllib.path parsed) = true.
Proof.
  unfold urllib.urlsplit_str.
  set (u1 := urllib.remove_unsafe _).
  destruct (remove_unsafe_clean
              (Py.lstrip urllib.is_c0_control_or_space url))
    as (Ht & Hl & Hr). fold u1 in Ht, Hl, Hr.
  destruct (urllib.split_scheme u1) as [scheme u2] eqn:Hscheme.
  pose proof (split_scheme_rest _ _ _ _ Hscheme Ht) as Ht2.
  pose proof (split_scheme_rest _ _ _ _ Hscheme Hl) as Hl2.
  pose proof (split_scheme_rest _ _ _ _ Hscheme Hr) as Hr2.
  clear Hscheme Ht Hl Hr. clearbody u1.
  assert (forall netloc u3 rest,
    host_safe bracketed_netloc_ok netloc = true ->
    Py.contains urllib.TAB u3 = false -> Py.contains urllib.LF u3 = false ->
    Py.contains urllib.CR u3 = false ->
    (let '(url, fragment) :=
       match Py.split_once "#" u3 with
       | Some (before, after) => (before, after)
       | None => (u3, "")
       end in
     let '(url0, query) :=
       match Py.split_once "?" url with
       | Some (before, after) => (before, after)
       | None => (url, "")
       end in
     Ok (urllib.mkSplitResult scheme netloc url0 query fragment)) = Ok rest ->
    host_safe bracketed_netloc_ok (urllib.netloc rest) = true /\
    path_safe (urllib.path rest) = true) as Htail.
  { intros netloc u3 rest Hhost Ht Hl Hr.
    assert (exists u4 fragment,
      match Py.split_once "#" u3 with
      | Some (before, after) => (before, after)
      | None => (u3, "")
      end = (u4, fragment) /\
      Py.contains "#" u4 = false /\ Py.contains urllib.TAB u4 = false /\
      Py.contains urllib.LF u4 = false /\ Py.contains urllib.CR u4 = false)
      as (u4 & fragment & -> & Hf4 & Ht4 & Hl4 & Hr4).
    { destruct (Py.split_once "#" u3) as [[before after]|] eqn:Hs.
      - destruct (split_once_Some _ _ _ _ Hs) as [Hsep Hc].
        exists before, after. repeat split; try done; by apply Hc.
      - exists u3, "". repeat split; try done. by apply split_once_None. }
    assert (exists u5 query,
      match Py.split_once "?" u4 with
      | Some (before, after) => (before, after)
      | None => (u4, "")
      end = (u5, query) /\
      Py.contains "?" u5 = false /\ Py.contains "#" u5 = false /\
      Py.contains urllib.TAB u5 = false /\
      Py.contains urllib.LF u5 = false /\ Py.contains urllib.CR u5 = false)
      as (u5 & query & -> & Hq5 & Hf5 & Ht5 & Hl5 & Hr5).
    { destruct (Py.split_once "?" u4) as [[before after]|] eqn:Hs.
      - destruct (split_once_Some _ _ _ _ Hs) as [Hsep Hc].
        exists before, after. repeat split; try done; by apply Hc.
      - exists u4, "". repeat split; try done. by apply split_once_None. }
    intros [= <-]. split; [done|]. unfold path_safe. simpl.
    by rewrite Ht5, Hl5, Hr5, Hq5, Hf5. }
  destruct (double_slash_match
              (fun url' =>
                 let '(netloc, rest) := urllib._splitnetloc url' in
                 urllib.check_brackets bracketed_netloc_ok netloc
                   ≫= (fun _ => Ok (netloc, rest)))
              (Ok ("", u2)) u2) as [(u' & -> & _)| ->];
    [|by apply Htail].
  cbv iota beta.
  destruct (urllib._splitnetloc u') as [netloc rest] eqn:Hn.
  destruct (_splitnetloc_parts _ _ _ Hn) as [Hdelim Hc].
  simpl in Ht2, Hl2, Hr2.
  destruct (Hc _ Ht2) as [Htn Htr]. destruct (Hc _ Hl2) as [Hln Hlr].
  destruct (Hc _ Hr2) as [Hrn Hrr].
  destruct (urllib.check_brackets bracketed_netloc_ok netloc) as [[]|e] eqn:Hb;
    [|done].
  cbn [mbind result_bind]. apply Htail; try done.
  unfold host_safe, brackets_ok, name_safe. rewrite Hb, Htn, Hln, Hrn.
  by rewrite !(no_delim_contains netloc).
Qed.

End urlsplit_facts.

(** ** The renderers *)

Lemma resolve_or_ignore_ok c sort_by :
  exists token, LemmyCommunity.resolve_or_ignore c sort_by = Ok token.
Proof.
  unfold LemmyCommunity.resolve_or_ignore, LemmyCommunity._resolve_sort_by.
  destruct sort_by as [s|]; [|by eexists].
  unfold Py.getitem. destruct (SORT_BY_VALUES !! s) as [sb|]; [|by eexists].
  destruct (if LemmyCommunity.is_kbin c then kbin sb else lemmy sb);
    by eexists.
Qed.

Lemma html_url_None c :
  LemmyCommunity.html_url c None =
    Ok ("https://" ++ LemmyCommunity.instance c
          ++ (if LemmyCommunity.is_kbin c then "/m/" else "/c/")
          ++ LemmyCommunity.name c).
Proof.
  unfold LemmyCommunity.html_url. simpl.
  destruct (LemmyCommunity.is_kbin c);
    rewrite urlunsplit_https by done; by rewrite !append_nil_r.
Qed.

Lemma rss_url_None_lemmy c :
  LemmyCommunity.is_kbin c = false ->
  LemmyCommunity.rss_url c None =
    Ok ("https://" ++ LemmyCommunity.instance c
          ++ "/feeds/c/" ++ LemmyCommunity.name c ++ ".xml").
Proof.
  intros Hk. unfold LemmyCommunity.rss_url. rewrite Hk. simpl.
  rewrite urlunsplit_https by done. by rewrite !append_nil_r.
Qed.

Lemma html_url_ok c sort_by :
  exists tail,
    LemmyCommunity.html_url c sort_by =
      Ok ("https://" ++ LemmyCommunity.instance c ++ String "/" tail).
Proof.
  unfold LemmyCommunity.html_url.
  destruct (resolve_or_ignore_ok c sort_by) as [token ->].
  cbn [mbind result_bind].
  destruct (LemmyCommunity.is_kbin c);
    rewrite urlunsplit_https by done; by eexists.
Qed.

Lemma rss_url_ok c sort_by :
  exists tail,
    LemmyCommunity.rss_url c sort_by =
      Ok ("https://" ++ LemmyCommunity.instance c ++ String "/" tail).
Proof.
  unfold LemmyCommunity.rss_url.
  assert (exists token,
    match sort_by with
    | Some _ =>
        if LemmyCommunity.is_kbin c then Ok sort_by
        else LemmyCommunity.resolve_or_ignore c sort_by
    | None => Ok sort_by
    end = Ok token) as [token ->].
  { destruct sort_by; [|by eexists].
    destruct (LemmyCommunity.is_kbin c); [by eexists|].
    apply resolve_or_ignore_ok. }
  cbn [mbind result_bind].
  destruct (LemmyCommunity.is_kbin c);
    rewrite urlunsplit_https by done; by eexists.
Qed.

Lemma to_outline_ok c sort_by include_description :
  exists o, LemmyCommunity.to_outline c sort_by include_description = Ok o.
Proof.
  unfold LemmyCommunity.to_outline.
  destruct (rss_url_ok c sort_by) as [xml ->].
  destruct (html_url_ok c sort_by) as [html ->].
  by eexists.
Qed.

(** ** Sort orders *)

Lemma SORT_BY_VALUES_keys s :
  is_Some (SORT_BY_VALUES !! s) <-> s ∈ sort_names.
Proof.
  unfold SORT_BY_VALUES, sort_names.
  rewrite <- elem_of_dom. rewrite dom_list_to_map_L.
  rewrite elem_of_list_to_set. done.
Qed.

Lemma SORT_BY_VALUES_lemmy s sb :
  SORT_BY_VALUES !! s = Some sb ->
  exists token, lemmy sb = Some token /\ token <> "".
Proof.
  intros Hs. assert (s ∈ sort_names) as Hin.
  { apply SORT_BY_VALUES_keys. by eexists. }
  unfold sort_names in Hin.
  repeat (apply elem_of_cons in Hin as [->|Hin]);
    [..|by apply elem_of_nil in Hin];
    vm_compute in Hs; injection Hs as <-; by eexists.
Qed.

(** C8: the names of the table are the seven sort names. A name outside
    the table makes [_resolve_sort_by] raise the [ValueError] that names it;
    a name of the table has a token that is not empty for Lemmy, so for at
    least one platform; [old] and [newcomments] have none for Kbin. *)
Theorem resolve_sort_by_table :
  (forall s, is_Some (SORT_BY_VALUES !! s) <-> s ∈ sort_names) /\
  (forall c s,
     s ∉ sort_names ->
     LemmyCommunity._resolve_sort_by c (Some s) =
       Raise (ValueError (SortByNotInTable s))) /\
  (forall s,
     s ∈ sort_names ->
     exists c token,
       LemmyCommunity._resolve_sort_by c (Some s) = Ok (Some token) /\
       token <> "") /\
  (forall c s,
     LemmyCommunity.is_kbin c = true ->
     s = "old" \/ s = "newcomments" ->
     LemmyCommunity._resolve_sort_by c (Some s) =
       Raise (ValueError (SortByNotSupported s true))).
Proof.
  split; [exact SORT_BY_VALUES_keys|]. split; [|split].
  - intros c s Hs. unfold LemmyCommunity._resolve_sort_by, Py.getitem.
    destruct (SORT_BY_VALUES !! s) as [sb|] eqn:Hsb; [|done].
    destruct Hs. apply SORT_BY_VALUES_keys. by eexists.
  - intros s [sb Hsb]%SORT_BY_VALUES_keys.
    destruct (SORT_BY_VALUES_lemmy s sb Hsb) as (token & Htok & Hne).
    exists lemmy_community, token. split; [|done].
    unfold LemmyCommunity._resolve_sort_by, Py.getitem. rewrite Hsb.
    simpl. by rewrite Htok.
  - intros c s Hk [-> | ->];
      unfold LemmyCommunity._resolve_sort_by; rewrite Hk; by vm_compute.
Qed.

(** C6: when [_resolve_sort_by] rejects the sort order for the record, both
    renderers return, with the URL they give when no sort order is asked
    for. *)
Theorem unsupported_sort_renders_unsorted (c : LemmyCommunity.t) (s : string) (e : exn) :
  LemmyCommunity._resolve_sort_by c (Some s) = Raise e ->
  exists html rss,
    LemmyCommunity.html_url c (Some s) = Ok html /\
    LemmyCommunity.html_url c None = Ok html /\
    LemmyCommunity.rss_url c (Some s) = Ok rss /\
    LemmyCommunity.rss_url c None = Ok rss.
Proof.
  intros He.
  assert (LemmyCommunity.resolve_or_ignore c (Some s) = Ok None) as Hr.
  { unfold LemmyCommunity.resolve_or_ignore. revert He.
    unfold LemmyCommunity._resolve_sort_by, Py.getitem.
    destruct (SORT_BY_VALUES !! s) as [sb|]; [|done].
    by destruct (if LemmyCommunity.is_kbin c then kbin sb else lemmy sb). }
  destruct (html_url_ok c None) as [html Hhtml].
  destruct (rss_url_ok c None) as [rss Hrss].
  eexists _, _. split; [|split; [exact Hhtml|split; [|exact Hrss]]].
  - rewrite <- Hhtml. unfold LemmyCommunity.html_url. by rewrite Hr.
  - rewrite <- Hrss. unfold LemmyCommunity.rss_url.
    destruct (LemmyCommunity.is_kbin c); [done|]. by rewrite Hr.
Qed.

(** Whatever the record and the sort order, both renderers return a URL
    that is [https://], then the instance of the record, then a path that
    starts with a slash. *)
Lemma rendered_urls_https_instance (c : LemmyCommunity.t) (sort_by : option string) :
  exists html_tail rss_tail,
    LemmyCommunity.html_url c sort_by =
      Ok ("https://" ++ LemmyCommunity.instance c ++ String "/" html_tail) /\
    LemmyCommunity.rss_url c sort_by =
      Ok ("https://" ++ LemmyCommunity.instance c ++ String "/" rss_tail).
Proof.
  destruct (html_url_ok c sort_by) as [html_tail Hh].
  destruct (rss_url_ok c sort_by) as [rss_tail Hr].
  by exists html_tail, rss_tail.
Qed.

Section split_rendered.

Variable bracketed_netloc_ok : string -> bool.

(** The URLs of the renderers split into the scheme [https] and the
    instance of the record, when the instance is a safe host. *)
Lemma rendered_urls_split c sort_by :
  host_safe bracketed_netloc_ok (LemmyCommunity.instance c) = true ->
  exists html rss parsed_html parsed_rss,
    LemmyCommunity.html_url c sort_by = Ok html /\
    LemmyCommunity.rss_url c sort_by = Ok rss /\
    urllib.urlsplit_str bracketed_netloc_ok html = Ok parsed_html /\
    urllib.urlsplit_str bracketed_netloc_ok rss = Ok parsed_rss /\
    urllib.scheme parsed_html = "https" /\
    urllib.netloc parsed_html = LemmyCommunity.instance c /\
    urllib.scheme parsed_rss = "https" /\
    urllib.netloc parsed_rss = LemmyCommunity.instance c.
Proof.
  intros Hh.
  destruct (html_url_ok c sort_by) as [html_tail Hhtml].
  destruct (rss_url_ok c sort_by) as [rss_tail Hrss].
  destruct (urlsplit_https_host bracketed_netloc_ok _ html_tail Hh) as (ph & Hph & ? & ?).
  destruct (urlsplit_https_host bracketed_netloc_ok _ rss_tail Hh) as (pr & Hpr & ? & ?).
  by eexists _, _, ph, pr.
Qed.

End split_rendered.

(** ** [splitext] on the file name of a feed *)

Lemma rfind_absent c s : Py.contains c s = false -> Py.rfind c s = (-1)%Z.
Proof.
  induction s as [|d s IH]; simpl; [done|].
  intros [Hd Hs]%orb_false_iff. by rewrite IH, Hd.
Qed.

Lemma rfind_lower c s : (-1 <= Py.rfind c s)%Z.
Proof.
  induction s as [|d s IH]; simpl; [done|].
  destruct (0 <=? Py.rfind c s)%Z; [lia|]. by destruct (Ascii.eqb d c).
Qed.

Lemma rfind_app c s1 s2 :
  Py.rfind c (s1 ++ s2) =
    if (0 <=? Py.rfind c s2)%Z
    then (Z.of_nat (String.length s1) + Py.rfind c s2)%Z
    else Py.rfind c s1.
Proof.
  induction s1 as [|d s1 IH].
  - change ("" ++ s2) with s2. cbn [String.length Py.rfind].
    pose proof (rfind_lower c s2) as Hlow.
    destruct (0 <=? Py.rfind c s2)%Z eqn:H; [lia|].
    apply Z.leb_gt in H. lia.
  - rewrite append_cons. cbn [Py.rfind String.length]. rewrite IH.
    destruct (0 <=? Py.rfind c s2)%Z eqn:H; [|done].
    apply Z.leb_le in H.
    rewrite (proj2 (Z.leb_le _ _)) by lia. lia.
Qed.

Lemma take_app_length s1 s2 : Py.take (String.length s1) (s1 ++ s2) = s1.
Proof. induction s1 as [|d s1 IH]; simpl; [by destruct s2|]. by rewrite IH. Qed.

Lemma drop_app_length s1 s2 : Py.drop (String.length s1) (s1 ++ s2) = s2.
Proof. induction s1 as [|d s1 IH]; simpl; [by destruct s2|done]. Qed.

Lemma has_non_dot_app s1 s2 :
  posixpath.has_non_dot (String.length s1) (s1 ++ s2)
    = negb (Py.all_chars is_dot s1).
Proof.
  induction s1 as [|d s1 IH]; simpl; [by destruct s2|].
  rewrite IH. unfold is_dot. by destruct (Ascii.eqb d ".").
Qed.

(** The extension [.xml] is stripped from a name that is one path component
    and does not consist of dots only. *)
Lemma splitext_xml name :
  Py.contains "/" name = false ->
  Py.all_chars is_dot name = false ->
  posixpath.splitext (name ++ ".xml") = (name, ".xml").
Proof.
  intros Hs Hd. unfold posixpath.splitext.
  rewrite !rfind_app. change (Py.rfind "/" ".xml") with (-1)%Z.
  change (Py.rfind "." ".xml") with 0%Z. cbn [Z.leb Z.compare].
  rewrite (rfind_absent _ _ Hs).
  replace (Z.to_nat (Z.of_nat (String.length name) + 0 - (-1 + 1)))
    with (String.length name) by lia.
  replace (Z.to_nat (Z.of_nat (String.length name) + 0))
    with (String.length name) by lia.
  change (Py.drop (Z.to_nat (-1 + 1)) (name ++ ".xml")) with (name ++ ".xml").
  rewrite has_non_dot_app, Hd, take_app_length, drop_app_length.
  by rewrite (proj2 (Z.ltb_lt _ _)) by lia.
Qed.

(** ** The parsers *)

Section parser_facts.

Variable bracketed_netloc_ok : string -> bool.

Abbreviation from_url := (LemmyCommunity.from_url bracketed_netloc_ok).
Abbreviation from_feed_url := (LemmyCommunity.from_feed_url bracketed_netloc_ok).
Abbreviation from_dict := (LemmyCommunity.from_dict bracketed_netloc_ok).
Abbreviation from_outline := (LemmyCommunity.from_outline bracketed_netloc_ok).
Abbreviation from_opml := (LemmyCommunity.from_opml bracketed_netloc_ok).
Abbreviation from_opml_loop := (LemmyCommunity.from_opml_loop bracketed_netloc_ok).
Abbreviation urlsplit_str := (urllib.urlsplit_str bracketed_netloc_ok).

(** [id], [title] and [description] are attached as they are and play no
    part in the parsing. *)
Lemma from_url_details url i t d c :
  from_url url PyNone PyNone PyNone = Ok c ->
  from_url url i t d = Ok (with_details c i t d).
Proof.
  unfold LemmyCommunity.from_url.
  destruct (urllib.urlsplit _ url) as [[parsed|]|]; simpl; try done.
  destruct (Py.index _ 0) as [t0|]; simpl; [|done].
  destruct (String.eqb t0 "c"); simpl;
    [|destruct (String.eqb t0 "m"); simpl; [|done]].
  all: destruct (Py.index _ 1) as [t1|]; simpl; [|done].
  all: by intros [= <-].
Qed.

Lemma from_url_rendered c i t d :
  url_safe bracketed_netloc_ok c = true ->
  from_url
    (PyStr ("https://" ++ LemmyCommunity.instance c
              ++ (if LemmyCommunity.is_kbin c then "/m/" else "/c/")
              ++ LemmyCommunity.name c)) i t d = Ok (with_details c i t d).
Proof.
  unfold url_safe. intros [Hh Hn]%andb_true_iff.
  pose proof Hn as (Ht & Hl & Hr & Hs & Hq & Hf)%name_safe_unfold.
  unfold LemmyCommunity.from_url, urllib.urlsplit, with_details.
  destruct (LemmyCommunity.is_kbin c) eqn:Hk;
    match goal with
    | |- context [String.append (String "/" (String ?k "/")) ?n] =>
        change (String "/" (String k "/") ++ n)
          with (String "/" (String k (String "/" n)))
    end;
    (rewrite urlsplit_https;
     [|done|done|simpl; by rewrite ?Ht, ?Hl, ?Hr, ?Hq, ?Hf..]);
    cbn [fmap result_fmap mbind result_bind urllib.path urllib.netloc];
    rewrite split_cons_sep, split_cons_other by done;
    by rewrite split_cons_sep, split_absent by done.
Qed.

(** Every record that [from_url] returns is safe. *)
Lemma from_url_safe url i t d c :
  LemmyCommunity.from_url bracketed_netloc_ok url i t d = Ok c ->
  url_safe bracketed_netloc_ok c = true.
Proof.
  unfold LemmyCommunity.from_url, urllib.urlsplit.
  destruct url as [|z|url]; [done|by destruct (z =? 0)%Z|].
  destruct (urllib.urlsplit_str _ url) as [parsed|] eqn:Hp; [|done].
  destruct (urlsplit_str_output _ _ _ Hp) as [Hhost Hpath].
  cbn [fmap result_fmap mbind result_bind].
  destruct (Py.index _ 0) as [t0|]; [|done]. cbn [mbind result_bind].
  assert (forall b : bool,
    (Py.index (drop 1 (Py.split "/" (urllib.path parsed))) 1 ≫=
       (fun t1 => Ok (LemmyCommunity.mk (urllib.netloc parsed) t1 i t d b)))
      = Ok c -> url_safe bracketed_netloc_ok c = true) as Hname.
  { intros b. unfold Py.index.
    destruct (drop 1 _ !! 1) as [t1|] eqn:Ht1; [|done].
    cbn [mbind result_bind]. intros [= <-].
    unfold url_safe. cbn [LemmyCommunity.instance LemmyCommunity.name].
    rewrite Hhost. simpl.
    rewrite lookup_drop in Ht1. apply list_elem_of_lookup_2 in Ht1.
    unfold Py.split in Ht1.
    destruct (Py.split_pieces "/" (urllib.path parsed)) as [p ps] eqn:Hs.
    destruct (split_pieces_clean _ _ _ _ Hs) as [Hsep Hc].
    unfold path_safe in Hpath.
    rewrite !andb_true_iff, !negb_true_iff in Hpath.
    destruct Hpath as ((((Ht & Hl) & Hr) & Hq) & Hf).
    unfold name_safe.
    rewrite (proj1 (Forall_forall _ _) Hsep _ Ht1).
    rewrite (proj1 (Forall_forall _ _) (Hc _ Ht) _ Ht1).
    rewrite (proj1 (Forall_forall _ _) (Hc _ Hl) _ Ht1).
    rewrite (proj1 (Forall_forall _ _) (Hc _ Hr) _ Ht1).
    rewrite (proj1 (Forall_forall _ _) (Hc _ Hq) _ Ht1).
    by rewrite (proj1 (Forall_forall _ _) (Hc _ Hf) _ Ht1). }
  destruct (String.eqb t0 "c"); [by apply Hname|].
  destruct (String.eqb t0 "m"); [by apply Hname|done].
Qed.

(** Only the instance and the name decide whether a record is safe. *)
Lemma url_safe_identity c c' :
  identity c' = identity c ->
  url_safe bracketed_netloc_ok c' = url_safe bracketed_netloc_ok c.
Proof. unfold identity, url_safe. by intros [= -> -> _]. Qed.

(** C5 (amended): for a record whose instance and name are strings of code
    points below 256, [from_url] on the URL that [html_url] renders without
    a sort order gives a record with the same instance, name and platform
    exactly when the record is safe: its instance and its name hold no tab,
    line feed, carriage return, slash, question mark or hash, and [urlsplit]
    accepts the brackets of its instance, if any. Beyond code point 256 the
    check of [urlsplit] on the normalised netloc rejects further hosts;
    they are not covered. *)
Theorem html_url_then_from_url (c : LemmyCommunity.t) (i t d : pyval) :
  url_safe bracketed_netloc_ok c = true <->
  exists url c',
    LemmyCommunity.html_url c None = Ok url /\
    from_url (PyStr url) i t d = Ok c' /\
    identity c' = identity c.
Proof.
  split.
  - intros Hc. eexists _, _. split; [apply html_url_None|].
    split; [by apply from_url_rendered|done].
  - intros (url & c' & _ & Hc' & Hid).
    rewrite <- (url_safe_identity _ _ Hid). by eapply from_url_safe.
Qed.

(** What [from_url] does with the path of a URL that [urlsplit] accepts. *)
Lemma from_url_shape url parsed i t d :
  urlsplit_str url = Ok parsed ->
  from_url (PyStr url) i t d =
    match drop 1 (Py.split "/" (urllib.path parsed)) with
    | [] => Raise IndexError
    | t0 :: tokens =>
        if bool_decide (t0 = "c" \/ t0 = "m") then
          match tokens with
          | [] => Raise IndexError
          | t1 :: _ =>
              Ok (LemmyCommunity.mk (urllib.netloc parsed) t1 i t d
                                    (bool_decide (t0 = "m")))
          end
        else Raise (ValueError (NotACommunityUrl (PyStr url)))
    end.
Proof.
  intros Hp. unfold LemmyCommunity.from_url, urllib.urlsplit. rewrite Hp.
  cbn [fmap result_fmap mbind result_bind].
  destruct (drop 1 _) as [|t0 tokens]; [done|].
  cbn [Py.index lookup list_lookup mbind result_bind].
  destruct (String.eqb_spec t0 "c") as [->|Hc].
  { destruct tokens; by cbn. }
  destruct (String.eqb_spec t0 "m") as [->|Hm].
  { destruct tokens; by cbn. }
  rewrite bool_decide_eq_false_2 by tauto. done.
Qed.

(** C3: a URL with no path, or with the path [/c] or [/m] alone, does not
    make [from_url] raise its [ValueError]: the index into the path tokens
    raises [IndexError]. *)
Theorem from_url_short_path_IndexError :
  from_url (PyStr "https://lemmy.ml") PyNone PyNone PyNone = Raise IndexError /\
  from_url (PyStr "https://lemmy.ml/c") PyNone PyNone PyNone = Raise IndexError /\
  from_url (PyStr "https://lemmy.ml/m") PyNone PyNone PyNone = Raise IndexError.
Proof. by vm_compute. Qed.



(** C9 (amended): on a record with an [actor_id] and an [id], [from_dict] is
    [from_url] on the [actor_id] with the [id], the [title] and the
    [description] of the record, [None] standing for a [title] or a
    [description] that is absent; it succeeds when the [actor_id] is a URL
    that [from_url] accepts. Without an [id] it raises [KeyError]. *)
Theorem from_dict_delegates (data : gmap string pyval) (url : pyval) :
  data !! "actor_id" = Some url ->
  (forall i,
     data !! "id" = Some i ->
     from_dict data =
       from_url url i (Py.get data "title") (Py.get data "description") /\
     forall c,
       from_url url PyNone PyNone PyNone = Ok c ->
       from_dict data =
         Ok (with_details c i (Py.get data "title") (Py.get data "description"))) /\
  (data !! "id" = None -> from_dict data = Raise (KeyError "id")).
Proof.
  intros Hurl. unfold LemmyCommunity.from_dict, Py.getitem. rewrite Hurl.
  split.
  - intros i ->. split; [done|]. intros c Hc. cbn [mbind result_bind].
    by apply from_url_details.
  - by intros ->.
Qed.

(** The feed URL of a Lemmy community, rendered without a sort order,
    parses back to its instance and name. *)
Lemma rss_url_then_from_feed_url c :
  LemmyCommunity.is_kbin c = false ->
  url_safe bracketed_netloc_ok c = true ->
  Py.all_chars is_dot (LemmyCommunity.name c) = false ->
  exists url,
    LemmyCommunity.rss_url c None = Ok url /\
    LemmyCommunity.from_feed_url bracketed_netloc_ok (PyStr url)
      = Ok (with_details c PyNone PyNone PyNone).
Proof.
  intros Hk [Hh Hn]%andb_true_iff Hd.
  pose proof Hn as (Ht & Hl & Hr & Hs & Hq & Hf)%name_safe_unfold.
  eexists. split; [by apply rss_url_None_lemmy|].
  unfold LemmyCommunity.from_feed_url, urllib.urlsplit, with_details.
  rewrite Hk.
  change ("/feeds/c/" ++ LemmyCommunity.name c ++ ".xml")
    with (String "/" ("feeds/c/" ++ LemmyCommunity.name c ++ ".xml")).
  rewrite urlsplit_https; [|done|done|..].
  2-6: change (String "/" ("feeds/c/" ++ LemmyCommunity.name c ++ ".xml"))
         with ("/feeds/c/" ++ LemmyCommunity.name c ++ ".xml");
       rewrite !contains_app; by rewrite ?Ht, ?Hl, ?Hr, ?Hq, ?Hf.
  cbn [fmap result_fmap mbind result_bind urllib.path urllib.netloc].
  rewrite split_cons_sep.
  change ("feeds/c/" ++ LemmyCommunity.name c ++ ".xml")
    with (String "f" (String "e" (String "e" (String "d" (String "s"
           (String "/" (String "c" (String "/"
              (LemmyCommunity.name c ++ ".xml"))))))))).
  rewrite !split_cons_other by done.
  rewrite split_cons_sep, split_cons_other by done.
  rewrite split_cons_sep.
  rewrite split_absent
    by (rewrite contains_app; by rewrite Hs).
  cbn. by rewrite splitext_xml.
Qed.

(** ** Flattening *)

Lemma from_opml_loop_counts walked communities failed communities' failed' :
  from_opml_loop walked communities failed = Ok (communities', failed') ->
  (length communities' + failed' = length communities + failed + length walked)%nat.
Proof.
  revert communities failed.
  induction walked as [|o walked IH]; intros communities failed; simpl.
  - intros [= <- <-]. lia.
  - destruct (from_outline o) as [c|[]]; try done.
    + intros ->%IH. rewrite length_app. simpl. lia.
    + intros ->%IH. lia.
Qed.

(** When [from_opml] returns, every outline that is not a category is either
    in the list or in the count. *)
Lemma from_opml_counts body communities failed :
  from_opml body = Ok (communities, failed) ->
  (length communities + failed = length (_walk_outlines body))%nat.
Proof. intros ->%from_opml_loop_counts. done. Qed.

(** C2: a leaf whose [htmlUrl] has no path makes [from_opml] raise
    [IndexError] instead of counting the leaf, and a leaf with neither
    [htmlUrl] nor [xmlUrl] makes it raise [TypeError]. *)
Theorem from_opml_aborts_on_leaf :
  from_opml [rss_leaf (PyStr "https://lemmy.ml/c/rust") PyNone;
             rss_leaf (PyStr "https://lemmy.ml") PyNone] = Raise IndexError /\
  from_opml [rss_leaf (PyStr "https://lemmy.ml/c/rust") PyNone;
             rss_leaf PyNone PyNone] = Raise TypeError.
Proof. by vm_compute. Qed.

(** ** Building without categories, then flattening *)

(** Without categories the leaves go to the body, in order. *)
Lemma add_communities_flat sort_by cs body cat :
  exists leaves,
    LemmyClient.add_communities false sort_by cs body cat
      = Ok ((body ++ leaves)%list, cat) /\
    Forall2 (fun c o => LemmyCommunity.to_outline c sort_by false = Ok o)
            cs leaves.
Proof.
  revert body. induction cs as [|c cs IH]; intros body; simpl.
  - exists []. by rewrite app_nil_r.
  - destruct (to_outline_ok c sort_by false) as [o Ho]. rewrite Ho.
    cbn [mbind result_bind].
    destruct (IH (body ++ [o])%list) as (leaves & -> & Hl).
    exists (o :: leaves). split; [by rewrite <- app_assoc|by constructor].
Qed.

Lemma body_outlines_flat sort_by cs :
  exists leaves,
    LemmyClient.body_outlines false sort_by cs = Ok leaves /\
    Forall2 (fun c o => LemmyCommunity.to_outline c sort_by false = Ok o)
            cs leaves.
Proof.
  unfold LemmyClient.body_outlines.
  destruct (add_communities_flat sort_by cs [] []) as (leaves & -> & Hl).
  by exists leaves.
Qed.

(** A leaf that [to_outline] made for a safe record, without a sort order,
    is not a category and resolves to the record by its [htmlUrl]. *)
Lemma from_outline_to_outline c o :
  url_safe bracketed_netloc_ok c = true ->
  LemmyCommunity.to_outline c None false = Ok o ->
  walk_outline o = [o] /\
  from_outline o = Ok (with_details c PyNone PyNone PyNone).
Proof.
  intros Hc. unfold LemmyCommunity.to_outline.
  destruct (rss_url_ok c None) as [xml ->]. rewrite html_url_None.
  cbn [mbind result_bind]. intros [= <-]. split; [done|].
  unfold LemmyCommunity.from_outline. cbn [opyml.html_url].
  by rewrite from_url_rendered.
Qed.

Lemma from_opml_loop_leaves cs leaves communities failed :
  Forall (fun c => url_safe bracketed_netloc_ok c = true) cs ->
  Forall2 (fun c o => LemmyCommunity.to_outline c None false = Ok o) cs leaves ->
  from_opml_loop (_walk_outlines leaves) communities failed =
    Ok ((communities
         ++ map (fun c => with_details c PyNone PyNone PyNone) cs)%list,
        failed).
Proof.
  intros Hsafe Hl. revert communities.
  induction Hl as [|c o cs leaves Ho Hl IH]; intros communities.
  - simpl. by rewrite app_nil_r.
  - apply Forall_cons in Hsafe as [Hc Hsafe].
    destruct (from_outline_to_outline c o Hc Ho) as [Hw Hf].
    unfold _walk_outlines. cbn [flat_map]. rewrite Hw.
    cbn [app LemmyCommunity.from_opml_loop]. rewrite Hf.
    unfold _walk_outlines in IH. rewrite IH by done.
    by rewrite <- app_assoc.
Qed.

(** Safe records come back from the body that was built for them. *)
Lemma flatten_built_safe (cs : list LemmyCommunity.t) :
  Forall (fun c => url_safe bracketed_netloc_ok c = true) cs ->
  exists body,
    LemmyClient.body_outlines false None cs = Ok body /\
    from_opml body
      = Ok (map (fun c => with_details c PyNone PyNone PyNone) cs, 0%nat).
Proof.
  intros Hsafe.
  destruct (body_outlines_flat None cs) as (leaves & Hb & Hl).
  exists leaves. split; [done|].
  unfold LemmyCommunity.from_opml. by rewrite (from_opml_loop_leaves cs).
Qed.

(** C1 (amended): for safe records, whose instances and names are strings
    of code points below 256 that hold no tab, line feed, carriage return,
    slash, question mark or hash and whose instances have brackets that
    [urlsplit] accepts, if any, the body built without categories and
    without a sort order flattens to the same instances, names and
    platforms, in the same order, with no failure. Beyond code point 256
    the check of [urlsplit] on the normalised netloc rejects further hosts;
    they are not covered. *)
Theorem build_then_flatten (cs : list LemmyCommunity.t) :
  Forall (fun c => url_safe bracketed_netloc_ok c = true) cs ->
  exists body communities,
    LemmyClient.body_outlines false None cs = Ok body /\
    from_opml body = Ok (communities, 0%nat) /\
    map identity communities = map identity cs /\
    length communities = length cs.
Proof.
  intros Hsafe.
  destruct (flatten_built_safe cs Hsafe) as (body & Hb & Hf).
  exists body, (map (fun c => with_details c PyNone PyNone PyNone) cs).
  split; [done|]. split; [done|]. split.
  - rewrite <- list_fmap_compose. by apply list_fmap_ext.
  - by rewrite length_map.
Qed.

(** The records that [from_url] parsed, as the ones of an export are, come
    back from the body that was built for them. *)
Lemma flatten_built_parsed (cs : list LemmyCommunity.t) :
  Forall (fun c => exists url i t d, from_url url i t d = Ok c) cs ->
  exists body,
    LemmyClient.body_outlines false None cs = Ok body /\
    from_opml body
      = Ok (map (fun c => with_details c PyNone PyNone PyNone) cs, 0%nat).
Proof.
  intros Hparsed. apply flatten_built_safe.
  eapply Forall_impl; [exact Hparsed|].
  intros c (url & i & t & d & Hc). by eapply from_url_safe.
Qed.

End parser_facts.

(** ** Building with categories *)

Section grouping.

Variable sort_by : option string.

Lemma to_outline_leaf_of c :
  LemmyCommunity.to_outline c sort_by false = Ok (leaf_of sort_by c).
Proof.
  unfold leaf_of. by destruct (to_outline_ok c sort_by false) as [o ->].
Qed.

Lemma hosts_first_seen_elem (h : string) hosts :
  h ∈ hosts_first_seen hosts <-> h ∈ hosts.
Proof.
  induction hosts as [|k hosts IH]; simpl; [done|].
  rewrite !elem_of_cons, list_elem_of_filter, IH.
  destruct (decide (h = k)); tauto.
Qed.

Lemma hosts_first_seen_NoDup hosts : NoDup (hosts_first_seen hosts).
Proof.
  induction hosts as [|k hosts IH]; simpl; [constructor|].
  apply NoDup_cons. split.
  - rewrite list_elem_of_filter. tauto.
  - by apply NoDup_filter.
Qed.

Lemma hosts_first_seen_snoc hosts (h : string) :
  hosts_first_seen (hosts ++ [h]) =
    if decide (h ∈ hosts) then hosts_first_seen hosts
    else (hosts_first_seen hosts ++ [h])%list.
Proof.
  induction hosts as [|k hosts IH].
  - destruct (decide (h ∈ [])) as [Hin|_]; [|done].
    by apply elem_of_nil in Hin.
  - cbn [app hosts_first_seen]. rewrite IH.
    destruct (decide (h ∈ hosts)) as [Hin|Hin];
      destruct (decide (h ∈ k :: hosts)) as [Hin'|Hin']; try done.
    + destruct Hin'. by right.
    + apply elem_of_cons in Hin' as [->|]; [|done].
      rewrite filter_app, filter_cons_False by tauto. by rewrite app_nil_r.
    + apply not_elem_of_cons in Hin' as [Hne _].
      by rewrite filter_app, filter_cons_True by done.
Qed.

Lemma add_communities_categories cs body cat :
  LemmyClient.add_communities true sort_by cs body cat =
    Ok (body, fold_left (add_to_category sort_by) cs cat).
Proof.
  revert cat. induction cs as [|c cs IH]; intros cat; simpl; [done|].
  rewrite to_outline_leaf_of. cbn [mbind result_bind]. by rewrite IH.
Qed.

Lemma dict_get_tabulated (F : string -> opyml.Outline) (h : string) hosts :
  LemmyClient.dict_get h (map (fun k => (k, F k)) hosts) =
    if decide (h ∈ hosts) then Some (F h) else None.
Proof.
  induction hosts as [|k hosts IH].
  - destruct (decide (h ∈ [])) as [Hin|_]; [|done].
    by apply elem_of_nil in Hin.
  - cbn [map LemmyClient.dict_get]. rewrite IH.
    destruct (String.eqb_spec k h) as [->|Hne].
    + by rewrite decide_True by (by left).
    + destruct (decide (h ∈ hosts)) as [Hin|Hin];
        destruct (decide (h ∈ k :: hosts)) as [Hin'|Hin']; try done.
      * destruct Hin'. by right.
      * apply elem_of_cons in Hin' as [->|]; done.
Qed.

Lemma dict_set_absent (F : string -> opyml.Outline) (h : string) v hosts :
  h ∉ hosts ->
  LemmyClient.dict_set h v (map (fun k => (k, F k)) hosts) =
    (map (fun k => (k, F k)) hosts ++ [(h, v)])%list.
Proof.
  induction hosts as [|k hosts IH]; simpl; [done|].
  intros [Hne Hin]%not_elem_of_cons.
  destruct (String.eqb_spec k h) as [->|_]; [done|]. by rewrite IH.
Qed.

Lemma dict_set_present (F : string -> opyml.Outline) (h : string) v hosts :
  h ∈ hosts -> NoDup hosts ->
  LemmyClient.dict_set h v (map (fun k => (k, F k)) hosts) =
    map (fun k => (k, if decide (k = h) then v else F k)) hosts.
Proof.
  induction hosts as [|k hosts IH]; simpl; [by intros ?%elem_of_nil|].
  intros Hin [Hk Hnd]%NoDup_cons.
  destruct (String.eqb_spec k h) as [->|Hne].
  - rewrite decide_True by done. f_equal.
    apply map_ext_in. intros k Hk'%list_elem_of_In.
    rewrite decide_False; [done|]. by intros ->.
  - rewrite decide_False by done. f_equal.
    apply IH; [|done]. apply elem_of_cons in Hin as [->|]; done.
Qed.

Lemma of_instance_snoc h cs c :
  of_instance h (cs ++ [c]) =
    (of_instance h cs
     ++ if decide (LemmyCommunity.instance c = h) then [c] else [])%list.
Proof.
  unfold of_instance. by rewrite filter_app.
Qed.

Lemma of_instance_absent h cs :
  h ∉ map LemmyCommunity.instance cs -> of_instance h cs = [].
Proof.
  intros Hh. unfold of_instance.
  induction cs as [|c cs IH]; [done|]. simpl in Hh.
  apply not_elem_of_cons in Hh as [Hne Hh].
  rewrite filter_cons_False by done. by apply IH.
Qed.

(** The loop builds the dict of the claim. *)
Lemma fold_add_to_category cs :
  fold_left (add_to_category sort_by) cs [] = grouped sort_by cs.
Proof.
  induction cs as [|c cs IH] using rev_ind; [done|].
  rewrite fold_left_app, IH. simpl.
  unfold add_to_category, grouped.
  set (h := LemmyCommunity.instance c).
  rewrite map_app. simpl. fold h.
  rewrite hosts_first_seen_snoc.
  rewrite (dict_get_tabulated
             (fun k => category k (map (leaf_of sort_by) (of_instance k cs)))).
  destruct (decide (h ∈ hosts_first_seen (map LemmyCommunity.instance cs)))
    as [Hin|Hin].
  - rewrite decide_True by (by apply hosts_first_seen_elem).
    rewrite (dict_set_present
               (fun k => category k (map (leaf_of sort_by) (of_instance k cs))))
      by (done || apply hosts_first_seen_NoDup).
    apply map_ext. intros k.
    rewrite of_instance_snoc, map_app. fold h.
    destruct (decide (k = h)) as [->|Hne].
    + by rewrite decide_True by done.
    + rewrite decide_False by done. simpl. by rewrite app_nil_r.
  - rewrite decide_False by (by rewrite <- hosts_first_seen_elem).
    rewrite (dict_set_absent
               (fun k => category k (map (leaf_of sort_by) (of_instance k cs))))
      by done.
    rewrite map_app. simpl. f_equal.
    + apply map_ext_in. intros k Hk%list_elem_of_In.
      rewrite of_instance_snoc, map_app. fold h.
      rewrite decide_False; [simpl; by rewrite app_nil_r|].
      intros Heq. apply Hin. by rewrite Heq.
    + rewrite of_instance_snoc, map_app. fold h.
      rewrite decide_True by done.
      rewrite of_instance_absent by (by rewrite <- hosts_first_seen_elem).
      done.
Qed.

(** C7: with categories, the body holds one category per instance, in the
    order in which the instances first occur in the list, and each category
    holds the leaves of the records of its instance, in the order of the
    list. *)
Theorem categories_group_by_instance (cs : list LemmyCommunity.t) :
  exists groups,
    LemmyClient.body_outlines true sort_by cs = Ok groups /\
    map opyml.text groups = hosts_first_seen (map LemmyCommunity.instance cs) /\
    NoDup (map opyml.text groups) /\
    (forall host, host ∈ map opyml.text groups <->
                  host ∈ map LemmyCommunity.instance cs) /\
    Forall (fun g =>
              opyml.type g = PyStr "category" /\
              Forall2 (fun c o => LemmyCommunity.to_outline c sort_by false = Ok o)
                      (of_instance (opyml.text g) cs) (opyml.outlines g))
           groups.
Proof.
  exists (map snd (grouped sort_by cs)).
  assert (map opyml.text (map snd (grouped sort_by cs)) =
          hosts_first_seen (map LemmyCommunity.instance cs)) as Htext.
  { unfold grouped. rewrite !map_map. simpl. apply map_id. }
  split; [|split; [done|split; [|split]]].
  - unfold LemmyClient.body_outlines.
    rewrite add_communities_categories, fold_add_to_category. done.
  - rewrite Htext. apply hosts_first_seen_NoDup.
  - intros host. rewrite Htext. apply hosts_first_seen_elem.
  - unfold grouped. rewrite map_map. simpl.
    apply Forall_forall. intros g (h & -> & Hh)%list_elem_of_fmap.
    split; [done|]. simpl.
    induction (of_instance h cs) as [|c l IHl]; simpl; constructor; [|done].
    apply to_outline_leaf_of.
Qed.

End grouping.

(** ** The claims at concrete inputs *)

Lemma build_then_flatten_witness :
  Forall (fun c => url_safe any_bracketed_netloc c = true)
         [lemmy_community; kbin_magazine] /\
  exists body communities,
    LemmyClient.body_outlines false None [lemmy_community; kbin_magazine]
      = Ok body /\
    LemmyCommunity.from_opml any_bracketed_netloc body = Ok (communities, 0%nat) /\
    map identity communities = map identity [lemmy_community; kbin_magazine] /\
    length communities = length [lemmy_community; kbin_magazine].
Proof.
  assert (Forall (fun c => url_safe any_bracketed_netloc c = true)
                 [lemmy_community; kbin_magazine])
    as Hsafe by (repeat constructor).
  split; [exact Hsafe|].
  exact (build_then_flatten any_bracketed_netloc _ Hsafe).
Defined.

Lemma build_then_flatten_loses_slash :
  url_safe any_bracketed_netloc slash_community = false /\
  LemmyClient.body_outlines false None [slash_community]
    = Ok [leaf_of None slash_community] /\
  LemmyCommunity.from_opml any_bracketed_netloc [leaf_of None slash_community]
    = Ok ([LemmyCommunity.mk "lemmy.ml" "news" PyNone PyNone PyNone false], 0%nat).
Proof. by vm_compute. Qed.

Lemma html_url_then_from_url_witness :
  url_safe any_bracketed_netloc kbin_magazine = true /\
  exists url c',
    LemmyCommunity.html_url kbin_magazine None = Ok url /\
    LemmyCommunity.from_url any_bracketed_netloc (PyStr url) PyNone PyNone PyNone
      = Ok c' /\
    identity c' = identity kbin_magazine.
Proof.
  split; [reflexivity|].
  exact (proj1 (html_url_then_from_url any_bracketed_netloc kbin_magazine
                  PyNone PyNone PyNone) eq_refl).
Defined.

Lemma html_url_then_from_url_loses_slash :
  LemmyCommunity.html_url slash_community None
    = Ok "https://lemmy.ml/c/news/world" /\
  LemmyCommunity.from_url any_bracketed_netloc
      (PyStr "https://lemmy.ml/c/news/world") PyNone PyNone PyNone
    = Ok (LemmyCommunity.mk "lemmy.ml" "news" PyNone PyNone PyNone false).
Proof. by vm_compute. Qed.



Lemma unsupported_sort_renders_unsorted_witness :
  LemmyCommunity._resolve_sort_by kbin_magazine (Some "old")
    = Raise (ValueError (SortByNotSupported "old" true)) /\
  exists html rss,
    LemmyCommunity.html_url kbin_magazine (Some "old") = Ok html /\
    LemmyCommunity.html_url kbin_magazine None = Ok html /\
    LemmyCommunity.rss_url kbin_magazine (Some "old") = Ok rss /\
    LemmyCommunity.rss_url kbin_magazine None = Ok rss.
Proof.
  assert (LemmyCommunity._resolve_sort_by kbin_magazine (Some "old")
          = Raise (ValueError (SortByNotSupported "old" true))) as H
    by (by vm_compute).
  split; [exact H|].
  exact (unsupported_sort_renders_unsorted kbin_magazine "old" _ H).
Defined.

Lemma resolve_sort_by_table_witness :
  LemmyCommunity._resolve_sort_by lemmy_community (Some "Hot")
    = Raise (ValueError (SortByNotInTable "Hot")) /\
  (exists c token,
     LemmyCommunity._resolve_sort_by c (Some "newcomments") = Ok (Some token) /\
     token <> "") /\
  LemmyCommunity._resolve_sort_by kbin_magazine (Some "newcomments")
    = Raise (ValueError (SortByNotSupported "newcomments" true)).
Proof.
  destruct resolve_sort_by_table as (_ & Hout & Hin & Hkbin).
  split; [|split].
  - apply Hout. apply (bool_decide_unpack _). by vm_compute.
  - apply Hin. apply (bool_decide_unpack _). by vm_compute.
  - apply Hkbin; [reflexivity|by right].
Defined.

Lemma from_dict_delegates_witness :
  LemmyCommunity.from_dict any_bracketed_netloc api_record
    = Ok (LemmyCommunity.mk "lemmy.ml" "rust" (PyInt 7) (PyStr "Rust") PyNone false).
Proof.
  assert (api_record !! "actor_id" = Some (PyStr "https://lemmy.ml/c/rust"))
    as Hurl by (by vm_compute).
  assert (api_record !! "id" = Some (PyInt 7)) as Hid by (by vm_compute).
  destruct (from_dict_delegates any_bracketed_netloc api_record _ Hurl)
    as [Hwith _].
  destruct (Hwith _ Hid) as [_ Hok].
  rewrite (Hok lemmy_community) by (by vm_compute).
  by vm_compute.
Defined.

Lemma from_dict_requires_id :
  LemmyCommunity.from_url any_bracketed_netloc
      (PyStr "https://lemmy.ml/c/rust") PyNone PyNone PyNone
    = Ok lemmy_community /\
  LemmyCommunity.from_dict any_bracketed_netloc api_record_without_id
    = Raise (KeyError "id").
Proof. by vm_compute. Qed.

(** A record parsed from an [http] URL is rendered with [https]. *)
Lemma http_url_rendered_https :
  LemmyCommunity.from_url any_bracketed_netloc
      (PyStr "http://lemmy.ml/c/rust") PyNone PyNone PyNone = Ok lemmy_community /\
  LemmyCommunity.html_url lemmy_community None = Ok "https://lemmy.ml/c/rust" /\
  LemmyCommunity.rss_url lemmy_community None
    = Ok "https://lemmy.ml/feeds/c/rust.xml".
Proof. by vm_compute. Qed.

(** The grouping of three records on two instances. *)
Lemma grouping_example :
  let x := LemmyCommunity.mk "a.org" "x" PyNone PyNone PyNone false in
  let y := LemmyCommunity.mk "b.org" "y" PyNone PyNone PyNone false in
  let z := LemmyCommunity.mk "a.org" "z" PyNone PyNone PyNone false in
  LemmyClient.body_outlines true None [x; y; z] =
    Ok [category "a.org" [leaf_of None x; leaf_of None z];
        category "b.org" [leaf_of None y]].
Proof. by vm_compute. Qed.

(** A document without leaves flattens to no record and no failure. *)
Lemma from_opml_empty :
  LemmyCommunity.from_opml any_bracketed_netloc [] = Ok ([], 0%nat) /\
  LemmyCommunity.from_opml any_bracketed_netloc [category "a.org" []]
    = Ok ([], 0%nat).
Proof. by vm_compute. Qed.

(** A leaf whose URLs have paths of other shapes is counted, the leaves
    around it are kept. *)
Lemma from_opml_counts_foreign_leaf :
  LemmyCommunity.from_opml any_bracketed_netloc
    [rss_leaf (PyStr "https://lemmy.ml/c/rust") PyNone;
     rss_leaf (PyStr "https://example.org/blog/") (PyStr "https://example.org/feed.xml");
     category "kbin.social" [rss_leaf (PyStr "https://kbin.social/m/rust") PyNone]]
  = Ok ([lemmy_community; kbin_magazine], 1%nat).
Proof. by vm_compute. Qed.

(** ** The host of the rendered URLs *)

Section rendered_host.

Variable bracketed_netloc_ok : string -> bool.

(** What [urlsplit] reads from a URL of the renderers: the scheme [https],
    and the instance exactly when the instance is a safe host. *)
Lemma rendered_url_host host tail :
  (exists parsed,
     urllib.urlsplit_str bracketed_netloc_ok
       ("https://" ++ host ++ String "/" tail) = Ok parsed /\
     urllib.scheme parsed = "https" /\ urllib.netloc parsed = host) <->
  host_safe bracketed_netloc_ok host = true.
Proof.
  split.
  - intros (parsed & Hp & _ & <-).
    by destruct (urlsplit_str_output _ _ _ Hp).
  - apply urlsplit_https_host.
Qed.

(** C10 (amended): whatever the record and the sort order, both renderers
    return a URL that is [https://], then the instance of the record, then
    a path that starts with a slash; [urlsplit] reads the scheme [https]
    and the instance of the record as the host from such a URL exactly when
    the instance is a safe host: it holds no tab, line feed, carriage
    return, slash, question mark or hash, and [urlsplit] accepts its
    brackets, if any. The instance of a record that [from_url] returned,
    from a URL of whatever scheme, is a safe host. Strings are of code
    points below 256. *)
Theorem rendered_urls_host (c : LemmyCommunity.t) (sort_by : option string) :
  (exists html rss,
     LemmyCommunity.html_url c sort_by = Ok html /\
     LemmyCommunity.rss_url c sort_by = Ok rss /\
     (exists tail,
        html = "https://" ++ LemmyCommunity.instance c ++ String "/" tail) /\
     (exists tail,
        rss = "https://" ++ LemmyCommunity.instance c ++ String "/" tail) /\
     ((exists parsed,
         urllib.urlsplit_str bracketed_netloc_ok html = Ok parsed /\
         urllib.scheme parsed = "https" /\
         urllib.netloc parsed = LemmyCommunity.instance c) <->
      host_safe bracketed_netloc_ok (LemmyCommunity.instance c) = true) /\
     ((exists parsed,
         urllib.urlsplit_str bracketed_netloc_ok rss = Ok parsed /\
         urllib.scheme parsed = "https" /\
         urllib.netloc parsed = LemmyCommunity.instance c) <->
      host_safe bracketed_netloc_ok (LemmyCommunity.instance c) = true)) /\
  (forall url i t d,
     LemmyCommunity.from_url bracketed_netloc_ok url i t d = Ok c ->
     host_safe bracketed_netloc_ok (LemmyCommunity.instance c) = true).
Proof.
  split.
  - destruct (html_url_ok c sort_by) as [html_tail Hhtml].
    destruct (rss_url_ok c sort_by) as [rss_tail Hrss].
    eexists _, _. split; [exact Hhtml|]. split; [exact Hrss|].
    split; [by eexists|]. split; [by eexists|].
    split; apply rendered_url_host.
  - intros url i t d Hc.
    apply (from_url_safe bracketed_netloc_ok) in Hc.
    unfold url_safe in Hc. by apply andb_true_iff in Hc as [? _].
Qed.

End rendered_host.

Lemma rendered_urls_host_differs :
  LemmyCommunity.html_url slash_host_community None
    = Ok "https://evil.example/x/c/rust" /\
  LemmyCommunity.rss_url slash_host_community None
    = Ok "https://evil.example/x/feeds/c/rust.xml" /\
  urllib.urlsplit_str any_bracketed_netloc "https://evil.example/x/c/rust"
    = Ok (urllib.mkSplitResult "https" "evil.example" "/x/c/rust" "" "") /\
  urllib.urlsplit_str any_bracketed_netloc
      "https://evil.example/x/feeds/c/rust.xml"
    = Ok (urllib.mkSplitResult "https" "evil.example" "/x/feeds/c/rust.xml"
            "" "") /\
  LemmyCommunity.instance slash_host_community = "evil.example/x".
Proof. by vm_compute. Qed.

(** * Further properties of the code *)

(** ** The parsers, again *)

Section parser_properties.

Variable bracketed_netloc_ok : string -> bool.

(** The fields that [from_url] sets from its arguments. *)
Lemma from_url_fields url i t d c :
  LemmyCommunity.from_url bracketed_netloc_ok url i t d = Ok c ->
  LemmyCommunity.id c = i /\ LemmyCommunity.title c = t /\
  LemmyCommunity.description c = d.
Proof.
  unfold LemmyCommunity.from_url.
  destruct (urllib.urlsplit _ url) as [[parsed|]|]; simpl; try done.
  destruct (Py.index _ 0) as [t0|]; simpl; [|done].
  destruct (String.eqb t0 "c"); simpl;
    [|destruct (String.eqb t0 "m"); simpl; [|done]].
  all: destruct (Py.index _ 1) as [t1|]; simpl; [|done].
  all: by intros [= <-].
Qed.

(** The same URL with other details gives the same record with these
    details. *)
Lemma from_url_other_details url i t d i' t' d' c :
  LemmyCommunity.from_url bracketed_netloc_ok url i t d = Ok c ->
  LemmyCommunity.from_url bracketed_netloc_ok url i' t' d'
    = Ok (with_details c i' t' d').
Proof.
  unfold LemmyCommunity.from_url.
  destruct (urllib.urlsplit _ url) as [[parsed|]|]; simpl; try done.
  destruct (Py.index _ 0) as [t0|]; simpl; [|done].
  destruct (String.eqb t0 "c"); simpl;
    [|destruct (String.eqb t0 "m"); simpl; [|done]].
  all: destruct (Py.index _ 1) as [t1|]; simpl; [|done].
  all: by intros [= <-].
Qed.

(** X1: when [from_opml] returns, the records and the failures add up to the
    outlines that are not categories: every leaf is either resolved or
    counted. *)
Theorem from_opml_accounts_for_every_leaf
    (body : list opyml.Outline) (communities : list LemmyCommunity.t)
    (failed : nat) :
  LemmyCommunity.from_opml bracketed_netloc_ok body = Ok (communities, failed) ->
  (length communities + failed = length (_walk_outlines body))%nat.
Proof. apply from_opml_counts. Qed.

(** X2: a record that [from_url] returns holds, in its instance and its
    name, none of the characters that [urlsplit] removes or splits at, and
    rendering its profile URL and parsing it again gives the record back. *)
Theorem from_url_then_html_url (url i t d : pyval) (c : LemmyCommunity.t) :
  LemmyCommunity.from_url bracketed_netloc_ok url i t d = Ok c ->
  url_safe bracketed_netloc_ok c = true /\
  exists rendered,
    LemmyCommunity.html_url c None = Ok rendered /\
    LemmyCommunity.from_url bracketed_netloc_ok (PyStr rendered) i t d = Ok c.
Proof.
  intros Hc. pose proof (from_url_safe _ _ _ _ _ _ Hc) as Hsafe.
  split; [done|]. eexists. split; [apply html_url_None|].
  rewrite from_url_rendered by done.
  destruct (from_url_fields _ _ _ _ _ Hc) as (<- & <- & <-).
  by destruct c.
Qed.

(** X3: [from_url] attaches [id], [title] and [description] as they are, and
    they play no part in the parsing: with other details the same URL gives
    the same instance, name and platform. *)
Theorem from_url_attaches_details (url i t d i' t' d' : pyval)
    (c : LemmyCommunity.t) :
  LemmyCommunity.from_url bracketed_netloc_ok url i t d = Ok c ->
  LemmyCommunity.id c = i /\ LemmyCommunity.title c = t /\
  LemmyCommunity.description c = d /\
  exists c',
    LemmyCommunity.from_url bracketed_netloc_ok url i' t' d' = Ok c' /\
    identity c' = identity c /\
    LemmyCommunity.id c' = i' /\ LemmyCommunity.title c' = t' /\
    LemmyCommunity.description c' = d'.
Proof.
  intros Hc. destruct (from_url_fields _ _ _ _ _ Hc) as (Hi & Ht & Hd).
  repeat split; try done.
  exists (with_details c i' t' d'). split; [|done].
  by eapply from_url_other_details.
Qed.

(** X4: the feed URL that [rss_url] renders without a sort order for a safe
    Lemmy community whose name is not made of dots parses back, with
    [from_feed_url], to the instance and the name of the community. *)
Theorem feed_url_round_trip (c : LemmyCommunity.t) :
  LemmyCommunity.is_kbin c = false ->
  url_safe bracketed_netloc_ok c = true ->
  Py.all_chars is_dot (LemmyCommunity.name c) = false ->
  exists url c',
    LemmyCommunity.rss_url c None = Ok url /\
    LemmyCommunity.from_feed_url bracketed_netloc_ok (PyStr url) = Ok c' /\
    identity c' = identity c.
Proof.
  intros Hk Hsafe Hdot.
  destruct (rss_url_then_from_feed_url bracketed_netloc_ok c Hk Hsafe Hdot)
    as (url & Hurl & Hfeed).
  exists url, (with_details c PyNone PyNone PyNone). by rewrite Hurl, Hfeed.
Qed.

End parser_properties.

(** ** [to_https] *)

Lemma startswith_app prefix rest : Py.startswith prefix (prefix ++ rest) = true.
Proof.
  induction prefix as [|p prefix IH]; [by destruct rest|].
  rewrite append_cons. simpl. by rewrite Ascii.eqb_refl.
Qed.

Lemma startswith_drop prefix s :
  Py.startswith prefix s = true ->
  s = prefix ++ Py.drop (String.length prefix) s.
Proof.
  revert s. induction prefix as [|p prefix IH]; intros [|c s]; simpl; try done.
  intros [->%Ascii.eqb_eq Hs]%andb_true_iff.
  rewrite append_cons. f_equal. by apply IH.
Qed.

(** X6: [to_https] leaves a URL that starts with [https://] as it is,
    replaces the [http://] at the start of a URL by [https://], and puts
    [https://] before every other URL, whatever its scheme; its result
    starts with [https://] and applying it twice changes nothing more. *)
Theorem to_https_normalises (url : string) :
  (forall rest, url = "https://" ++ rest -> to_https url = url) /\
  (forall rest, url = "http://" ++ rest -> to_https url = "https://" ++ rest) /\
  ((forall rest, url <> "https://" ++ rest) ->
   (forall rest, url <> "http://" ++ rest) ->
   to_https url = "https://" ++ url) /\
  Py.startswith "https://" (to_https url) = true /\
  to_https (to_https url) = to_https url.
Proof.
  assert (Py.startswith "https://" (to_https url) = true) as Hstart.
  { unfold to_https.
    destruct (Py.startswith "https://" url) eqn:Hs; [done|].
    destruct (Py.startswith "http://" url); apply startswith_app. }
  split; [|split; [|split; [|split; [done|]]]].
  - intros rest ->. unfold to_https. by rewrite startswith_app.
  - intros rest ->. reflexivity.
  - intros Hhttps Hhttp. unfold to_https.
    destruct (Py.startswith "https://" url) eqn:Hs.
    { apply startswith_drop in Hs. by destruct (Hhttps _ Hs). }
    destruct (Py.startswith "http://" url) eqn:Hh; [|done].
    apply startswith_drop in Hh. by destruct (Hhttp _ Hh).
  - unfold to_https at 1. by rewrite Hstart.
Qed.

(** ** [from_text] and [text] *)

Lemma split_app_sep sep a b :
  Py.contains sep a = false ->
  Py.split sep (a ++ String sep b) = a :: Py.split sep b.
Proof.
  intros Ha. induction a as [|c a IH].
  - apply split_cons_sep.
  - simpl in Ha. apply orb_false_iff in Ha as [Hc Ha].
    rewrite append_cons, split_cons_other by done. by rewrite IH.
Qed.

Lemma split_join sep s :
  Py.join (String sep "") (Py.split sep s) = s.
Proof.
  unfold Py.split. induction s as [|c s IH]; [done|]. simpl.
  destruct (Py.split_pieces sep s) as [piece pieces].
  destruct (Ascii.eqb_spec c sep) as [->|Hne].
  - simpl in *. by rewrite IH.
  - destruct pieces as [|p pieces]; simpl in *; by rewrite <- IH.
Qed.

(** Two pieces: the string is the pieces around one separator. *)
Lemma split_two sep s a b :
  Py.split sep s = [a; b] <->
  s = a ++ String sep b /\
  Py.contains sep a = false /\ Py.contains sep b = false.
Proof.
  split.
  - intros Hs. pose proof (split_join sep s) as Hj. rewrite Hs in Hj.
    simpl in Hj. split; [done|].
    unfold Py.split in Hs.
    destruct (Py.split_pieces sep s) as [piece pieces] eqn:Hp.
    destruct (split_pieces_clean _ _ _ _ Hp) as [Hclean _].
    injection Hs as -> ->.
    apply Forall_cons in Hclean as [Ha Hb].
    by apply Forall_cons in Hb as [Hb _].
  - intros (-> & Ha & Hb). by rewrite split_app_sep, split_absent.
Qed.

(** X7: [from_text] returns a record exactly for its own [text]: the text
    is [!], the name, [@] and the instance, neither of which holds an [@];
    the record has the platform that was passed and no [id], [title] or
    [description]. *)
Theorem from_text_inverts_text (text : string) (is_kbin : bool)
    (c : LemmyCommunity.t) :
  LemmyCommunity.from_text text is_kbin = inr c <->
  text = LemmyCommunity.text c /\
  Py.contains "@" (LemmyCommunity.name c) = false /\
  Py.contains "@" (LemmyCommunity.instance c) = false /\
  LemmyCommunity.is_kbin c = is_kbin /\
  LemmyCommunity.id c = PyNone /\ LemmyCommunity.title c = PyNone /\
  LemmyCommunity.description c = PyNone.
Proof.
  unfold LemmyCommunity.from_text, LemmyCommunity.text. split.
  - destruct text as [|c0 rest]; [done|]. simpl.
    destruct (Ascii.eqb_spec c0 "!") as [->|]; [|done]. simpl.
    destruct (Py.split "@" rest) as [|a [|b [|? ?]]] eqn:Hs; try done.
    intros [= <-]. apply split_two in Hs as (-> & Ha & Hb). by simpl.
  - destruct c as [inst name i t d k]. simpl.
    intros (-> & Hn & Hi & <- & -> & -> & ->).
    change (String.get 0 ("!" ++ name ++ "@" ++ inst)) with (Some "!"%char).
    change (Py.drop 1 ("!" ++ name ++ "@" ++ inst))
      with (name ++ String "@" inst).
    by rewrite (proj2 (split_two "@" _ name inst)).
Qed.

(** X8: [from_text] fails with [IndexError] on the empty text only; on any
    other text that it does not accept, one that does not start with [!]
    among them, it fails with the [ValueError] that names the text. *)
Theorem from_text_failures (text : string) (is_kbin : bool) :
  (LemmyCommunity.from_text text is_kbin = inl LemmyCommunity.TextIndexError <-> text = "") /\
  (forall e,
     LemmyCommunity.from_text text is_kbin = inl e -> text <> "" ->
     e = LemmyCommunity.InvalidFormat text) /\
  (text <> "" -> Py.startswith "!" text = false ->
   LemmyCommunity.from_text text is_kbin = inl (LemmyCommunity.InvalidFormat text)).
Proof.
  unfold LemmyCommunity.from_text.
  destruct text as [|c0 rest]; [by repeat split|]. simpl.
  destruct (Ascii.eqb c0 "!"); simpl.
  - repeat split; try done.
    + by destruct (Py.split "@" rest) as [|a [|b [|? ?]]].
    + destruct (Py.split "@" rest) as [|a [|b [|? ?]]]; by intros e [= <-].
  - repeat split; try done. by intros e [= <-].
Qed.

(** ** Walking a document *)

Lemma walk_outline_leaf o :
  opyml.type o <> PyStr "category" -> walk_outline o = [o].
Proof. intros Ht. destruct o. simpl in *. by rewrite bool_decide_eq_false_2. Qed.

Lemma walk_outline_category o :
  opyml.type o = PyStr "category" ->
  walk_outline o = _walk_outlines (opyml.outlines o).
Proof.
  intros Ht. destruct o as [text type title description xml html outlines].
  simpl in *. rewrite bool_decide_eq_true_2 by done.
  unfold _walk_outlines.
  induction outlines as [|child l IH]; [done|]. simpl. by rewrite IH.
Qed.

Lemma walk_outline_no_category :
  forall o, Forall (fun x => opyml.type x <> PyStr "category") (walk_outline o).
Proof.
  fix IH 1. intros [text type title description xml html outlines]. simpl.
  case_bool_decide as Ht.
  - induction outlines as [|child l IHl]; [constructor|].
    apply Forall_app. split; [apply IH|apply IHl].
  - by repeat constructor.
Qed.

(** X9: [_walk_outlines] never yields a category: every outline it yields
    has another type, whatever the nesting of the document. *)
Theorem walk_yields_no_category (body : list opyml.Outline) :
  Forall (fun x => opyml.type x <> PyStr "category") (_walk_outlines body).
Proof.
  unfold _walk_outlines. induction body as [|o body IH]; [constructor|].
  simpl. apply Forall_app. split; [apply walk_outline_no_category|done].
Qed.

(** [_walk_outlines] goes through the outlines in order: it yields an
    outline that is not a category as it is, and replaces a category by what
    it yields for the outlines of the category. *)
Lemma walk_in_document_order (o : opyml.Outline) (body : list opyml.Outline) :
  _walk_outlines (o :: body) =
    ((if bool_decide (opyml.type o = PyStr "category")
      then _walk_outlines (opyml.outlines o)
      else [o]) ++ _walk_outlines body)%list.
Proof.
  unfold _walk_outlines at 1. cbn [flat_map]. fold (_walk_outlines body).
  f_equal. case_bool_decide.
  - by apply walk_outline_category.
  - by apply walk_outline_leaf.
Qed.

Lemma walk_app body1 body2 :
  _walk_outlines (body1 ++ body2) =
    (_walk_outlines body1 ++ _walk_outlines body2)%list.
Proof. unfold _walk_outlines. by rewrite !flat_map_concat_map, map_app, concat_app. Qed.

Section flatten_properties.

Variable bracketed_netloc_ok : string -> bool.

Abbreviation from_opml' := (LemmyCommunity.from_opml bracketed_netloc_ok).
Abbreviation from_opml_loop' := (LemmyCommunity.from_opml_loop bracketed_netloc_ok).

(** The loop from a state is the loop from the empty state, added to the
    state. *)
Lemma from_opml_loop_state walked communities failed :
  from_opml_loop' walked communities failed =
    match from_opml_loop' walked [] 0%nat with
    | Ok (found, n) => Ok ((communities ++ found)%list, (failed + n)%nat)
    | Raise e => Raise e
    end.
Proof.
  revert communities failed.
  induction walked as [|o walked IH]; intros communities failed; simpl.
  - by rewrite app_nil_r, Nat.add_0_r.
  - destruct (LemmyCommunity.from_outline _ o) as [c|e].
    + rewrite (IH (communities ++ [c])%list), (IH [c]).
      destruct (from_opml_loop' walked [] 0%nat) as [[found n]|]; [|done].
      by rewrite <- app_assoc.
    + destruct e; try done.
      rewrite (IH communities (S failed)), (IH [] 1%nat).
      destruct (from_opml_loop' walked [] 0%nat) as [[found n]|]; [|done].
      simpl. f_equal. f_equal. lia.
Qed.

Lemma from_opml_loop_app walked1 walked2 communities failed :
  from_opml_loop' (walked1 ++ walked2) communities failed =
    match from_opml_loop' walked1 communities failed with
    | Ok (found, n) => from_opml_loop' walked2 found n
    | Raise e => Raise e
    end.
Proof.
  revert communities failed.
  induction walked1 as [|o walked1 IH]; intros communities failed; simpl;
    [done|].
  destruct (LemmyCommunity.from_outline _ o) as [c|e]; [apply IH|].
  destruct e; first [done|apply IH].
Qed.

(** X10: flattening two documents one after the other: the records of the
    first come before those of the second and the failures add up; when the
    first part makes [from_opml] raise, so does the whole. *)
Theorem from_opml_app (body1 body2 : list opyml.Outline) :
  from_opml' (body1 ++ body2) =
    match from_opml' body1 with
    | Ok (found1, failed1) =>
        match from_opml' body2 with
        | Ok (found2, failed2) =>
            Ok ((found1 ++ found2)%list, (failed1 + failed2)%nat)
        | Raise e => Raise e
        end
    | Raise e => Raise e
    end.
Proof.
  unfold LemmyCommunity.from_opml. rewrite walk_app, from_opml_loop_app.
  destruct (from_opml_loop' (_walk_outlines body1) [] 0%nat)
    as [[found1 failed1]|]; [|done].
  apply from_opml_loop_state.
Qed.

(** X11: a category is transparent for [from_opml]: a document gives the
    same records and the same count when the outlines of a category stand
    in the place of the category. *)
Theorem from_opml_category_transparent
    (before after : list opyml.Outline) (o : opyml.Outline) :
  opyml.type o = PyStr "category" ->
  from_opml' (before ++ o :: after) =
    from_opml' (before ++ opyml.outlines o ++ after).
Proof.
  intros Ht. unfold LemmyCommunity.from_opml. f_equal.
  rewrite !walk_app. f_equal.
  change (o :: after) with ([o] ++ after)%list. rewrite walk_app. f_equal.
  unfold _walk_outlines at 1. simpl. rewrite app_nil_r.
  by apply walk_outline_category.
Qed.

End flatten_properties.

(** ** Rendering with a sort order *)

Lemma resolved_token c s token :
  LemmyCommunity._resolve_sort_by c (Some s) = Ok (Some token) ->
  token ∈ sort_tokens.
Proof.
  unfold LemmyCommunity._resolve_sort_by, Py.getitem.
  destruct (SORT_BY_VALUES !! s) as [sb|] eqn:Hsb; [|done].
  assert (s ∈ sort_names) as Hin by (apply SORT_BY_VALUES_keys; by eexists).
  unfold sort_names in Hin.
  repeat (apply elem_of_cons in Hin as [->|Hin]);
    [..|by apply elem_of_nil in Hin];
    vm_compute in Hsb; injection Hsb as <-;
    destruct (LemmyCommunity.is_kbin c); simpl; intros [= <-];
    apply (bool_decide_unpack _); by vm_compute.
Qed.

(** A token needs no quoting and holds no character that [urlsplit] removes
    or splits at. *)
Lemma sort_token_plain token :
  token ∈ sort_tokens ->
  urllib.urlencode [("sort", token)] = "sort=" ++ token /\
  name_safe token = true.
Proof.
  unfold sort_tokens. intros Hin.
  repeat (apply elem_of_cons in Hin as [->|Hin]);
    [..|by apply elem_of_nil in Hin]; by vm_compute.
Qed.

Lemma resolve_or_ignore_Some c sort_by token :
  LemmyCommunity.resolve_or_ignore c sort_by = Ok (Some token) ->
  exists s, sort_by = Some s /\
            LemmyCommunity._resolve_sort_by c (Some s) = Ok (Some token).
Proof.
  unfold LemmyCommunity.resolve_or_ignore.
  destruct sort_by as [s|]; [|done]. intros H. exists s. split; [done|].
  destruct (LemmyCommunity._resolve_sort_by c (Some s)) as [r|[]];
    by simplify_eq.
Qed.

(** X12: a sort order that [_resolve_sort_by] accepts for the record is
    appended to the URL without a sort order: as a path segment to the
    profile URL of a Kbin magazine, as the query [sort=] to the URLs of a
    Lemmy community; the feed URL of a Kbin magazine does not change. *)
Theorem supported_sort_is_appended (c : LemmyCommunity.t) (s token : string) :
  LemmyCommunity._resolve_sort_by c (Some s) = Ok (Some token) ->
  exists html rss,
    LemmyCommunity.html_url c None = Ok html /\
    LemmyCommunity.rss_url c None = Ok rss /\
    LemmyCommunity.html_url c (Some s) =
      Ok (html ++ (if LemmyCommunity.is_kbin c then "/" ++ token
                   else "?sort=" ++ token)) /\
    LemmyCommunity.rss_url c (Some s) =
      Ok (if LemmyCommunity.is_kbin c then rss else rss ++ "?sort=" ++ token).
Proof.
  intros Hs.
  destruct (sort_token_plain token (resolved_token _ _ _ Hs)) as [Hq _].
  assert (LemmyCommunity.resolve_or_ignore c (Some s) = Ok (Some token)) as Hr
    by (unfold LemmyCommunity.resolve_or_ignore; by rewrite Hs).
  unfold LemmyCommunity.html_url, LemmyCommunity.rss_url. rewrite Hr.
  cbn [LemmyCommunity.resolve_or_ignore LemmyCommunity._resolve_sort_by
       mbind result_bind].
  destruct (LemmyCommunity.is_kbin c); cbn [mbind result_bind].
  - eexists _, _. split; [done|]. split; [done|]. split; [|done].
    rewrite !urlunsplit_https by done. cbn [Py.truthy].
    by rewrite !append_nil_r, !append_assoc.
  - eexists _, _. split; [done|]. split; [done|].
    rewrite Hq, !urlunsplit_https by done. cbn [Py.truthy].
    rewrite !append_nil_r.
    change ("?" ++ "sort=" ++ token) with ("?sort=" ++ token).
    by rewrite !append_assoc.
Qed.

Lemma split_once_app sep a b :
  Py.contains sep a = false ->
  Py.split_once sep (a ++ String sep b) = Some (a, b).
Proof.
  intros Ha. induction a as [|c a IH]; simpl.
  - by rewrite Ascii.eqb_refl.
  - simpl in Ha. apply orb_false_iff in Ha as [Hc Ha].
    by rewrite Hc, IH.
Qed.

Section sorted_urls.

Variable bracketed_netloc_ok : string -> bool.

(** [urlsplit] on a URL with a query. *)
Lemma urlsplit_https_query host c rest q :
  host_safe bracketed_netloc_ok host = true ->
  urllib.is_netloc_delim c = true ->
  path_safe (String c rest) = true ->
  Py.contains urllib.TAB q = false -> Py.contains urllib.LF q = false ->
  Py.contains urllib.CR q = false -> Py.contains "#" q = false ->
  urllib.urlsplit_str bracketed_netloc_ok
      ("https://" ++ host ++ String c rest ++ "?" ++ q) =
    Ok (urllib.mkSplitResult "https" host (String c rest) q "").
Proof.
  intros (Hn & Hb)%host_safe_unfold Hc Hp Htq Hlq Hrq Hfq.
  apply name_safe_unfold in Hn as (Ht' & Hl' & Hr' & Hs' & Hq' & Hf').
  unfold path_safe in Hp. rewrite !andb_true_iff, !negb_true_iff in Hp.
  destruct Hp as ((((Ht & Hl) & Hr) & Hq) & Hf).
  unfold urllib.urlsplit_str.
  change (Py.lstrip urllib.is_c0_control_or_space
            ("https://" ++ host ++ String c rest ++ "?" ++ q))
    with ("https://" ++ host ++ String c rest ++ "?" ++ q).
  rewrite remove_unsafe_absent.
  2-4: rewrite !contains_app; rewrite ?Ht', ?Hl', ?Hr', ?Ht, ?Hl, ?Hr,
         ?Htq, ?Hlq, ?Hrq; reflexivity.
  change (urllib.split_scheme ("https://" ++ host ++ String c rest ++ "?" ++ q))
    with ("https", "//" ++ host ++ String c rest ++ "?" ++ q).
  change ("//" ++ host ++ String c rest ++ "?" ++ q)
    with (String "/" (String "/" (host ++ String c (rest ++ "?" ++ q)))).
  cbv iota beta.
  rewrite _splitnetloc_app by done.
  rewrite Hb. cbn [mbind result_bind].
  change (String c (rest ++ "?" ++ q)) with (String c rest ++ String "?" q).
  rewrite split_once_absent by (rewrite contains_app, Hf; exact Hfq).
  by rewrite split_once_app.
Qed.

(** The profile URL of a safe record parses back, whatever the sort
    order. *)
Lemma html_url_sorted_parses (c : LemmyCommunity.t)
    (sort_by : option string) (i t d : pyval) :
  url_safe bracketed_netloc_ok c = true ->
  exists url,
    LemmyCommunity.html_url c sort_by = Ok url /\
    LemmyCommunity.from_url bracketed_netloc_ok (PyStr url) i t d
      = Ok (with_details c i t d).
Proof.
  intros Hsafe.
  destruct (resolve_or_ignore_ok c sort_by) as [[token|] Hr].
  2:{ exists ("https://" ++ LemmyCommunity.instance c
               ++ (if LemmyCommunity.is_kbin c then "/m/" else "/c/")
               ++ LemmyCommunity.name c).
      split; [|by apply from_url_rendered].
      rewrite <- html_url_None. unfold LemmyCommunity.html_url. by rewrite Hr. }
  destruct (resolve_or_ignore_Some _ _ _ Hr) as (s & -> & Hs).
  destruct (sort_token_plain token (resolved_token _ _ _ Hs)) as [Hq Htok].
  apply name_safe_unfold in Htok as (Htt & Hlt & Hrt & Hst & Hqt & Hft).
  pose proof Hsafe as [Hh Hn]%andb_true_iff.
  pose proof Hn as (Ht & Hl & Hr' & Hsl & Hqn & Hf)%name_safe_unfold.
  unfold LemmyCommunity.html_url. rewrite Hr. cbn [mbind result_bind].
  unfold LemmyCommunity.from_url, urllib.urlsplit, with_details.
  destruct (LemmyCommunity.is_kbin c) eqn:Hk.
  - eexists. split; [done|].
    rewrite urlunsplit_https by done. cbn [Py.truthy]. rewrite append_nil_r.
    change ("/m/" ++ LemmyCommunity.name c ++ "/" ++ token)
      with (String "/" ("m/" ++ LemmyCommunity.name c ++ "/" ++ token)).
    rewrite urlsplit_https; [|done|done|..].
    2-6: change (String "/" ("m/" ++ LemmyCommunity.name c ++ "/" ++ token))
           with ("/m/" ++ LemmyCommunity.name c ++ "/" ++ token);
         rewrite !contains_app;
         by rewrite ?Ht, ?Hl, ?Hr', ?Hqn, ?Hf, ?Htt, ?Hlt, ?Hrt, ?Hqt, ?Hft.
    cbn [fmap result_fmap mbind result_bind urllib.path urllib.netloc].
    rewrite split_cons_sep.
    change ("m/" ++ LemmyCommunity.name c ++ "/" ++ token)
      with (String "m" (String "/" (LemmyCommunity.name c ++ String "/" token))).
    rewrite split_cons_other by done.
    rewrite split_cons_sep, split_app_sep, split_absent by done.
    done.
  - eexists. split; [done|].
    rewrite Hq, urlunsplit_https by done.
    change (Py.truthy ("sort=" ++ token)) with true. cbv iota.
    change ("/c/" ++ LemmyCommunity.name c)
      with (String "/" ("c/" ++ LemmyCommunity.name c)).
    rewrite urlsplit_https_query; [|done|done|..].
    3-6: rewrite contains_app; by rewrite ?Htt, ?Hlt, ?Hrt, ?Hft.
    2:{ unfold path_safe.
        change (String "/" ("c/" ++ LemmyCommunity.name c))
          with ("/c/" ++ LemmyCommunity.name c).
        rewrite !contains_app. by rewrite Ht, Hl, Hr', Hqn, Hf. }
    cbn [fmap result_fmap mbind result_bind urllib.path urllib.netloc].
    rewrite split_cons_sep.
    change ("c/" ++ LemmyCommunity.name c)
      with (String "c" (String "/" (LemmyCommunity.name c))).
    rewrite split_cons_other by done.
    by rewrite split_cons_sep, split_absent by done.
Qed.

(** X13: for a safe record, [from_url] reads the instance, the name and the
    platform back from the profile URL that [html_url] renders, whatever the
    sort order that was asked for. *)
Theorem sorted_url_round_trip (c : LemmyCommunity.t)
    (sort_by : option string) (i t d : pyval) :
  url_safe bracketed_netloc_ok c = true ->
  exists url c',
    LemmyCommunity.html_url c sort_by = Ok url /\
    LemmyCommunity.from_url bracketed_netloc_ok (PyStr url) i t d = Ok c' /\
    identity c' = identity c.
Proof.
  intros Hsafe.
  destruct (html_url_sorted_parses c sort_by i t d Hsafe) as (url & Hu & Hp).
  by exists url, (with_details c i t d).
Qed.

End sorted_urls.

(** ** The feed URL of a Kbin magazine *)

Lemma quote_char_clean safe c x :
  safe = "" \/ safe = " " ->
  breaks_query x = true ->
  Py.contains x (Py.join "" (map (urllib.quote_byte safe) (urllib.utf8 c)))
    = false.
Proof.
  intros Hsafe Hx.
  assert (x = urllib.TAB \/ x = urllib.LF \/ x = urllib.CR \/ x = "#"%char)
    as Hcases.
  { unfold breaks_query in Hx. rewrite !orb_true_iff in Hx.
    destruct Hx as [[[H|H]|H]|H]; apply Ascii.eqb_eq in H; tauto. }
  destruct Hsafe as [-> | ->];
    destruct Hcases as [-> | [-> | [-> | ->]]];
    destruct c as [[] [] [] [] [] [] [] []]; by vm_compute.
Qed.

Lemma quote_clean safe s x :
  safe = "" \/ safe = " " ->
  breaks_query x = true ->
  Py.contains x (urllib.quote s safe) = false.
Proof.
  intros Hsafe Hx. induction s as [|c s IH]; [done|].
  cbn [urllib.quote]. by rewrite contains_app, quote_char_clean, IH.
Qed.

Lemma contains_replace_char x old new s :
  Ascii.eqb new x = false ->
  Py.contains x s = false ->
  Py.contains x (Py.replace_char old new s) = false.
Proof.
  intros Hnew. induction s as [|c s IH]; [done|]. simpl.
  intros [Hc Hs]%orb_false_iff. rewrite IH by done.
  destruct (Ascii.eqb c old); by rewrite ?Hnew, ?Hc.
Qed.

(** What [quote_plus] returns holds no tab, line feed, carriage return or
    hash. *)
Lemma quote_plus_clean s x :
  breaks_query x = true ->
  Py.contains x (urllib.quote_plus s) = false.
Proof.
  intros Hx. unfold urllib.quote_plus.
  destruct (negb (Py.contains " " s)).
  - apply quote_clean; [by left|done].
  - apply contains_replace_char; [|apply quote_clean; [by right|done]].
    unfold breaks_query in Hx. rewrite !orb_true_iff in Hx.
    destruct Hx as [[[H|H]|H]|H]; apply Ascii.eqb_eq in H; by subst.
Qed.

Section kbin_feed.

Variable bracketed_netloc_ok : string -> bool.

(** X14: [from_feed_url] does not accept the feed URL that [rss_url]
    renders for a Kbin magazine on a safe host, whatever the name and the
    sort order: it raises the [ValueError] for a URL that is not a feed
    URL. *)
Theorem kbin_feed_url_is_not_parsed (c : LemmyCommunity.t)
    (sort_by : option string) :
  LemmyCommunity.is_kbin c = true ->
  host_safe bracketed_netloc_ok (LemmyCommunity.instance c) = true ->
  exists url,
    LemmyCommunity.rss_url c sort_by = Ok url /\
    LemmyCommunity.from_feed_url bracketed_netloc_ok (PyStr url)
      = Raise (ValueError (NotAFeedUrl (PyStr url))).
Proof.
  intros Hk Hh. unfold LemmyCommunity.rss_url. rewrite Hk.
  assert (match sort_by with
          | Some _ => Ok sort_by
          | None => Ok sort_by
          end = (Ok sort_by : result (option string))) as ->
    by (by destruct sort_by).
  cbn [mbind result_bind].
  eexists. split; [done|].
  rewrite urlunsplit_https by done.
  change (urllib.urlencode [("magazine", LemmyCommunity.name c)])
    with ("magazine=" ++ urllib.quote_plus (LemmyCommunity.name c)).
  change (Py.truthy ("magazine=" ++ urllib.quote_plus (LemmyCommunity.name c)))
    with true. cbv iota.
  unfold LemmyCommunity.from_feed_url, urllib.urlsplit.
  rewrite (urlsplit_https_query _ _ "/" "rss"); [done|done|done|done|..].
  all: rewrite contains_app, quote_plus_clean; done.
Qed.

End kbin_feed.

(** ** Exporting, then importing *)

Lemma leaf_of_type sort_by c : opyml.type (leaf_of sort_by c) = PyStr "rss".
Proof.
  pose proof (to_outline_leaf_of sort_by c) as H.
  unfold LemmyCommunity.to_outline in H.
  destruct (LemmyCommunity.rss_url c sort_by); [|done].
  destruct (LemmyCommunity.html_url c sort_by); [|done].
  cbn in H. by injection H as <-.
Qed.

Lemma leaf_of_html_url sort_by c :
  exists url,
    LemmyCommunity.html_url c sort_by = Ok url /\
    opyml.html_url (leaf_of sort_by c) = PyStr url.
Proof.
  pose proof (to_outline_leaf_of sort_by c) as H.
  unfold LemmyCommunity.to_outline in H.
  destruct (LemmyCommunity.rss_url c sort_by); [|done].
  destruct (LemmyCommunity.html_url c sort_by) as [url|]; [|done].
  cbn in H. injection H as <-. by exists url.
Qed.

Lemma walk_leaves sort_by cs :
  _walk_outlines (map (leaf_of sort_by) cs) = map (leaf_of sort_by) cs.
Proof.
  unfold _walk_outlines. induction cs as [|c cs IH]; [done|]. simpl.
  rewrite walk_outline_leaf by (by rewrite leaf_of_type). by rewrite IH.
Qed.

Lemma body_outlines_leaves sort_by cs :
  LemmyClient.body_outlines false sort_by cs = Ok (map (leaf_of sort_by) cs).
Proof.
  unfold LemmyClient.body_outlines.
  assert (forall body,
    LemmyClient.add_communities false sort_by cs body []
      = Ok ((body ++ map (leaf_of sort_by) cs)%list, [])) as ->; [|done].
  induction cs as [|c cs IH]; intros body; simpl.
  - by rewrite app_nil_r.
  - rewrite to_outline_leaf_of. cbn [mbind result_bind].
    by rewrite IH, <- app_assoc.
Qed.

Lemma body_outlines_grouped sort_by cs :
  LemmyClient.body_outlines true sort_by cs
    = Ok (map snd (grouped sort_by cs)).
Proof.
  unfold LemmyClient.body_outlines.
  by rewrite add_communities_categories, fold_add_to_category.
Qed.

Lemma walk_grouped sort_by cs :
  _walk_outlines (map snd (grouped sort_by cs))
    = map (leaf_of sort_by) (regrouped cs).
Proof.
  unfold grouped, regrouped. rewrite map_map. cbn [snd].
  induction (hosts_first_seen (map LemmyCommunity.instance cs))
    as [|h hosts IH]; [done|].
  cbn [map flat_map].
  change (category h (map (leaf_of sort_by) (of_instance h cs))
          :: map (fun x => category x (map (leaf_of sort_by) (of_instance x cs)))
                 hosts)
    with ([category h (map (leaf_of sort_by) (of_instance h cs))]
          ++ map (fun x => category x (map (leaf_of sort_by) (of_instance x cs)))
                 hosts)%list.
  rewrite walk_app, IH, map_app. f_equal.
  unfold _walk_outlines. cbn [flat_map]. rewrite app_nil_r.
  rewrite walk_outline_category by done. apply walk_leaves.
Qed.

(** Taking the block of one host to the front. *)
Lemma flat_map_host_first (f : string -> list LemmyCommunity.t)
    (h : string) hosts :
  NoDup hosts -> h ∈ hosts ->
  flat_map f hosts ≡ₚ f h ++ flat_map f (filter (fun k => k <> h) hosts).
Proof.
  induction hosts as [|k hosts IH]; [by intros _ ?%elem_of_nil|].
  intros [Hk Hnd]%NoDup_cons Hin. cbn [flat_map].
  destruct (decide (k = h)) as [->|Hne].
  - rewrite filter_cons_False by tauto.
    assert (filter (fun k => k <> h) hosts = hosts) as ->; [|done].
    clear IH Hin Hnd. induction hosts as [|k hosts IH]; [done|].
    apply not_elem_of_cons in Hk as [Hne Hk].
    rewrite filter_cons_True by done. by rewrite IH.
  - rewrite filter_cons_True by done. cbn [flat_map].
    apply elem_of_cons in Hin as [->|Hin]; [done|].
    rewrite (IH Hnd Hin). rewrite !app_assoc. f_equiv. apply Permutation_app_comm.
Qed.

Lemma flat_map_ext_in' (f g : string -> list LemmyCommunity.t) hosts :
  (forall k, k ∈ hosts -> f k = g k) -> flat_map f hosts = flat_map g hosts.
Proof.
  induction hosts as [|k hosts IH]; [done|]. intros Hfg. cbn [flat_map].
  rewrite Hfg by (by left). rewrite IH; [done|].
  intros k' Hk'. apply Hfg. by right.
Qed.

Lemma of_instance_cons_same c cs :
  of_instance (LemmyCommunity.instance c) (c :: cs)
    = c :: of_instance (LemmyCommunity.instance c) cs.
Proof. unfold of_instance. by rewrite filter_cons_True. Qed.

Lemma of_instance_cons_other h c cs :
  LemmyCommunity.instance c <> h -> of_instance h (c :: cs) = of_instance h cs.
Proof. intros Hne. unfold of_instance. by rewrite filter_cons_False. Qed.

(** The records in the order of the categories are the records. *)
Lemma regrouped_Permutation cs : regrouped cs ≡ₚ cs.
Proof.
  unfold regrouped. induction cs as [|c cs IH]; [done|].
  cbn [map hosts_first_seen flat_map].
  rewrite of_instance_cons_same.
  set (h := LemmyCommunity.instance c).
  set (hosts := hosts_first_seen (map LemmyCommunity.instance cs)) in *.
  cbn [app]. f_equiv.
  rewrite (flat_map_ext_in' _ (fun k => of_instance k cs)).
  2:{ intros k [Hk _]%list_elem_of_filter.
      apply of_instance_cons_other. fold h. congruence. }
  destruct (decide (h ∈ hosts)) as [Hin|Hin].
  - rewrite <- (flat_map_host_first (fun k => of_instance k cs) h hosts);
      [done|apply hosts_first_seen_NoDup|done].
  - rewrite of_instance_absent
      by (by rewrite <- (hosts_first_seen_elem h)).
    cbn [app].
    assert (filter (fun k => k <> h) hosts = hosts) as ->; [|done].
    clearbody hosts. clear IH.
    induction hosts as [|k hosts IHh]; [done|].
    apply not_elem_of_cons in Hin as [Hne Hin].
    rewrite filter_cons_True by done. by rewrite IHh.
Qed.

Section export_import.

Variable bracketed_netloc_ok : string -> bool.

(** A leaf that was built for a safe record resolves to the record. *)
Lemma from_outline_leaf_of sort_by c :
  url_safe bracketed_netloc_ok c = true ->
  LemmyCommunity.from_outline bracketed_netloc_ok (leaf_of sort_by c)
    = Ok (with_details c PyNone PyNone PyNone).
Proof.
  intros Hsafe.
  destruct (leaf_of_html_url sort_by c) as (url & Hurl & Hleaf).
  destruct (html_url_sorted_parses bracketed_netloc_ok c sort_by
              PyNone PyNone PyNone Hsafe) as (url' & Hurl' & Hparse).
  rewrite Hurl in Hurl'. injection Hurl' as <-.
  unfold LemmyCommunity.from_outline. by rewrite Hleaf, Hparse.
Qed.

Lemma from_opml_loop_leaf_of sort_by cs communities failed :
  Forall (fun c => url_safe bracketed_netloc_ok c = true) cs ->
  LemmyCommunity.from_opml_loop bracketed_netloc_ok
      (map (leaf_of sort_by) cs) communities failed =
    Ok ((communities
         ++ map (fun c => with_details c PyNone PyNone PyNone) cs)%list,
        failed).
Proof.
  intros Hsafe. revert communities.
  induction Hsafe as [|c cs Hc Hsafe IH]; intros communities; simpl.
  - by rewrite app_nil_r.
  - rewrite from_outline_leaf_of by done. by rewrite IH, <- app_assoc.
Qed.

(** X15: whatever the sort order, the document that is built without
    categories for safe records flattens to the same instances, names and
    platforms, in the same order, with no failure; the count that comes with
    the document is the number of records. *)
Theorem export_then_import (sort_by : option string)
    (cs : list LemmyCommunity.t) :
  Forall (fun c => url_safe bracketed_netloc_ok c = true) cs ->
  exists body found,
    LemmyClient.opml_of false sort_by cs = Ok (body, length cs) /\
    LemmyCommunity.from_opml bracketed_netloc_ok body = Ok (found, 0%nat) /\
    map identity found = map identity cs.
Proof.
  intros Hsafe.
  exists (map (leaf_of sort_by) cs),
    (map (fun c => with_details c PyNone PyNone PyNone) cs).
  split; [|split].
  - unfold LemmyClient.opml_of. by rewrite body_outlines_leaves.
  - unfold LemmyCommunity.from_opml.
    by rewrite walk_leaves, from_opml_loop_leaf_of.
  - rewrite <- list_fmap_compose. by apply list_fmap_ext.
Qed.

(** X16: whatever the sort order, the document that is built with
    categories for safe records flattens, with no failure, to the same
    instances, names and platforms, host by host in the order in which the
    hosts first occur: a rearrangement of the records that keeps the order
    of the records of each host. *)
Theorem categorised_export_then_import (sort_by : option string)
    (cs : list LemmyCommunity.t) :
  Forall (fun c => url_safe bracketed_netloc_ok c = true) cs ->
  exists body found,
    LemmyClient.opml_of true sort_by cs = Ok (body, length cs) /\
    LemmyCommunity.from_opml bracketed_netloc_ok body = Ok (found, 0%nat) /\
    map identity found = map identity (regrouped cs) /\
    map identity found ≡ₚ map identity cs.
Proof.
  intros Hsafe.
  exists (map snd (grouped sort_by cs)),
    (map (fun c => with_details c PyNone PyNone PyNone) (regrouped cs)).
  assert (map identity
            (map (fun c => with_details c PyNone PyNone PyNone) (regrouped cs))
          = map identity (regrouped cs)) as Hid.
  { rewrite <- list_fmap_compose. by apply list_fmap_ext. }
  split; [|split; [|split]].
  - unfold LemmyClient.opml_of. by rewrite body_outlines_grouped.
  - unfold LemmyCommunity.from_opml.
    rewrite walk_grouped, from_opml_loop_leaf_of; [done|].
    apply Forall_forall. intros c Hc.
    apply (proj1 (Forall_forall _ _) Hsafe).
    by rewrite <- (regrouped_Permutation cs).
  - done.
  - rewrite Hid. apply Permutation_map, regrouped_Permutation.
Qed.

End export_import.

(** X17: for records whose instances and names are strings of code points
    below 256, building never fails, with or without categories and
    whatever the sort order, and the count that it returns is both the
    number of records and the number of leaves of the document. A name
    beyond that range can make [urlencode] raise. *)
Theorem exported_count_is_leaf_count (categories : bool)
    (sort_by : option string) (cs : list LemmyCommunity.t) :
  exists body,
    LemmyClient.opml_of categories sort_by cs = Ok (body, length cs) /\
    length (_walk_outlines body) = length cs.
Proof.
  unfold LemmyClient.opml_of. destruct categories.
  - rewrite body_outlines_grouped. eexists. split; [done|].
    rewrite walk_grouped, length_map. apply Permutation_length.
    apply regrouped_Permutation.
  - rewrite body_outlines_leaves. eexists. split; [done|].
    by rewrite walk_leaves, length_map.
Qed.

(** ** [from_dict] and [subscribed_communities] *)

Section site.

Variable bracketed_netloc_ok : string -> bool.

Abbreviation from_dict' := (LemmyCommunity.from_dict bracketed_netloc_ok).
Abbreviation collect' := (LemmyClient.collect_communities bracketed_netloc_ok).

(** X18: when [from_dict] returns a record, the API record has an
    [actor_id] and an [id], the record carries that [id] and the [title] and
    [description] of the API record ([None] when absent), and it is safe;
    an API record without [actor_id] makes it raise the [KeyError] of
    [actor_id], with or without an [id]. *)
Theorem from_dict_returns (data : gmap string pyval) :
  (forall c,
     from_dict' data = Ok c ->
     exists url,
       data !! "actor_id" = Some url /\
       data !! "id" = Some (LemmyCommunity.id c) /\
       LemmyCommunity.title c = Py.get data "title" /\
       LemmyCommunity.description c = Py.get data "description" /\
       url_safe bracketed_netloc_ok c = true) /\
  (data !! "actor_id" = None -> from_dict' data = Raise (KeyError "actor_id")).
Proof.
  unfold LemmyCommunity.from_dict, Py.getitem. split.
  - intros c. destruct (data !! "actor_id") as [url|]; [|done].
    destruct (data !! "id") as [i|]; [|done]. cbn [mbind result_bind].
    intros Hc. exists url.
    destruct (from_url_fields _ _ _ _ _ _ Hc) as (-> & -> & ->).
    repeat split; try done. by eapply from_url_safe.
  - by intros ->.
Qed.

Lemma from_dict_safe data c :
  from_dict' data = Ok c -> url_safe bracketed_netloc_ok c = true.
Proof.
  unfold LemmyCommunity.from_dict, Py.getitem.
  destruct (data !! "actor_id") as [url|]; [|done].
  destruct (data !! "id") as [i|]; [|done]. cbn [mbind result_bind].
  by apply from_url_safe.
Qed.

Lemma from_dict_without_actor_id data :
  data !! "actor_id" = None -> from_dict' data = Raise (KeyError "actor_id").
Proof. unfold LemmyCommunity.from_dict, Py.getitem. by intros ->. Qed.

(** The loop from a list is the loop from the empty list, after the list. *)
Lemma collect_state follows communities :
  collect' follows communities =
    match collect' follows [] with
    | Ok found => Ok (communities ++ found)%list
    | Raise e => Raise e
    end.
Proof.
  revert communities.
  induction follows as [|c follows IH]; intros communities; simpl.
  - by rewrite app_nil_r.
  - destruct (Py.getitem c "community") as [community|]; [|done].
    cbn [mbind result_bind].
    destruct (from_dict' community) as [parsed|e].
    + rewrite (IH (communities ++ [parsed])%list), (IH [parsed]).
      destruct (collect' follows []); [|done]. by rewrite <- app_assoc.
    + destruct (Py.getitem community "actor_id"); [|done].
      cbn [mbind result_bind]. apply IH.
Qed.

Lemma collect_parsed follows found :
  collect' follows [] = Ok found ->
  found = parsed_follows bracketed_netloc_ok follows.
Proof.
  unfold LemmyClient.follow in *.
  revert found. induction follows as [|c follows IH]; intros found; simpl.
  - by intros [= <-].
  - unfold Py.getitem.
    destruct (c !! "community") as [community|]; [|done].
    cbn [mbind result_bind].
    destruct (from_dict' community) as [parsed|e].
    + rewrite collect_state.
      destruct (collect' follows []) as [rest|]; [|done].
      intros [= <-]. by rewrite (IH rest).
    + destruct (community !! "actor_id"); [|done].
      cbn [mbind result_bind]. intros H. by rewrite (IH found).
Qed.

Lemma collect_returns_iff follows :
  (exists found, collect' follows [] = Ok found) <->
  Forall (fun c => follow_ok c = true) follows.
Proof.
  unfold LemmyClient.follow in *.
  induction follows as [|c follows IH]; simpl.
  - split; [constructor|by eexists].
  - rewrite Forall_cons, <- IH. unfold follow_ok, Py.getitem.
    destruct (c !! "community") as [community|]; cbn [mbind result_bind].
    2:{ split; [by intros [? ?]|by intros [? _]]. }
    destruct (from_dict' community) as [parsed|e] eqn:Hd.
    + rewrite collect_state.
      destruct (community !! "actor_id") eqn:Ha.
      2:{ by rewrite from_dict_without_actor_id in Hd. }
      split.
      * intros [found Hf].
        destruct (collect' follows []) as [rest|]; [|done].
        split; [done|by eexists].
      * intros [_ [rest ->]]. by eexists.
    + destruct (community !! "actor_id") as [url|] eqn:Ha;
        cbn [mbind result_bind].
      * split; [by intros Hf|by intros [_ ?]].
      * split; [by intros [? ?]|by intros [? _]].
Qed.

(** X19: for a client with a token and an answer of the site,
    [subscribed_communities] returns exactly when every follow has a
    community with an [actor_id]: the communities that [from_dict] rejects
    are skipped, but one without [actor_id] (or a follow without community)
    makes the whole call raise. *)
Theorem subscribed_communities_returns_iff (self : LemmyClient.t)
    (follows : list LemmyClient.follow) :
  LemmyClient.not_logged_in self = false ->
  (exists found,
     LemmyClient.subscribed_communities bracketed_netloc_ok self (Ok follows)
       = Ok found) <->
  Forall (fun c => follow_ok c = true) follows.
Proof.
  intros Hin. unfold LemmyClient.subscribed_communities. rewrite Hin.
  cbn [mbind result_bind]. apply collect_returns_iff.
Qed.

(** X20: what [subscribed_communities] returns are the records that
    [from_dict] accepts among the communities of the follows, in order:
    never more than the follows, and all of them safe. It returns only for
    a client with a token and an answer of the site. *)
Theorem subscribed_communities_returns (self : LemmyClient.t)
    (follows : result (list LemmyClient.follow))
    (found : list LemmyCommunity.t) :
  LemmyClient.subscribed_communities bracketed_netloc_ok self follows
    = Ok found ->
  LemmyClient.not_logged_in self = false /\
  exists answer,
    follows = Ok answer /\
    found = parsed_follows bracketed_netloc_ok answer /\
    (length found <= length answer)%nat /\
    Forall (fun c => url_safe bracketed_netloc_ok c = true) found.
Proof.
  unfold LemmyClient.subscribed_communities.
  destruct (LemmyClient.not_logged_in self); [done|].
  destruct follows as [answer|]; [|done]. cbn [mbind result_bind].
  intros ->%collect_parsed. split; [done|]. exists answer.
  unfold LemmyClient.follow in *.
  split; [done|]. split; [done|]. split.
  - unfold parsed_follows. induction answer as [|c answer IH]; [done|].
    cbn [flat_map]. rewrite length_app. cbn [length].
    destruct (c !! "community") as [community|]; [|simpl; lia].
    destruct (from_dict' community); simpl; lia.
  - unfold parsed_follows. induction answer as [|c answer IH]; [constructor|].
    cbn [flat_map]. apply Forall_app. split; [|done].
    destruct (c !! "community") as [community|]; [|constructor].
    destruct (from_dict' community) as [parsed|] eqn:Hd; [|constructor].
    constructor; [|constructor]. by eapply from_dict_safe.
Qed.

(** X21: the export as a whole: when [subscribed_to_opml] returns a
    document, flattening it gives, with no failure, the instances, names and
    platforms of the subscribed communities that the site gave, as many as
    the count says: in the same order without categories, rearranged host
    by host with them. *)
Theorem subscribed_to_opml_then_from_opml (categories : bool)
    (sort_by : option string) (self : LemmyClient.t)
    (follows : result (list LemmyClient.follow))
    (body : list opyml.Outline) (exported : nat) :
  LemmyClient.subscribed_to_opml categories sort_by bracketed_netloc_ok
      self follows = Ok (body, exported) ->
  exists subscribed found,
    LemmyClient.subscribed_communities bracketed_netloc_ok self follows
      = Ok subscribed /\
    LemmyCommunity.from_opml bracketed_netloc_ok body = Ok (found, 0%nat) /\
    length found = exported /\
    map identity found ≡ₚ map identity subscribed /\
    (categories = false -> map identity found = map identity subscribed).
Proof.
  unfold LemmyClient.subscribed_to_opml.
  destruct (LemmyClient.not_logged_in self) eqn:Hin; [done|].
  destruct (LemmyClient.subscribed_communities _ self follows)
    as [subscribed|] eqn:Hs; [|done].
  cbn [mbind result_bind]. unfold LemmyClient.opml_of.
  assert (Forall (fun c => url_safe bracketed_netloc_ok c = true) subscribed)
    as Hsafe.
  { revert Hs. unfold LemmyClient.subscribed_communities. rewrite Hin.
    destruct follows as [answer|]; [|done]. cbn [mbind result_bind].
    intros ->%collect_parsed. unfold LemmyClient.follow in *.
    unfold parsed_follows. induction answer as [|c answer IH]; [constructor|].
    cbn [flat_map]. apply Forall_app. split; [|done].
    destruct (c !! "community") as [community|]; [|constructor].
    destruct (from_dict' community) as [parsed|] eqn:Hd; [|constructor].
    constructor; [|constructor]. by eapply from_dict_safe. }
  destruct categories.
  - rewrite body_outlines_grouped. cbn [mbind result_bind].
    intros [= <- <-].
    exists subscribed,
      (map (fun c => with_details c PyNone PyNone PyNone) (regrouped subscribed)).
    split; [done|]. split; [|split; [|split; [|done]]].
    + unfold LemmyCommunity.from_opml.
      rewrite walk_grouped, from_opml_loop_leaf_of; [done|].
      apply Forall_forall. intros c Hc.
      apply (proj1 (Forall_forall _ _) Hsafe).
      by rewrite <- (regrouped_Permutation subscribed).
    + rewrite length_map. apply Permutation_length, regrouped_Permutation.
    + rewrite <- list_fmap_compose.
      rewrite (list_fmap_ext _ identity (regrouped subscribed)) by done.
      apply Permutation_map, regrouped_Permutation.
  - rewrite body_outlines_leaves. cbn [mbind result_bind].
    intros [= <- <-].
    exists subscribed,
      (map (fun c => with_details c PyNone PyNone PyNone) subscribed).
    assert (map identity
              (map (fun c => with_details c PyNone PyNone PyNone) subscribed)
            = map identity subscribed) as Hid.
    { rewrite <- list_fmap_compose. by apply list_fmap_ext. }
    split; [done|]. split; [|split; [|split]].
    + unfold LemmyCommunity.from_opml.
      by rewrite walk_leaves, from_opml_loop_leaf_of.
    + by rewrite length_map.
    + by rewrite Hid.
    + done.
Qed.

End site.

(** ** [LemmyClient] *)

Lemma to_https_rest url :
  exists rest,
    to_https url = "https://" ++ rest /\
    forall c, Py.contains c url = false -> Py.contains c rest = false.
Proof.
  unfold to_https.
  destruct (Py.startswith "https://" url) eqn:Hs.
  { exists (Py.drop 8 url). apply startswith_drop in Hs. split; [done|].
    intros c. rewrite Hs at 1. rewrite contains_app.
    by intros [_ ?]%orb_false_iff. }
  destruct (Py.startswith "http://" url) eqn:Hh.
  { exists (Py.drop 7 url). apply startswith_drop in Hh. split; [done|].
    intros c. rewrite Hh at 1. rewrite contains_app.
    by intros [_ ?]%orb_false_iff. }
  by exists url.
Qed.

Lemma to_https_host host :
  Py.contains "/" host = false ->
  to_https host = "https://" ++ host /\
  to_https ("http://" ++ host) = "https://" ++ host /\
  to_https ("https://" ++ host) = "https://" ++ host.
Proof.
  intros Hs. split; [|split].
  - unfold to_https.
    destruct (Py.startswith "https://" host) eqn:H1.
    { apply startswith_drop in H1. rewrite H1, contains_app in Hs. done. }
    destruct (Py.startswith "http://" host) eqn:H2; [|done].
    apply startswith_drop in H2. rewrite H2, contains_app in Hs. done.
  - reflexivity.
  - unfold to_https. by rewrite startswith_app.
Qed.

Lemma _splitnetloc_host host :
  Py.contains "/" host = false ->
  Py.contains "?" host = false ->
  Py.contains "#" host = false ->
  urllib._splitnetloc host = (host, "").
Proof.
  induction host as [|d host IH]; simpl; [done|].
  intros [Hd1 H1]%orb_false_iff [Hd2 H2]%orb_false_iff [Hd3 H3]%orb_false_iff.
  unfold urllib.is_netloc_delim. rewrite Hd1, Hd2, Hd3. simpl.
  by rewrite IH.
Qed.

Lemma contains_lstrip strip c s :
  Py.contains c s = false -> Py.contains c (Py.lstrip strip s) = false.
Proof.
  induction s as [|d s IH]; simpl; [done|].
  intros [Hd Hs]%orb_false_iff. destruct (strip d); [by apply IH|].
  simpl. by rewrite Hd, Hs.
Qed.

Lemma contains_remove_unsafe c s :
  Py.contains c s = false -> Py.contains c (urllib.remove_unsafe s) = false.
Proof.
  intros Hs. unfold urllib.remove_unsafe.
  by rewrite !contains_remove_char, Hs, !andb_false_r.
Qed.

Lemma user_url_https netloc name q f :
  urllib.urlunsplit "https" netloc ("/u/" ++ name) q f =
    "https://" ++ netloc ++ "/u/" ++ name
    ++ (if Py.truthy q then "?" ++ q else "")
    ++ (if Py.truthy f then "#" ++ f else "").
Proof.
  unfold urllib.urlunsplit.
  replace (Py.truthy netloc
           || (Py.truthy "https" && bool_decide ("https" ∈ urllib.uses_netloc)
               && negb (String.eqb (Py.take 2 ("/u/" ++ name)) "//")))
    with true by (by rewrite orb_true_r).
  change (Py.truthy ("/u/" ++ name)
          && negb (String.eqb (Py.take 1 ("/u/" ++ name)) "/")) with false.
  change (Py.truthy "https") with true. cbv iota.
  destruct (Py.truthy q), (Py.truthy f);
    rewrite ?append_nil_r, ?append_assoc; try done.
  all: change ("https" ++ ":" ++ "//" ++ netloc ++ "/u/" ++ name)
         with ("https://" ++ netloc ++ "/u/" ++ name).
  all: by rewrite ?append_assoc.
Qed.

Section client.

Variable bracketed_netloc_ok : string -> bool.

Abbreviation init' := (LemmyClient.__init__ bracketed_netloc_ok).
Abbreviation urlsplit' := (urllib.urlsplit_str bracketed_netloc_ok).

Lemma urlsplit_https_prefix rest parsed :
  urlsplit' ("https://" ++ rest) = Ok parsed ->
  urllib.scheme parsed = "https".
Proof.
  unfold urllib.urlsplit_str.
  change (Py.lstrip urllib.is_c0_control_or_space ("https://" ++ rest))
    with ("https://" ++ rest).
  rewrite remove_unsafe_app.
  change (urllib.remove_unsafe "https://") with "https://".
  set (r := urllib.remove_unsafe rest).
  change (urllib.split_scheme ("https://" ++ r)) with ("https", "//" ++ r).
  change ("//" ++ r) with (String "/" (String "/" r)). cbv iota beta.
  destruct (urllib._splitnetloc r) as [netloc r'].
  destruct (urllib.check_brackets _ netloc) as [[]|]; [|done].
  cbn [mbind result_bind].
  destruct (Py.split_once "#" _) as [[before after]|];
    destruct (Py.split_once "?" _) as [[before' after']|];
    by intros [= <-].
Qed.

Lemma urlsplit_https_bare host :
  host_safe bracketed_netloc_ok host = true ->
  urlsplit' ("https://" ++ host) =
    Ok (urllib.mkSplitResult "https" host "" "" "").
Proof.
  intros (Hn & Hb)%host_safe_unfold.
  apply name_safe_unfold in Hn as (Ht & Hl & Hr & Hs & Hq & Hf).
  unfold urllib.urlsplit_str.
  change (Py.lstrip urllib.is_c0_control_or_space ("https://" ++ host))
    with ("https://" ++ host).
  rewrite remove_unsafe_app, (remove_unsafe_absent host) by done.
  change (urllib.remove_unsafe "https://") with "https://".
  change (urllib.split_scheme ("https://" ++ host)) with ("https", "//" ++ host).
  change ("//" ++ host) with (String "/" (String "/" host)). cbv iota beta.
  rewrite _splitnetloc_host by done.
  rewrite Hb. reflexivity.
Qed.

(** [urlsplit] raises nothing but the [ValueError] of the brackets, and
    returns for a URL without brackets. *)
Lemma urlsplit_str_raises url e :
  urlsplit' url = Raise e -> e = ValueError InvalidIPv6URL.
Proof.
  unfold urllib.urlsplit_str.
  destruct (urllib.split_scheme _) as [scheme u].
  destruct (double_slash_match
              (fun url' =>
                 let '(netloc, rest) := urllib._splitnetloc url' in
                 _ ← urllib.check_brackets bracketed_netloc_ok netloc;
                 Ok (netloc, rest))
              (Ok (EmptyString, u)) u) as [(u' & -> & _)| ->].
  - destruct (urllib._splitnetloc u') as [netloc rest].
    unfold urllib.check_brackets.
    destruct (_ || _); [by intros [= <-]|].
    destruct (_ && _); [by intros [= <-]|].
    cbn [mbind result_bind].
    destruct (Py.split_once "#" _) as [[? ?]|];
      by destruct (Py.split_once "?" _) as [[? ?]|].
  - cbn [mbind result_bind].
    destruct (Py.split_once "#" _) as [[? ?]|];
      by destruct (Py.split_once "?" _) as [[? ?]|].
Qed.

Lemma urlsplit_str_returns url :
  Py.contains "[" url = false -> Py.contains "]" url = false ->
  exists parsed, urlsplit' url = Ok parsed.
Proof.
  intros Ho Hc. unfold urllib.urlsplit_str.
  apply (contains_lstrip urllib.is_c0_control_or_space) in Ho, Hc.
  apply contains_remove_unsafe in Ho, Hc.
  destruct (urllib.split_scheme _) as [scheme u] eqn:Hscheme.
  pose proof (split_scheme_rest _ _ _ _ Hscheme Ho) as Ho2.
  pose proof (split_scheme_rest _ _ _ _ Hscheme Hc) as Hc2.
  clear Hscheme Ho Hc.
  destruct (double_slash_match
              (fun url' =>
                 let '(netloc, rest) := urllib._splitnetloc url' in
                 _ ← urllib.check_brackets bracketed_netloc_ok netloc;
                 Ok (netloc, rest))
              (Ok (EmptyString, u)) u) as [(u' & -> & _)| ->].
  - destruct (urllib._splitnetloc u') as [netloc rest] eqn:Hn.
    apply _splitnetloc_parts in Hn as [_ Hn].
    simpl in Ho2, Hc2.
    destruct (Hn _ Ho2) as [Ho3 _], (Hn _ Hc2) as [Hc3 _].
    rewrite check_brackets_absent by done. cbn [mbind result_bind].
    destruct (Py.split_once "#" _) as [[? ?]|];
      destruct (Py.split_once "?" _) as [[? ?]|]; by eexists.
  - cbn [mbind result_bind].
    destruct (Py.split_once "#" _) as [[? ?]|];
      destruct (Py.split_once "?" _) as [[? ?]|]; by eexists.
Qed.

Lemma init_returns site self :
  init' site = Ok self ->
  exists parsed,
    urlsplit' (to_https site) = Ok parsed /\
    self = LemmyClient.mk (to_https site) parsed (urllib.netloc parsed)
                          None PyNone.
Proof.
  unfold LemmyClient.__init__.
  destruct (urlsplit' (to_https site)) as [parsed|]; [|done].
  intros [= <-]. by exists parsed.
Qed.

End client.

Section client_properties.

Variable bracketed_netloc_ok : string -> bool.

Abbreviation client_of := (LemmyClient.__init__ bracketed_netloc_ok).

(** X22: the client that [LemmyClient(site_url)] makes holds the site URL
    that [to_https] gives, which [urlsplit] read with the scheme [https];
    its instance is the netloc of that URL, a safe host; it has no user
    name and no token, so [subscribed_communities] and [subscribed_to_opml]
    raise [NotLoggedInError] whatever the site would answer. *)
Theorem client_of_site (site : string) (self : LemmyClient.t) :
  client_of site = Ok self ->
  LemmyClient.site_url self = to_https site /\
  urllib.scheme (LemmyClient._parsed self) = "https" /\
  LemmyClient.instance self = urllib.netloc (LemmyClient._parsed self) /\
  host_safe bracketed_netloc_ok (LemmyClient.instance self) = true /\
  LemmyClient.username self = None /\
  LemmyClient.auth_token self = PyNone /\
  forall follows,
    LemmyClient.subscribed_communities bracketed_netloc_ok self follows
      = Raise NotLoggedInError /\
    forall categories sort_by,
      LemmyClient.subscribed_to_opml categories sort_by bracketed_netloc_ok
        self follows = Raise NotLoggedInError.
Proof.
  intros (parsed & Hp & ->)%init_returns. cbn.
  destruct (to_https_rest site) as (rest & Hrest & _).
  split; [done|]. split.
  { rewrite Hrest in Hp. by eapply urlsplit_https_prefix. }
  split; [done|]. split.
  { by destruct (urlsplit_str_output _ _ _ Hp). }
  done.
Qed.

(** X23: for a site URL of code points below 256, [LemmyClient(site_url)]
    raises nothing but the [ValueError] of [urlsplit] for the brackets of an
    IPv6 host, and it returns a client for every such site URL without
    brackets. Beyond code point 256 the check of [urlsplit] on the
    normalised netloc raises for further hosts. *)
Theorem client_unless_brackets (site : string) :
  (forall e, client_of site = Raise e -> e = ValueError InvalidIPv6URL) /\
  (Py.contains "[" site = false -> Py.contains "]" site = false ->
   exists self, client_of site = Ok self).
Proof.
  unfold LemmyClient.__init__. split.
  - intros e.
    destruct (urllib.urlsplit_str _ (to_https site)) as [parsed|e'] eqn:Hp;
      [done|].
    intros [= <-]. by eapply urlsplit_str_raises.
  - intros Ho Hc. destruct (to_https_rest site) as (rest & Hrest & Hin).
    destruct (urlsplit_str_returns bracketed_netloc_ok (to_https site))
      as [parsed ->].
    + rewrite Hrest, contains_app. by rewrite (Hin _ Ho).
    + rewrite Hrest, contains_app. by rewrite (Hin _ Hc).
    + by eexists.
Qed.

(** X24: for a safe host, the host alone, the host after [http://] and the
    host after [https://] give the same client: its site URL is the host
    after [https://], its instance is the host, and the URL has no path, no
    query and no fragment. *)
Theorem client_of_host (host : string) :
  host_safe bracketed_netloc_ok host = true ->
  let client :=
    LemmyClient.mk ("https://" ++ host)
      (urllib.mkSplitResult "https" host "" "" "") host None PyNone in
  client_of host = Ok client /\
  client_of ("http://" ++ host) = Ok client /\
  client_of ("https://" ++ host) = Ok client.
Proof.
  intros Hh client.
  pose proof (urlsplit_https_bare _ _ Hh) as Hp.
  apply host_safe_unfold in Hh as [Hn _].
  apply name_safe_unfold in Hn as (_ & _ & _ & Hs & _ & _).
  destruct (to_https_host host Hs) as (H1 & H2 & H3).
  unfold LemmyClient.__init__.
  rewrite H1, H2, H3, Hp. done.
Qed.

(** X25: the profile URL and the reference of the user of a client that
    [LemmyClient(site_url)] made: [https://], the instance, [/u/] and the
    user name, then the query and the fragment of the site URL, whose path
    is dropped; [@], the user name, [@] and the instance. Before [login]
    the user name reads [None]; after [login], whether it failed or not, it
    is the user name given. *)
Theorem user_url_of_site (site : string) (self : LemmyClient.t)
    (username password : string) (answer : result (gmap string pyval)) :
  client_of site = Ok self ->
  let self' := fst (LemmyClient.login self username password answer) in
  let tail := query_and_fragment (LemmyClient._parsed self) in
  LemmyClient.user_url self =
    "https://" ++ LemmyClient.instance self ++ "/u/" ++ "None" ++ tail /\
  LemmyClient.user_reference self =
    "@" ++ "None" ++ "@" ++ LemmyClient.instance self /\
  LemmyClient.user_url self' =
    "https://" ++ LemmyClient.instance self ++ "/u/" ++ username ++ tail /\
  LemmyClient.user_reference self' =
    "@" ++ username ++ "@" ++ LemmyClient.instance self.
Proof.
  intros (parsed & Hp & ->)%init_returns.
  destruct (to_https_rest site) as (rest & Hrest & _).
  rewrite Hrest in Hp. apply urlsplit_https_prefix in Hp as Hscheme.
  assert (forall name token,
            LemmyClient.user_url
              (LemmyClient.mk (to_https site) parsed (urllib.netloc parsed)
                              name token)
            = "https://" ++ urllib.netloc parsed ++ "/u/"
              ++ LemmyClient.format_optional name
              ++ query_and_fragment parsed) as Hurl.
  { intros name token. unfold LemmyClient.user_url. cbn. rewrite Hscheme.
    apply user_url_https. }
  cbn zeta. split; [apply Hurl|]. split; [done|].
  unfold LemmyClient.login. cbn [LemmyClient.site_url LemmyClient._parsed
    LemmyClient.instance LemmyClient.auth_token].
  destruct (answer ≫= _); cbn [fst]; split; first [apply Hurl|done].
Qed.

(** When [_logged_on_client] returns a client, the client could be
    made for the instance, the password could be read and the answer to the
    login request has a [jwt]: the client is the one made for the instance
    with the user name of the command line and that [jwt] as its token. *)
Lemma logged_on_client_returns (instance username : string)
    (password : result string) (answer : result (gmap string pyval))
    (client : LemmyClient.t) :
  _logged_on_client bracketed_netloc_ok instance username password answer
    = Ok client ->
  exists self pw data,
    client_of instance = Ok self /\
    password = Ok pw /\
    answer = Ok data /\
    data !! "jwt" = Some (LemmyClient.auth_token client) /\
    client =
      LemmyClient.mk (LemmyClient.site_url self) (LemmyClient._parsed self)
        (LemmyClient.instance self) (Some username)
        (LemmyClient.auth_token client).
Proof.
  unfold _logged_on_client.
  destruct (client_of instance) as [self|]; [|done].
  destruct password as [pw|]; [|done]. cbn [mbind result_bind].
  unfold LemmyClient.login.
  destruct answer as [data|]; [|done]. cbn [mbind result_bind].
  unfold Py.getitem. destruct (data !! "jwt") as [jwt|] eqn:Hjwt; [|done].
  cbn [mbind result_bind]. intros [= <-]. by exists self, pw, data.
Qed.

(** X26: a login that is answered with a false [jwt] (null, an empty
    string, zero) does not fail: [_logged_on_client] returns a client, and
    it is this client's export that raises [NotLoggedInError], whatever the
    site would answer. *)
Theorem login_without_token (instance username pw : string)
    (data : gmap string pyval) (jwt : pyval) (self : LemmyClient.t) :
  client_of instance = Ok self ->
  data !! "jwt" = Some jwt ->
  falsy jwt = true ->
  exists client,
    _logged_on_client bracketed_netloc_ok instance username (Ok pw) (Ok data)
      = Ok client /\
    forall follows,
      LemmyClient.subscribed_communities bracketed_netloc_ok client follows
        = Raise NotLoggedInError /\
      forall categories sort_by,
        LemmyClient.subscribed_to_opml categories sort_by bracketed_netloc_ok
          client follows = Raise NotLoggedInError.
Proof.
  intros Hself Hjwt Hfalsy. unfold _logged_on_client. rewrite Hself.
  cbn [mbind result_bind]. unfold LemmyClient.login, Py.getitem.
  cbn [mbind result_bind]. rewrite Hjwt. cbn [mbind result_bind].
  eexists. split; [done|]. intros follows.
  unfold LemmyClient.subscribed_to_opml, LemmyClient.subscribed_communities,
    LemmyClient.not_logged_in.
  cbn [LemmyClient.auth_token]. unfold falsy in Hfalsy.
  destruct jwt; rewrite ?Hfalsy; done.
Qed.

End client_properties.

(** ** [subscribe] and [import_communities] *)

Lemma resolved_app rs1 rs2 : resolved (rs1 ++ rs2) = (resolved rs1 ++ resolved rs2)%list.
Proof. apply flat_map_app. Qed.

Lemma followed_app rs1 rs2 : followed (rs1 ++ rs2) = (followed rs1 ++ followed rs2)%list.
Proof. apply flat_map_app. Qed.

Section import.

Variable bracketed_netloc_ok : string -> bool.
Variable answers : nat -> result (gmap string LemmyClient.follow).

Abbreviation subscribe' := (LemmyClient.subscribe bracketed_netloc_ok answers).
Abbreviation subscribe_all' := (subscribe_all bracketed_netloc_ok answers).

(** What one call of [subscribe] sends. *)
Lemma subscribe_sends self c net :
  exists new,
    snd (subscribe' self c net) =
      LemmyClient.mkNetwork (LemmyClient.answered net + length new)
                            (LemmyClient.sent net ++ new) /\
    (LemmyClient.not_logged_in self = true ->
     new = [] /\ fst (subscribe' self c net) = Raise NotLoggedInError) /\
    (LemmyClient.not_logged_in self = false ->
     Forall2 profile_of (resolved new) (without_id [c])) /\
    (length (followed new) <= 1)%nat /\
    (forall u, fst (subscribe' self c net) = Ok u -> length (followed new) = 1%nat).
Proof.
  unfold LemmyClient.subscribe.
  destruct (LemmyClient.not_logged_in self) eqn:Hin.
  { exists []. cbn [fst snd length]. rewrite app_nil_r, Nat.add_0_r.
    destruct net. repeat split; try done. simpl. lia. }
  unfold without_id. cbn [List.filter].
  destruct (LemmyCommunity.id c) eqn:Hid.
  - unfold LemmyClient.resolve_community. rewrite Hin, html_url_None.
    unfold LemmyClient.send.
    set (r := LemmyClient.ResolveObject _ _ _).
    destruct (answers (LemmyClient.answered net) ≫= _) as [c'|e].
    + eexists [r; _].
      cbn [fst snd length LemmyClient.answered LemmyClient.sent].
      split; [f_equal; [lia|by rewrite <- app_assoc]|]. split; [done|]. split.
      { intros _. constructor; [|constructor]. apply html_url_None. }
      split; [simpl; lia|]. done.
    + exists [r]. cbn [fst snd length]. split; [f_equal; lia|].
      split; [done|]. split.
      { intros _. constructor; [|constructor]. apply html_url_None. }
      split; [simpl; lia|]. done.
  - unfold LemmyClient.send. eexists [_]. cbn [fst snd length].
    split; [f_equal; lia|]. split; [done|]. split; [by constructor|].
    split; [simpl; lia|]. done.
  - unfold LemmyClient.send. eexists [_]. cbn [fst snd length].
    split; [f_equal; lia|]. split; [done|]. split; [by constructor|].
    split; [simpl; lia|]. done.
Qed.

Lemma without_id_cons c cs :
  without_id (c :: cs) = (without_id [c] ++ without_id cs)%list.
Proof.
  unfold without_id. cbn [List.filter].
  by destruct (LemmyCommunity.id c).
Qed.

Lemma subscribe_all_sends client cs n_subscribed n_failed net :
  exists subscribed failed new,
    subscribe_all' client cs n_subscribed n_failed net =
      (subscribed, failed,
       LemmyClient.mkNetwork (LemmyClient.answered net + length new)
                             (LemmyClient.sent net ++ new)) /\
    (subscribed + failed = n_subscribed + n_failed + length cs)%nat /\
    (n_subscribed <= subscribed)%nat /\ (n_failed <= failed)%nat /\
    (subscribed - n_subscribed <= length (followed new))%nat /\
    (length (followed new) <= length cs)%nat /\
    (LemmyClient.not_logged_in client = true ->
     new = [] /\ subscribed = n_subscribed) /\
    (LemmyClient.not_logged_in client = false ->
     Forall2 profile_of (resolved new) (without_id cs)).
Proof.
  revert n_subscribed n_failed net.
  induction cs as [|c cs IH]; intros n_subscribed n_failed net.
  - exists n_subscribed, n_failed, []. cbn [subscribe_all length].
    rewrite app_nil_r, Nat.add_0_r. destruct net.
    repeat split; try done; try lia; try (simpl; lia);
      try (intros _; constructor).
  - cbn [subscribe_all].
    destruct (subscribe_sends client c net)
      as (new1 & Hnet & Hout & Hres & Hle & Hok).
    destruct (subscribe' client c net) as [outcome net1].
    cbn [fst snd] in *. subst net1.
    set (net1 := LemmyClient.mkNetwork _ _).
    destruct outcome as [u|e].
    + destruct (IH (S n_subscribed) n_failed net1)
        as (subscribed & failed & new2 & -> & Hsum & Hs & Hf & Hfol & Hlen & Hout2 & Hres2).
      exists subscribed, failed, (new1 ++ new2)%list.
      cbn [LemmyClient.answered LemmyClient.sent net1].
      rewrite length_app, followed_app, resolved_app, length_app, <- app_assoc.
      specialize (Hok u eq_refl).
      split; [do 2 f_equal; lia|].
      cbn [length]. do 5 (split; [lia|]). split.
      * intros Hin. by destruct (Hout Hin) as [_ ?].
      * intros Hin. rewrite without_id_cons. apply Forall2_app; auto.
    + destruct (IH n_subscribed (S n_failed) net1)
        as (subscribed & failed & new2 & -> & Hsum & Hs & Hf & Hfol & Hlen & Hout2 & Hres2).
      exists subscribed, failed, (new1 ++ new2)%list.
      cbn [LemmyClient.answered LemmyClient.sent net1].
      rewrite length_app, followed_app, resolved_app, length_app, <- app_assoc.
      split; [do 2 f_equal; lia|].
      cbn [length]. do 5 (split; [lia|]). split.
      * intros Hin. destruct (Hout Hin) as [-> _].
        by destruct (Hout2 Hin) as [-> ->].
      * intros Hin. rewrite without_id_cons. apply Forall2_app; auto.
Qed.

End import.

Lemma without_id_all cs :
  Forall (fun c => LemmyCommunity.id c = PyNone) cs -> without_id cs = cs.
Proof.
  induction 1 as [|c cs Hc _ IH]; [done|].
  unfold without_id in *. cbn [List.filter]. by rewrite Hc, IH.
Qed.

Lemma profile_of_with_details q c i t d :
  profile_of q (with_details c i t d) <-> profile_of q c.
Proof. done. Qed.

Section import_properties.

Variable bracketed_netloc_ok : string -> bool.
Variable answers : nat -> result (gmap string LemmyClient.follow).

Lemma from_feed_url_id url c :
  LemmyCommunity.from_feed_url bracketed_netloc_ok url = Ok c ->
  LemmyCommunity.id c = PyNone.
Proof.
  unfold LemmyCommunity.from_feed_url.
  destruct (urllib.urlsplit _ url) as [[parsed|]|]; simpl; try done.
  destruct (Py.index _ 0) as [t0|]; simpl; [|done].
  destruct (String.eqb t0 "feeds"); simpl; [|done].
  destruct (Py.index _ 1) as [t1|]; simpl; [|done].
  destruct (String.eqb t1 "c"); simpl; [|done].
  destruct (Py.index _ 2) as [t2|]; simpl; [|done].
  by intros [= <-].
Qed.

Lemma from_outline_id o c :
  LemmyCommunity.from_outline bracketed_netloc_ok o = Ok c ->
  LemmyCommunity.id c = PyNone.
Proof.
  unfold LemmyCommunity.from_outline.
  destruct (LemmyCommunity.from_url _ _ _ _ _) as [c0|e] eqn:Hu.
  { intros [= <-]. by destruct (from_url_fields _ _ _ _ _ _ Hu) as [? _]. }
  assert (LemmyCommunity.from_feed_url bracketed_netloc_ok (opyml.xml_url o)
          = Ok c -> LemmyCommunity.id c = PyNone) as Hfeed
    by apply from_feed_url_id.
  destruct e; try done.
  all: destruct (LemmyCommunity.from_feed_url _ _) as [c1|e1];
    [intros [= <-]; by apply Hfeed|by destruct e1].
Qed.

Lemma from_opml_loop_ids walked communities failed communities' failed' :
  Forall (fun c => LemmyCommunity.id c = PyNone) communities ->
  LemmyCommunity.from_opml_loop bracketed_netloc_ok walked communities failed
    = Ok (communities', failed') ->
  Forall (fun c => LemmyCommunity.id c = PyNone) communities'.
Proof.
  revert communities failed.
  induction walked as [|o walked IH]; intros communities failed Hids; simpl.
  - by intros [= <- <-].
  - destruct (LemmyCommunity.from_outline _ o) as [c|e] eqn:Ho.
    + apply IH. apply Forall_app. split; [done|].
      constructor; [|done]. by eapply from_outline_id.
    + destruct e; try done. by apply IH.
Qed.

(** X27: [subscribe] for a record without [id], when the site answers the
    resolution with a record that [from_dict] accepts: the client sends two
    requests, the profile URL of the record without a sort order to
    [resolve_object], then the [id] of the site's record to
    [community/follow], both under [api/v3] of the site URL and with the
    token; the call returns when the second one is answered. *)
Theorem subscribe_resolves_first (self : LemmyClient.t)
    (c c' : LemmyCommunity.t) (net : LemmyClient.network)
    (data : gmap string LemmyClient.follow) (view : LemmyClient.follow)
    (community : gmap string pyval) :
  LemmyClient.not_logged_in self = false ->
  LemmyCommunity.id c = PyNone ->
  answers (LemmyClient.answered net) = Ok data ->
  data !! "community" = Some view ->
  view !! "community" = Some community ->
  LemmyCommunity.from_dict bracketed_netloc_ok community = Ok c' ->
  exists q,
    LemmyCommunity.html_url c None = Ok q /\
    community !! "id" = Some (LemmyCommunity.id c') /\
    LemmyClient.subscribe bracketed_netloc_ok answers self c net =
      (_ ← answers (S (LemmyClient.answered net)); Ok tt,
       LemmyClient.mkNetwork (S (S (LemmyClient.answered net)))
         (LemmyClient.sent net ++
          [LemmyClient.ResolveObject
             (LemmyClient.site_url self ++ "/api/v3/resolve_object") q
             (LemmyClient.auth_token self);
           LemmyClient.FollowCommunity
             (LemmyClient.site_url self ++ "/api/v3/community/follow")
             (LemmyCommunity.id c') (LemmyClient.auth_token self)])).
Proof.
  intros Hin Hid Hdata Hview Hcommunity Hc'.
  eexists. split; [apply html_url_None|]. split.
  { revert Hc'. unfold LemmyCommunity.from_dict, Py.getitem.
    destruct (community !! "actor_id") as [url|]; [|done].
    destruct (community !! "id") as [i|]; [|done]. cbn [mbind result_bind].
    intros Hu. by destruct (from_url_fields _ _ _ _ _ _ Hu) as [-> _]. }
  unfold LemmyClient.subscribe, LemmyClient.resolve_community.
  rewrite Hin, Hid, html_url_None. unfold LemmyClient.send.
  rewrite Hdata. cbn [mbind result_bind]. unfold Py.getitem at 1 2.
  unfold LemmyClient.follow in *.
  rewrite Hview. cbn [mbind result_bind]. rewrite Hcommunity.
  cbn [mbind result_bind]. rewrite Hc'.
  cbn [LemmyClient.answered LemmyClient.sent].
  unfold LemmyClient.base_api_url.
  rewrite <- !app_assoc, !append_assoc. reflexivity.
Qed.

(** X28: when [import_communities] gets to its last log entry, the
    subscriptions and the failures it reports add up to the records that
    [from_opml] found, and with the parse failures to the leaves of the
    document; each subscription sent a follow request; a client without a
    token sends no request and subscribes to nothing; a client with a
    token resolves every record, by its profile URL without a sort order
    and in the order of the document, since [from_opml] gives records
    without [id]. *)
Theorem import_communities_requests (client : LemmyClient.t)
    (body : list opyml.Outline) (net net' : LemmyClient.network)
    (n_subscribed n_failed : nat) :
  import_communities bracketed_netloc_ok answers client body net
    = (Ok (n_subscribed, n_failed), net') ->
  exists communities parse_fails new,
    LemmyCommunity.from_opml bracketed_netloc_ok body
      = Ok (communities, parse_fails) /\
    net' = LemmyClient.mkNetwork (LemmyClient.answered net + length new)
                                 (LemmyClient.sent net ++ new) /\
    (n_subscribed + n_failed = length communities)%nat /\
    (n_subscribed + n_failed + parse_fails = length (_walk_outlines body))%nat /\
    (n_subscribed <= length (followed new))%nat /\
    (length (followed new) <= length communities)%nat /\
    (LemmyClient.not_logged_in client = true ->
     new = [] /\ n_subscribed = 0%nat) /\
    (LemmyClient.not_logged_in client = false ->
     Forall2 profile_of (resolved new) communities).
Proof.
  unfold import_communities.
  destruct (LemmyCommunity.from_opml _ body) as [[communities parse_fails]|]
    eqn:Hopml; [|done].
  destruct (subscribe_all_sends bracketed_netloc_ok answers client communities
              0 0 net)
    as (subscribed & failed & new & -> & Hsum & _ & _ & Hfol & Hlen & Hout & Hres).
  intros [= <- <- <-]. exists communities, parse_fails, new.
  pose proof (from_opml_counts _ _ _ _ Hopml) as Hcount.
  split; [done|]. split; [done|]. split; [lia|]. split; [lia|].
  split; [lia|]. split; [lia|]. split; [done|].
  intros Hin. rewrite <- (without_id_all communities); [by apply Hres|].
  unfold LemmyCommunity.from_opml in Hopml.
  by eapply from_opml_loop_ids.
Qed.

End import_properties.

Section import_of_export.

Variable bracketed_netloc_ok : string -> bool.
Variable answers : nat -> result (gmap string LemmyClient.follow).

(** The loop of [from_opml] reads the [htmlUrl] of an outline first: on
    outlines that have the [htmlUrl]s of the leaves of safe records it finds
    these records, whatever their other attributes. *)
Lemma from_opml_loop_read sort_by cs walked communities failed :
  Forall (fun c => url_safe bracketed_netloc_ok c = true) cs ->
  map opyml.html_url walked = map opyml.html_url (map (leaf_of sort_by) cs) ->
  LemmyCommunity.from_opml_loop bracketed_netloc_ok walked communities failed =
    Ok ((communities
         ++ map (fun c => with_details c PyNone PyNone PyNone) cs)%list,
        failed).
Proof.
  intros Hsafe. revert walked communities.
  induction Hsafe as [|c cs Hc Hsafe IH]; intros walked communities.
  - destruct walked; [|done]. intros _. simpl. by rewrite app_nil_r.
  - destruct walked as [|o walked]; [done|]. cbn [map].
    intros [= Ho Hwalked]. cbn [LemmyCommunity.from_opml_loop].
    destruct (leaf_of_html_url sort_by c) as (url & Hurl & Hhtml).
    destruct (html_url_sorted_parses bracketed_netloc_ok c sort_by
                PyNone PyNone PyNone Hc) as (url' & Hurl' & Hparse).
    rewrite Hurl in Hurl'. injection Hurl' as <-.
    unfold LemmyCommunity.from_outline at 1. rewrite Ho, Hhtml, Hparse.
    rewrite IH by done. by rewrite <- app_assoc.
Qed.

(** X29: the import of a document that has, at its leaves and in their
    order, the [htmlUrl]s of the leaves of an export of safe records (of
    strings of code points below 256), whatever the sort order and the
    categories of the export and whatever else the file in between kept of
    the document: with a client that has a token, [import_communities]
    finds every record, reports one subscription or one failure for each,
    as many as the export counted, and resolves the records by their
    profile URLs without the sort order: in the order of the records
    without categories, host by host with them. *)
Theorem import_of_export (categories : bool) (sort_by : option string)
    (cs : list LemmyCommunity.t) (client : LemmyClient.t)
    (net : LemmyClient.network) (body read : list opyml.Outline)
    (exported : nat) :
  Forall (fun c => url_safe bracketed_netloc_ok c = true) cs ->
  LemmyClient.not_logged_in client = false ->
  LemmyClient.opml_of categories sort_by cs = Ok (body, exported) ->
  map opyml.html_url (_walk_outlines read)
    = map opyml.html_url (_walk_outlines body) ->
  exists n_subscribed n_failed new,
    import_communities bracketed_netloc_ok answers client read net =
      (Ok (n_subscribed, n_failed),
       LemmyClient.mkNetwork (LemmyClient.answered net + length new)
                             (LemmyClient.sent net ++ new)) /\
    (n_subscribed + n_failed = exported)%nat /\
    exported = length cs /\
    Forall2 profile_of (resolved new)
            (if categories then regrouped cs else cs).
Proof.
  intros Hsafe Hin Hbody Hread.
  set (cs' := if categories then regrouped cs else cs).
  assert (cs' ≡ₚ cs) as Hperm.
  { unfold cs'. destruct categories; [apply regrouped_Permutation|done]. }
  assert (Forall (fun c => url_safe bracketed_netloc_ok c = true) cs')
    as Hsafe'.
  { apply Forall_forall. intros c Hc.
    apply (proj1 (Forall_forall _ _) Hsafe). by rewrite <- Hperm. }
  assert (exported = length cs /\
          _walk_outlines body = map (leaf_of sort_by) cs') as [-> Hwalk].
  { revert Hbody. unfold LemmyClient.opml_of, cs'. destruct categories.
    - rewrite body_outlines_grouped. intros [= <- <-]. split; [done|].
      apply walk_grouped.
    - rewrite body_outlines_leaves. intros [= <- <-]. split; [done|].
      apply walk_leaves. }
  rewrite Hwalk in Hread.
  unfold import_communities, LemmyCommunity.from_opml.
  rewrite (from_opml_loop_read sort_by cs') by done. cbn [app].
  set (found := map _ cs').
  destruct (subscribe_all_sends bracketed_netloc_ok answers client found
              0 0 net)
    as (subscribed & failed & new & -> & Hsum & _ & _ & _ & _ & _ & Hres).
  exists subscribed, failed, new. split; [done|].
  assert (length found = length cs) as Hlen.
  { unfold found. rewrite length_map. by apply Permutation_length. }
  split; [lia|]. split; [done|].
  specialize (Hres Hin). rewrite without_id_all in Hres.
  2:{ unfold found. apply Forall_forall.
      by intros c (c0 & -> & _)%list_elem_of_fmap. }
  apply (proj1 (Forall2_fmap_r
                  (fun c => with_details c PyNone PyNone PyNone)
                  profile_of (resolved new) cs')) in Hres.
  eapply Forall2_impl; [exact Hres|].
  intros q c Hq. by apply (profile_of_with_details q c PyNone PyNone PyNone).
Qed.

End import_of_export.

(** ** Instances *)

Lemma from_opml_accounts_for_every_leaf_witness :
  LemmyCommunity.from_opml any_bracketed_netloc mixed_document
    = Ok ([lemmy_community; kbin_magazine], 1%nat) /\
  (length [lemmy_community; kbin_magazine] + 1
   = length (_walk_outlines mixed_document))%nat.
Proof.
  assert (LemmyCommunity.from_opml any_bracketed_netloc mixed_document
          = Ok ([lemmy_community; kbin_magazine], 1%nat)) as H
    by (by vm_compute).
  split; [exact H|].
  exact (from_opml_accounts_for_every_leaf any_bracketed_netloc _ _ _ H).
Defined.

Lemma from_url_then_html_url_witness :
  url_safe any_bracketed_netloc subscribed_lemmy = true /\
  exists rendered,
    LemmyCommunity.html_url subscribed_lemmy None = Ok rendered /\
    LemmyCommunity.from_url any_bracketed_netloc (PyStr rendered)
      (PyInt 7) (PyStr "Rust") PyNone = Ok subscribed_lemmy.
Proof.
  assert (LemmyCommunity.from_url any_bracketed_netloc
            (PyStr "http://lemmy.ml/c/rust/") (PyInt 7) (PyStr "Rust") PyNone
          = Ok subscribed_lemmy) as H by (by vm_compute).
  exact (from_url_then_html_url any_bracketed_netloc _ _ _ _ _ H).
Defined.

Lemma from_url_attaches_details_witness :
  LemmyCommunity.id subscribed_kbin = PyInt 9 /\
  LemmyCommunity.title subscribed_kbin = PyNone /\
  LemmyCommunity.description subscribed_kbin = PyNone /\
  exists c',
    LemmyCommunity.from_url any_bracketed_netloc
      (PyStr "https://kbin.social/m/rust") PyNone (PyStr "Rust") (PyStr "About Rust")
      = Ok c' /\
    identity c' = identity subscribed_kbin /\
    LemmyCommunity.id c' = PyNone /\ LemmyCommunity.title c' = PyStr "Rust" /\
    LemmyCommunity.description c' = PyStr "About Rust".
Proof.
  assert (LemmyCommunity.from_url any_bracketed_netloc
            (PyStr "https://kbin.social/m/rust") (PyInt 9) PyNone PyNone
          = Ok subscribed_kbin) as H by (by vm_compute).
  exact (from_url_attaches_details any_bracketed_netloc _ _ _ _
           PyNone (PyStr "Rust") (PyStr "About Rust") _ H).
Defined.

Lemma feed_url_round_trip_witness :
  exists url c',
    LemmyCommunity.rss_url lemmy_community None = Ok url /\
    LemmyCommunity.from_feed_url any_bracketed_netloc (PyStr url) = Ok c' /\
    identity c' = identity lemmy_community.
Proof.
  apply (feed_url_round_trip any_bracketed_netloc lemmy_community);
    reflexivity.
Defined.

Lemma from_opml_category_transparent_witness :
  LemmyCommunity.from_opml any_bracketed_netloc
    ([rss_leaf (PyStr "https://lemmy.ml/c/rust") PyNone]
     ++ category "kbin.social"
          [rss_leaf (PyStr "https://kbin.social/m/rust") PyNone]
     :: [rss_leaf (PyStr "https://example.org/blog/") PyNone]) =
  LemmyCommunity.from_opml any_bracketed_netloc
    ([rss_leaf (PyStr "https://lemmy.ml/c/rust") PyNone]
     ++ opyml.outlines
          (category "kbin.social"
             [rss_leaf (PyStr "https://kbin.social/m/rust") PyNone])
     ++ [rss_leaf (PyStr "https://example.org/blog/") PyNone]).
Proof.
  apply (from_opml_category_transparent any_bracketed_netloc). reflexivity.
Defined.

Lemma supported_sort_is_appended_witness :
  exists html rss,
    LemmyCommunity.html_url kbin_magazine None = Ok html /\
    LemmyCommunity.rss_url kbin_magazine None = Ok rss /\
    LemmyCommunity.html_url kbin_magazine (Some "new") =
      Ok (html ++ (if LemmyCommunity.is_kbin kbin_magazine then "/" ++ "newest"
                   else "?sort=" ++ "newest")) /\
    LemmyCommunity.rss_url kbin_magazine (Some "new") =
      Ok (if LemmyCommunity.is_kbin kbin_magazine then rss
          else rss ++ "?sort=" ++ "newest").
Proof.
  apply (supported_sort_is_appended kbin_magazine "new" "newest").
  by vm_compute.
Defined.

Lemma sorted_url_round_trip_witness :
  exists url c',
    LemmyCommunity.html_url kbin_magazine (Some "hot") = Ok url /\
    LemmyCommunity.from_url any_bracketed_netloc (PyStr url)
      PyNone PyNone PyNone = Ok c' /\
    identity c' = identity kbin_magazine.
Proof.
  apply (sorted_url_round_trip any_bracketed_netloc kbin_magazine).
  reflexivity.
Defined.

Lemma kbin_feed_url_is_not_parsed_witness :
  exists url,
    LemmyCommunity.rss_url kbin_magazine None = Ok url /\
    LemmyCommunity.from_feed_url any_bracketed_netloc (PyStr url)
      = Raise (ValueError (NotAFeedUrl (PyStr url))).
Proof.
  apply (kbin_feed_url_is_not_parsed any_bracketed_netloc kbin_magazine);
    reflexivity.
Defined.

Lemma export_then_import_witness :
  exists body found,
    LemmyClient.opml_of false (Some "hot") [subscribed_lemmy; subscribed_kbin]
      = Ok (body, length [subscribed_lemmy; subscribed_kbin]) /\
    LemmyCommunity.from_opml any_bracketed_netloc body = Ok (found, 0%nat) /\
    map identity found = map identity [subscribed_lemmy; subscribed_kbin].
Proof.
  apply (export_then_import any_bracketed_netloc).
  repeat constructor.
Defined.

Lemma categorised_export_then_import_witness :
  exists body found,
    LemmyClient.opml_of true None
        [subscribed_lemmy; subscribed_kbin; lemmy_community]
      = Ok (body, length [subscribed_lemmy; subscribed_kbin; lemmy_community]) /\
    LemmyCommunity.from_opml any_bracketed_netloc body = Ok (found, 0%nat) /\
    map identity found =
      map identity (regrouped [subscribed_lemmy; subscribed_kbin; lemmy_community]) /\
    map identity found
      ≡ₚ map identity [subscribed_lemmy; subscribed_kbin; lemmy_community].
Proof.
  apply (categorised_export_then_import any_bracketed_netloc).
  repeat constructor.
Defined.

Lemma subscribed_communities_returns_iff_witness :
  (exists found,
     LemmyClient.subscribed_communities any_bracketed_netloc logged_in_client
       (Ok site_follows) = Ok found) <->
  Forall (fun c => follow_ok c = true) site_follows.
Proof.
  apply (subscribed_communities_returns_iff any_bracketed_netloc).
  reflexivity.
Defined.

Lemma subscribed_communities_returns_witness :
  LemmyClient.not_logged_in logged_in_client = false /\
  exists answer,
    Ok site_follows = Ok answer /\
    [subscribed_lemmy; subscribed_kbin]
      = parsed_follows any_bracketed_netloc answer /\
    (length [subscribed_lemmy; subscribed_kbin] <= length answer)%nat /\
    Forall (fun c => url_safe any_bracketed_netloc c = true)
           [subscribed_lemmy; subscribed_kbin].
Proof.
  apply (subscribed_communities_returns any_bracketed_netloc).
  by vm_compute.
Defined.

Lemma subscribed_to_opml_then_from_opml_witness :
  exists subscribed found,
    LemmyClient.subscribed_communities any_bracketed_netloc logged_in_client
      (Ok site_follows) = Ok subscribed /\
    LemmyCommunity.from_opml any_bracketed_netloc
      [category "lemmy.ml" [leaf_of (Some "hot") subscribed_lemmy];
       category "kbin.social" [leaf_of (Some "hot") subscribed_kbin]]
      = Ok (found, 0%nat) /\
    length found = 2%nat /\
    map identity found ≡ₚ map identity subscribed /\
    (true = false -> map identity found = map identity subscribed).
Proof.
  apply (subscribed_to_opml_then_from_opml any_bracketed_netloc true
           (Some "hot") logged_in_client (Ok site_follows)).
  by vm_compute.
Defined.

Lemma client_of_site_witness :
  LemmyClient.site_url fresh_client = to_https "http://lemmy.ml" /\
  urllib.scheme (LemmyClient._parsed fresh_client) = "https" /\
  LemmyClient.instance fresh_client
    = urllib.netloc (LemmyClient._parsed fresh_client) /\
  host_safe any_bracketed_netloc (LemmyClient.instance fresh_client) = true /\
  LemmyClient.username fresh_client = None /\
  LemmyClient.auth_token fresh_client = PyNone /\
  forall follows,
    LemmyClient.subscribed_communities any_bracketed_netloc fresh_client follows
      = Raise NotLoggedInError /\
    forall categories sort_by,
      LemmyClient.subscribed_to_opml categories sort_by any_bracketed_netloc
        fresh_client follows = Raise NotLoggedInError.
Proof.
  apply (client_of_site any_bracketed_netloc "http://lemmy.ml" fresh_client).
  by vm_compute.
Defined.

Lemma client_of_host_witness :
  LemmyClient.__init__ any_bracketed_netloc "lemmy.ml" = Ok fresh_client /\
  LemmyClient.__init__ any_bracketed_netloc ("http://" ++ "lemmy.ml")
    = Ok fresh_client /\
  LemmyClient.__init__ any_bracketed_netloc ("https://" ++ "lemmy.ml")
    = Ok fresh_client.
Proof.
  apply (client_of_host any_bracketed_netloc "lemmy.ml"). reflexivity.
Defined.

Lemma user_url_of_site_witness :
  exists self,
    LemmyClient.__init__ any_bracketed_netloc "lemmy.ml/communities?page=2#top"
      = Ok self /\
    LemmyClient.user_url
      (fst (LemmyClient.login self "alice" "secret" (Raise AttributeError)))
      = "https://lemmy.ml/u/alice?page=2#top" /\
    LemmyClient.user_url self = "https://lemmy.ml/u/None?page=2#top".
Proof.
  assert (LemmyClient.__init__ any_bracketed_netloc
            "lemmy.ml/communities?page=2#top"
          = Ok (LemmyClient.mk "https://lemmy.ml/communities?page=2#top"
                  (urllib.mkSplitResult "https" "lemmy.ml" "/communities"
                     "page=2" "top")
                  "lemmy.ml" None PyNone)) as H by (by vm_compute).
  eexists. split; [exact H|].
  destruct (user_url_of_site any_bracketed_netloc _ _ "alice" "secret"
              (Raise AttributeError) H) as (Hfresh & _ & Hlogin & _).
  split; [exact Hlogin|exact Hfresh].
Defined.

Lemma login_without_token_witness :
  exists client,
    _logged_on_client any_bracketed_netloc "lemmy.ml" "alice" (Ok "secret")
      (Ok (<["jwt" := PyNone]> ∅)) = Ok client /\
    forall follows,
      LemmyClient.subscribed_communities any_bracketed_netloc client follows
        = Raise NotLoggedInError /\
      forall categories sort_by,
        LemmyClient.subscribed_to_opml categories sort_by any_bracketed_netloc
          client follows = Raise NotLoggedInError.
Proof.
  apply (login_without_token any_bracketed_netloc "lemmy.ml" "alice" "secret"
           (<["jwt" := PyNone]> ∅) PyNone fresh_client); by vm_compute.
Defined.

Lemma subscribe_resolves_first_witness :
  exists q,
    LemmyCommunity.html_url lemmy_community None = Ok q /\
    api_record !! "id" = Some (LemmyCommunity.id subscribed_lemmy) /\
    LemmyClient.subscribe any_bracketed_netloc site_answers logged_in_client
        lemmy_community idle_network =
      (_ ← site_answers (S (LemmyClient.answered idle_network)); Ok tt,
       LemmyClient.mkNetwork (S (S (LemmyClient.answered idle_network)))
         (LemmyClient.sent idle_network ++
          [LemmyClient.ResolveObject
             (LemmyClient.site_url logged_in_client ++ "/api/v3/resolve_object")
             q (LemmyClient.auth_token logged_in_client);
           LemmyClient.FollowCommunity
             (LemmyClient.site_url logged_in_client
              ++ "/api/v3/community/follow")
             (LemmyCommunity.id subscribed_lemmy)
             (LemmyClient.auth_token logged_in_client)])).
Proof.
  apply (subscribe_resolves_first any_bracketed_netloc site_answers
           logged_in_client lemmy_community subscribed_lemmy idle_network
           resolved_answer (follow_of api_record) api_record);
    by vm_compute.
Defined.

Lemma import_communities_requests_witness :
  let net' :=
    snd (import_communities any_bracketed_netloc site_answers logged_in_client
           mixed_document idle_network) in
  import_communities any_bracketed_netloc site_answers logged_in_client
      mixed_document idle_network = (Ok (1%nat, 1%nat), net') /\
  exists communities parse_fails new,
    LemmyCommunity.from_opml any_bracketed_netloc mixed_document
      = Ok (communities, parse_fails) /\
    net' = LemmyClient.mkNetwork
             (LemmyClient.answered idle_network + length new)
             (LemmyClient.sent idle_network ++ new) /\
    (1 + 1 = length communities)%nat /\
    (1 + 1 + parse_fails = length (_walk_outlines mixed_document))%nat /\
    (1 <= length (followed new))%nat /\
    (length (followed new) <= length communities)%nat /\
    (LemmyClient.not_logged_in logged_in_client = true ->
     new = [] /\ 1%nat = 0%nat) /\
    (LemmyClient.not_logged_in logged_in_client = false ->
     Forall2 profile_of (resolved new) communities).
Proof.
  intros net'.
  assert (import_communities any_bracketed_netloc site_answers logged_in_client
            mixed_document idle_network = (Ok (1%nat, 1%nat), net')) as H
    by (by vm_compute).
  split; [exact H|].
  exact (import_communities_requests any_bracketed_netloc site_answers
           _ _ _ _ _ _ H).
Defined.

Lemma import_of_export_witness :
  exists n_subscribed n_failed new,
    import_communities any_bracketed_netloc site_answers logged_in_client
        read_document idle_network =
      (Ok (n_subscribed, n_failed),
       LemmyClient.mkNetwork (LemmyClient.answered idle_network + length new)
                             (LemmyClient.sent idle_network ++ new)) /\
    (n_subscribed + n_failed = 2)%nat /\
    2%nat = length [subscribed_lemmy; subscribed_kbin] /\
    Forall2 profile_of (resolved new)
            (if true then regrouped [subscribed_lemmy; subscribed_kbin]
             else [subscribed_lemmy; subscribed_kbin]).
Proof.
  apply (import_of_export any_bracketed_netloc site_answers true (Some "hot")
           [subscribed_lemmy; subscribed_kbin] logged_in_client idle_network
           exported_document read_document 2).
  - repeat constructor.
  - reflexivity.
  - by vm_compute.
  - by vm_compute.
Defined.
